(** * Verification of the storefront recommendation and bundle pipelines

    A shallow embedding of the JavaScript sources

    - [app/components/AIRecommender] (the recommendation widget),
    - [app/lib/gemini] ([getGeminiRecommendations],
      [getRecommendationsWithFallback]),
    - [app/routes/bundles.$handle] ([extractPlainText],
      [formatImageReference], [formatBundleFields], [collectProducts],
      [loader], and what [BundleDetail] computes for the cart),
    - [app/routes/api.recommendations] ([action], on the bodies the
      widget sends and on any JSON body, and [loader]),
    - [app/routes/bundles._index] ([formatBundleFields] and the cards
      of [BundlesIndex]),

    together with the properties their specification states about them
    and further properties of the code.  The module [Spec] holds the
    vocabulary of the specification, the modules [Sample] and [Fixture]
    the data of the examples.

    Conventions of the embedding.

    - A JavaScript string is a Rocq [string] of bytes: a code unit of
      the ASCII range is one byte, a code unit above it is its UTF-8
      bytes, as [Json.code_unit] writes them.  [\s], [trim] and
      [parseFloat] recognise the white space of the language in this
      form; [toLowerCase] acts on [A-Z] and [substring] counts bytes.
    - A JavaScript number is an IEEE-754 binary64 value, [spec_float] at
      precision 53 and maximal exponent 1024, with the operations of
      the standard library's [SpecFloat].
    - [undefined] and [null] are [None] where the source only tests
      them for truthiness or through [?.] and [??].
    - Exceptions are values of [exn]; a computation that may throw
      returns [exn + A].  [async] functions that call [fetch] take the
      transport as an argument and return the log of the requests they
      issued next to their outcome. *)

From Stdlib Require Import String Ascii List ZArith Lia Bool.
From Stdlib Require Import SpecFloat DecimalString.
From stdpp Require Import gmap strings list.

Import ListNotations.
Local Open Scope string_scope.
Local Open Scope nat_scope.
Local Open Scope list_scope.

(** ** Strings *)

Module Str.

(** *** White space

    The white space of [\s], [trim] and [parseFloat]: the code units
    U+0009 to U+000D, U+0020, U+00A0, U+1680, U+2000 to U+200A, U+2028,
    U+2029, U+202F, U+205F, U+3000 and U+FEFF.  The first six are one
    byte; U+00A0 is the bytes C2 A0; the others are three bytes. *)

Definition byte (c : ascii) : nat := nat_of_ascii c.

(** Tab, line feed, vertical tab, form feed, carriage return, space. *)
Definition space1 (c : ascii) : bool :=
  ((9 <=? byte c) && (byte c <=? 13)) || (byte c =? 32).

(** U+00A0 *)
Definition space2 (c d : ascii) : bool :=
  (byte c =? 194) && (byte d =? 160).

(** E1 9A 80 (U+1680); E2 80 80 to E2 80 8A (U+2000 to U+200A);
    E2 80 A8, E2 80 A9 (U+2028, U+2029); E2 80 AF (U+202F);
    E2 81 9F (U+205F); E3 80 80 (U+3000); EF BB BF (U+FEFF). *)
Definition space3 (c d e : ascii) : bool :=
  ((byte c =? 225) && (byte d =? 154) && (byte e =? 128))
  || ((byte c =? 226) && (byte d =? 128)
      && (((128 <=? byte e) && (byte e <=? 138))
          || (byte e =? 168) || (byte e =? 169) || (byte e =? 175)))
  || ((byte c =? 226) && (byte d =? 129) && (byte e =? 159))
  || ((byte c =? 227) && (byte d =? 128) && (byte e =? 128))
  || ((byte c =? 239) && (byte d =? 187) && (byte e =? 191)).

(** The number of bytes of the white-space code unit at the head of
    [s], 0 when [s] does not start with one. *)
Definition space_len (s : string) : nat :=
  match s with
  | String c r =>
      if space1 c then 1
      else
        match r with
        | String d r2 =>
            if space2 c d then 2
            else
              match r2 with
              | String e _ => if space3 c d e then 3 else 0
              | EmptyString => 0
              end
        | EmptyString => 0
        end
  | EmptyString => 0
  end.

(** [s] is one white-space code unit. *)
Definition is_space (s : string) : bool :=
  match space_len s with
  | O => false
  | n => n =? String.length s
  end.

(** A string read from left to right: its white-space code units, and
    the bytes between them.  The first byte of a white-space code unit
    is no continuation byte of UTF-8, so that one is found only where a
    code unit starts. *)
Inductive piece : Type :=
| Space (raw : string)
| Char (c : ascii).

Definition is_gap (p : piece) : bool :=
  match p with Space _ => true | Char _ => false end.

Fixpoint pieces (s : string) : list piece :=
  match s with
  | EmptyString => []
  | String c r =>
      if space1 c then Space (String c "") :: pieces r
      else
        match r with
        | String d r2 =>
            if space2 c d then Space (String c (String d "")) :: pieces r2
            else
              match r2 with
              | String e r3 =>
                  if space3 c d e
                  then Space (String c (String d (String e ""))) :: pieces r3
                  else Char c :: pieces r
              | EmptyString => Char c :: pieces r
              end
        | EmptyString => Char c :: pieces r
        end
  end.

Fixpoint text (l : list piece) : string :=
  match l with
  | [] => EmptyString
  | Space raw :: r => raw +:+ text r
  | Char c :: r => String c (text r)
  end.

(** The lists that [pieces] produces: a white-space piece holds one
    white-space code unit, and no code unit starts at a byte. *)
Fixpoint read (l : list piece) : Prop :=
  match l with
  | [] => True
  | Space raw :: r => is_space raw = true /\ read r
  | Char c :: r => space_len (String c (text r)) = 0 /\ read r
  end.

Definition is_hyphen (c : ascii) : bool := Ascii.eqb c "-"%char.

Definition lower (c : ascii) : ascii :=
  let n := nat_of_ascii c in
  if (65 <=? n) && (n <=? 90) then ascii_of_nat (n + 32) else c.

(** [s.toLowerCase()] *)
Fixpoint toLowerCase (s : string) : string :=
  match s with
  | EmptyString => EmptyString
  | String c r => String (lower c) (toLowerCase r)
  end.

(** [s.replace(/-/g, '')] *)
Fixpoint remove_hyphens (s : string) : string :=
  match s with
  | EmptyString => EmptyString
  | String c r =>
      if is_hyphen c then remove_hyphens r else String c (remove_hyphens r)
  end.

(** [s.replace(/\s+/g, rep)]: every maximal run of white space becomes one
    copy of [rep].  [in_run] records that the previous piece was white
    space, so that the run has already been replaced. *)
Fixpoint replace_ws_from (rep : string) (in_run : bool) (l : list piece) : string :=
  match l with
  | [] => EmptyString
  | Space _ :: r =>
      if in_run then replace_ws_from rep true r
      else rep +:+ replace_ws_from rep true r
  | Char c :: r => String c (replace_ws_from rep false r)
  end.

Definition replace_ws (rep s : string) : string :=
  replace_ws_from rep false (pieces s).

(** The pieces of [s.replace(/\s+/g, ' ')]. *)
Fixpoint single_spaces (in_run : bool) (l : list piece) : list piece :=
  match l with
  | [] => []
  | Space _ :: r =>
      if in_run then single_spaces true r
      else Space " " :: single_spaces true r
  | Char c :: r => Char c :: single_spaces false r
  end.

(** [s.trimStart()], [s.trimEnd()], [s.trim()] *)
Fixpoint drop_gaps (l : list piece) : list piece :=
  match l with
  | Space _ :: r => drop_gaps r
  | _ => l
  end.

Fixpoint drop_end_gaps (l : list piece) : list piece :=
  match l with
  | [] => []
  | p :: r => if forallb is_gap l then [] else p :: drop_end_gaps r
  end.

Definition trimStart (s : string) : string := text (drop_gaps (pieces s)).

Definition trimEnd (s : string) : string := text (drop_end_gaps (pieces s)).

Definition trim (s : string) : string :=
  text (drop_end_gaps (drop_gaps (pieces s))).

(** [s.substring(0, n)] *)
Fixpoint take (n : nat) (s : string) : string :=
  match n, s with
  | S k, String c r => String c (take k r)
  | _, _ => EmptyString
  end.

(** [l.join(sep)] on an array of strings *)
Fixpoint join (sep : string) (l : list string) : string :=
  match l with
  | [] => ""
  | [x] => x
  | x :: r => x +:+ sep +:+ join sep r
  end.

(** The rest of [s] after its first character, when that is [c]. *)
Definition after_char (c : ascii) (s : string) : option string :=
  match s with
  | String x r => if Ascii.eqb x c then Some r else None
  | EmptyString => None
  end.

(** The words of [s]: its maximal runs of bytes that are not
    white space. *)
Fixpoint words_of (l : list piece) : list string :=
  match l with
  | [] => []
  | Space _ :: r => words_of r
  | Char c :: r =>
      match r with
      | Char _ :: _ =>
          match words_of r with
          | w :: rest => String c w :: rest
          | [] => [String c ""]
          end
      | _ => String c "" :: words_of r
      end
  end.

Definition words (s : string) : list string := words_of (pieces s).

(** The pieces of a string without white space. *)
Fixpoint chars (s : string) : list piece :=
  match s with
  | EmptyString => []
  | String c r => Char c :: chars r
  end.

(** Truthiness of a string: only [''] is falsy. *)
Definition truthy (s : string) : bool :=
  match s with EmptyString => false | _ => true end.

(** JSON texts are written below with ['] for the double quote. *)
Fixpoint dq (s : string) : string :=
  match s with
  | EmptyString => EmptyString
  | String c r =>
      String (if Ascii.eqb c "'"%char then ascii_of_nat 34 else c) (dq r)
  end.

End Str.

(** ** Exceptions

    The sources throw [new Error(message)]; the platform throws
    [TypeError] (a property read on [null] or [undefined], a call of
    something that is not a function, a rejected [fetch]) and
    [SyntaxError] ([JSON.parse]). *)

Inductive exn : Type :=
| Error (message : string)
| TypeError
| SyntaxError.

Definition result (A : Type) : Type := exn + A.

Definition ret {A} (a : A) : result A := inr a.
Definition throw {A} (e : exn) : result A := inl e.
Definition rbind {A B} (m : result A) (k : A -> result B) : result B :=
  match m with
  | inl e => inl e
  | inr a => k a
  end.

Declare Scope result_scope.
Delimit Scope result_scope with result.
Notation "'let*' x ':=' m 'in' k" := (rbind m (fun x => k))
  (at level 10, x name, m at level 100, k at level 200) : result_scope.
Local Open Scope result_scope.

(** ** Array helpers with callbacks that may throw *)

(** [l.find(f)] *)
Fixpoint find_r {A} (f : A -> result bool) (l : list A) : result (option A) :=
  match l with
  | [] => ret None
  | x :: r =>
      match f x with
      | inl e => throw e
      | inr true => ret (Some x)
      | inr false => find_r f r
      end
  end.

(** [l.map(f)] *)
Fixpoint map_r {A B} (f : A -> result B) (l : list A) : result (list B) :=
  match l with
  | [] => ret []
  | x :: r =>
      match f x with
      | inl e => throw e
      | inr y =>
          match map_r f r with
          | inl e => throw e
          | inr ys => ret (y :: ys)
          end
      end
  end.

(** [l.filter(Boolean)] on an array of objects and [undefined]. *)
Definition filter_Boolean {A} (l : list (option A)) : list A :=
  omap (fun x => x) l.

(** ** Numbers: binary64 *)

Module Num.

Definition prec : Z := 53.
Definition emax : Z := 1024.

Abbreviation number := spec_float.

Definition NaN : number := S754_nan.
Definition zero : number := S754_zero false.

Definition add : number -> number -> number := SFadd prec emax.
Definition sub : number -> number -> number := SFsub prec emax.
Definition mul : number -> number -> number := SFmul prec emax.
Definition div : number -> number -> number := SFdiv prec emax.

(** [Number.isNaN(x)] *)
Definition isNaN (x : number) : bool :=
  match x with S754_nan => true | _ => false end.

(** [x > y] *)
Definition gtb (x y : number) : bool := SFltb y x.

(** Truthiness of a number: [0], [-0] and [NaN] are falsy. *)
Definition truthy (x : number) : bool :=
  match x with
  | S754_zero _ | S754_nan => false
  | _ => true
  end.

(** The binary64 value nearest to [n / d] (ties to even), for [n >= 0] and
    [d > 0].  The quotient is computed with at least 64 significant bits
    and the position of the remainder, then rounded once. *)
Definition of_ratio (neg : bool) (n d : Z) : number :=
  if (n =? 0)%Z then S754_zero neg
  else
    let s := Z.max 0 (64 + Z.log2 d - Z.log2 n)%Z in
    let n' := Z.shiftl n s in
    let q := (n' / d)%Z in
    let r := (n' mod d)%Z in
    let l := if (r =? 0)%Z then loc_Exact else loc_Inexact (2 * r ?= d)%Z in
    binary_round_aux prec emax neg q (- s) l.

(** The binary64 value nearest to [m * 10^e].  Exponents far outside the
    range of binary64 are cut short: the result is already an infinity or
    a zero there. *)
Definition of_decimal (neg : bool) (m e : Z) : number :=
  if (m =? 0)%Z then S754_zero neg
  else if (400 <? e)%Z then S754_infinity neg
  else if (e + Z.log2 m <? - 1200)%Z then S754_zero neg
  else if (0 <=? e)%Z then of_ratio neg (m * 10 ^ e) 1
  else of_ratio neg m (10 ^ (- e)).

Definition of_Z (z : Z) : number :=
  of_decimal (z <? 0)%Z (Z.abs z) 0.

(** Decimal digits of a natural number, ["0"] for zero. *)
Definition digits_of_Z (z : Z) : string :=
  NilZero.string_of_uint (N.to_uint (Z.to_N z)).

Fixpoint zeros (n : nat) : string :=
  match n with O => "" | S k => String "0"%char (zeros k) end.

(** *** [parseFloat] *)

Definition is_digit (c : ascii) : bool :=
  let n := nat_of_ascii c in (48 <=? n) && (n <=? 57).

Definition digit_val (c : ascii) : Z := Z.of_nat (nat_of_ascii c - 48).

(** The longest run of decimal digits at the head of [s]: its value
    continued from [acc], its length continued from [cnt], and the rest. *)
Fixpoint scan_digits (acc : Z) (cnt : nat) (s : string) : Z * nat * string :=
  match s with
  | String c r =>
      if is_digit c then scan_digits (10 * acc + digit_val c)%Z (S cnt) r
      else (acc, cnt, s)
  | EmptyString => (acc, cnt, s)
  end.

(** [ExponentPart]: [e] or [E], an optional sign, at least one digit;
    0 when the text does not continue with a complete exponent. *)
Definition scan_exponent (s : string) : Z :=
  match s with
  | String c r =>
      if Ascii.eqb c "e"%char || Ascii.eqb c "E"%char then
        let '(neg, r') :=
          match Str.after_char "-" r, Str.after_char "+" r with
          | Some r', _ => (true, r')
          | None, Some r' => (false, r')
          | None, None => (false, r)
          end in
        let '(v, cnt, _) := scan_digits 0 0 r' in
        match cnt with
        | O => 0%Z
        | _ => if neg then (- v)%Z else v
        end
      else 0%Z
  | EmptyString => 0%Z
  end.

(** [parseFloat(s)]: skip leading white space, read the longest prefix
    that is a [StrDecimalLiteral], [NaN] if there is none. *)
Definition parseFloat (s : string) : number :=
  let s0 := Str.trimStart s in
  let '(neg, s1) :=
    match Str.after_char "-" s0, Str.after_char "+" s0 with
    | Some r, _ => (true, r)
    | None, Some r => (false, r)
    | None, None => (false, s0)
    end in
  if String.prefix "Infinity" s1 then S754_infinity neg
  else
    let '(ip, ni, s2) := scan_digits 0 0 s1 in
    let '(m, nf, s3) :=
      match Str.after_char "." s2 with
      | Some r =>
          let '(m, nf, s3) := scan_digits ip 0 r in
          match ni, nf with
          | O, O => (ip, 0, s2)
          | _, _ => (m, nf, s3)
          end
      | None => (ip, 0, s2)
      end in
    match ni + nf with
    | O => NaN
    | _ => of_decimal neg m (scan_exponent s3 - Z.of_nat nf)
    end.

(** *** [Number::toString] and [toFixed(0)] *)

(** [x < 10^n] for the rational [x = num/den]. *)
Definition lt_pow10 (num den n : Z) : bool :=
  if (0 <=? n)%Z then (num <? den * 10 ^ n)%Z
  else (num * 10 ^ (- n) <? den)%Z.

(** The [n] with [10^(n-1) <= num/den < 10^n]. *)
Definition decimal_exponent (num den : Z) : Z :=
  let n0 := ((Z.log2 num - Z.log2 den) * 30103 / 100000)%Z in
  match List.find (lt_pow10 num den)
          (List.map (fun i => (n0 - 2 + i)%Z) [0; 1; 2; 3; 4; 5; 6]%Z) with
  | Some n => n
  | None => n0
  end.

(** A finite positive value as an exact fraction. *)
Definition to_ratio (m : positive) (e : Z) : Z * Z :=
  if (0 <=? e)%Z then (Z.pos m * 2 ^ e, 1)%Z else (Z.pos m, 2 ^ (- e))%Z.

Definition same (x y : number) : bool :=
  match x, y with
  | S754_finite s1 m1 e1, S754_finite s2 m2 e2 =>
      Bool.eqb s1 s2 && (m1 =? m2)%positive && (e1 =? e2)%Z
  | _, _ => false
  end.

(** The candidates with [k] digits for the shortest decimal that reads
    back as [x = num/den]: the integers next to [x / 10^(n-k)], the nearer
    one first (the even one on a tie). *)
Definition shortest_at (x : number) (num den n : Z) (k : Z) : option Z :=
  let p := (n - k)%Z in
  let '(a, b) := if (0 <=? p)%Z then (num, den * 10 ^ p)%Z
                 else (num * 10 ^ (- p), den)%Z in
  let lo := (a / b)%Z in
  let hi := (lo + 1)%Z in
  let ok c := same (of_decimal false c p) x in
  let lo_first :=
    match (2 * a ?= (lo + hi) * b)%Z with
    | Lt => true
    | Gt => false
    | Eq => Z.even lo
    end in
  let '(c1, c2) := if lo_first then (lo, hi) else (hi, lo) in
  if ok c1 then Some c1 else if ok c2 then Some c2 else None.

Fixpoint strip_zeros (fuel : nat) (c p : Z) : Z * Z :=
  match fuel with
  | O => (c, p)
  | S f => if (c mod 10 =? 0)%Z then strip_zeros f (c / 10)%Z (p + 1)%Z
           else (c, p)
  end.

(** The digits [s] and the exponent [n] of [Number::toString]. *)
Definition shortest (x : number) (m : positive) (e : Z) : string * Z :=
  let '(num, den) := to_ratio m e in
  let n := decimal_exponent num den in
  let found :=
    List.fold_left
      (fun acc k =>
         match acc with
         | Some _ => acc
         | None =>
             match shortest_at x num den n k with
             | Some c => Some (c, (n - k)%Z)
             | None => None
             end
         end)
      [1; 2; 3; 4; 5; 6; 7; 8; 9; 10; 11; 12; 13; 14; 15; 16; 17]%Z None in
  match found with
  | Some (c, p) =>
      let '(c', p') := strip_zeros 400 c p in
      let ds := digits_of_Z c' in
      (ds, (Z.of_nat (String.length ds) + p')%Z)
  | None => ("", 0%Z)
  end.

Definition format_digits (ds : string) (n : Z) : string :=
  let k := Z.of_nat (String.length ds) in
  if (k <=? n)%Z && (n <=? 21)%Z then ds +:+ zeros (Z.to_nat (n - k))
  else if (0 <? n)%Z && (n <=? 21)%Z then
    Str.take (Z.to_nat n) ds +:+ "." +:+
    String.substring (Z.to_nat n) (String.length ds - Z.to_nat n) ds
  else if (-6 <? n)%Z && (n <=? 0)%Z then
    "0." +:+ zeros (Z.to_nat (- n)) +:+ ds
  else
    let e := (n - 1)%Z in
    let sgn := if (e <? 0)%Z then "-" else "+" in
    match ds with
    | String d EmptyString =>
        String d "" +:+ "e" +:+ sgn +:+ digits_of_Z (Z.abs e)
    | String d r =>
        String d "" +:+ "." +:+ r +:+ "e" +:+ sgn +:+ digits_of_Z (Z.abs e)
    | EmptyString => ""
    end.

(** [String(x)] for a number. *)
Definition toString (x : number) : string :=
  match x with
  | S754_nan => "NaN"
  | S754_zero _ => "0"
  | S754_infinity s => if s then "-Infinity" else "Infinity"
  | S754_finite s m e =>
      let '(ds, n) := shortest (S754_finite false m e) m e in
      (if s then "-" else "") +:+ format_digits ds n
  end.

(** [x.toFixed(0)]: the nearest integer, the larger one on a tie of the
    magnitude, in plain digits; [String(x)] from [1e21] on and for the
    values that are not finite. *)
Definition toFixed0 (x : number) : string :=
  match x with
  | S754_finite s m e =>
      let '(num, den) := to_ratio m e in
      if (10 ^ 21 * den <=? num)%Z
      then (if s then "-" else "") +:+ toString (S754_finite false m e)
      else (if s then "-" else "") +:+ digits_of_Z ((2 * num + den) / (2 * den))
  | _ => toString x
  end.

End Num.

(** ** JSON values and [JSON.parse] *)

#[local] Set Warnings "-register-all".

Inductive json : Type :=
| JNull
| JBool (b : bool)
| JNumber (x : Num.number)
| JString (s : string)
| JArray (items : list json)
| JObject (members : list (string * json)).

Module Json.

(** Truthiness: [null], [false], [0], [NaN] and [''] are falsy. *)
Definition truthy (v : json) : bool :=
  match v with
  | JNull => false
  | JBool b => b
  | JNumber x => Num.truthy x
  | JString s => Str.truthy s
  | JArray _ | JObject _ => true
  end.

(** [o[key]] on an object built by [JSON.parse]: the last member with
    that key (a repeated key overwrites), [None] for [undefined]. *)
Fixpoint lookup_member (key : string) (members : list (string * json)) : option json :=
  match members with
  | [] => None
  | (k, v) :: r =>
      match lookup_member key r with
      | Some w => Some w
      | None => if String.eqb k key then Some v else None
      end
  end.

(** Induction over a value, with the elements of an array and the
    members of an object. *)
Section TreeInduction.
Variable P : json -> Prop.
Hypothesis Hnull : P JNull.
Hypothesis Hbool : forall b, P (JBool b).
Hypothesis Hnumber : forall x, P (JNumber x).
Hypothesis Hstring : forall s, P (JString s).
Hypothesis Harray : forall items, Forall P items -> P (JArray items).
Hypothesis Hobject :
  forall members, Forall (fun m => P (snd m)) members -> P (JObject members).

Fixpoint tree_ind (v : json) : P v :=
  match v with
  | JNull => Hnull
  | JBool b => Hbool b
  | JNumber x => Hnumber x
  | JString s => Hstring s
  | JArray items =>
      Harray items
        ((fix go (l : list json) : Forall P l :=
            match l with
            | [] => List.Forall_nil P
            | x :: r => List.Forall_cons _ x r (tree_ind x) (go r)
            end) items)
  | JObject members =>
      Hobject members
        ((fix go (l : list (string * json)) : Forall (fun m => P (snd m)) l :=
            match l with
            | [] => List.Forall_nil _
            | m :: r => List.Forall_cons _ m r (tree_ind (snd m)) (go r)
            end) members)
  end.
End TreeInduction.

(** [v.key] for a value that is not [null]: the member of an object,
    [undefined] on arrays, strings, numbers and booleans.  The names the
    sources read ([type], [value], [children], [candidates], [content],
    [parts], [text], [recommendations]) are no built-in property of
    those. *)
Definition get (v : json) (key : string) : option json :=
  match v with
  | JObject members => lookup_member key members
  | _ => None
  end.

(** [v[0]]: the first element of an array, the first character of a
    string, the member ["0"] of an object. *)
Definition get0 (v : json) : option json :=
  match v with
  | JArray items => List.head items
  | JString (String c _) => Some (JString (String c ""))
  | JObject members => lookup_member "0" members
  | _ => None
  end.

(** [String(v)], the conversion of [Array.prototype.join] and of a
    template literal.  An array is the conversions of its elements
    joined by commas, [null] giving the empty string there.  An object
    is ["[object Object]"] by [Object.prototype.toString], unless it has
    a member [toString]: that is no function, and the conversion throws
    [TypeError]. *)
Fixpoint toString (v : json) : result string :=
  match v with
  | JNull => ret "null"
  | JBool b => ret (if b then "true" else "false")
  | JNumber x => ret (Num.toString x)
  | JString s => ret s
  | JArray items =>
      let* parts :=
        map_r (fun x => match x with JNull => ret "" | _ => toString x end) items in
      ret (Str.join "," parts)
  | JObject members =>
      match lookup_member "toString" members with
      | Some _ => throw TypeError
      | None => ret "[object Object]"
      end
  end.

(** *** The parser *)

Inductive parsed (A : Type) : Type :=
| Ok (a : A) (rest : string)
| Bad
| OutOfFuel.
Arguments Ok {A} a rest.
Arguments Bad {A}.
Arguments OutOfFuel {A}.

(** JSON white space: space, tab, line feed, carriage return. *)
Definition is_ws (c : ascii) : bool :=
  let n := nat_of_ascii c in
  (n =? 32) || (n =? 9) || (n =? 10) || (n =? 13).

Fixpoint skip_ws (s : string) : string :=
  match s with
  | String c r => if is_ws c then skip_ws r else s
  | EmptyString => s
  end.

Definition hex_val (c : ascii) : option N :=
  let n := N_of_ascii c in
  if (48 <=? n)%N && (n <=? 57)%N then Some (n - 48)%N
  else if (65 <=? n)%N && (n <=? 70)%N then Some (n - 55)%N
  else if (97 <=? n)%N && (n <=? 102)%N then Some (n - 87)%N
  else None.

(** The code unit of a [\uXXXX] escape: itself in the ASCII range, its
    UTF-8 bytes above it. *)
Definition code_unit (u : N) : string :=
  if (u <? 128)%N then String (ascii_of_N u) ""
  else if (u <? 2048)%N then
    String (ascii_of_N (192 + u / 64))
      (String (ascii_of_N (128 + u mod 64)) "")
  else
    String (ascii_of_N (224 + u / 4096))
      (String (ascii_of_N (128 + (u / 64) mod 64))
         (String (ascii_of_N (128 + u mod 64)) "")).

(** The double quote character. *)
Definition dquote : ascii := ascii_of_nat 34.

(** The characters of a string literal after its opening quote, up to
    the closing quote. *)
Fixpoint parse_string_body (s : string) : option (string * string) :=
  match s with
  | EmptyString => None
  | String c r =>
      if Ascii.eqb c dquote then Some ("", r)
      else if Ascii.eqb c "\"%char then
        match r with
        | String e r1 =>
            let simple (x : ascii) :=
              match parse_string_body r1 with
              | Some (t, rest) => Some (String x t, rest)
              | None => None
              end in
            if Ascii.eqb e dquote then simple dquote
            else if Ascii.eqb e "\"%char then simple "\"%char
            else if Ascii.eqb e "/"%char then simple "/"%char
            else if Ascii.eqb e "b"%char then simple (ascii_of_nat 8)
            else if Ascii.eqb e "f"%char then simple (ascii_of_nat 12)
            else if Ascii.eqb e "n"%char then simple (ascii_of_nat 10)
            else if Ascii.eqb e "r"%char then simple (ascii_of_nat 13)
            else if Ascii.eqb e "t"%char then simple (ascii_of_nat 9)
            else if Ascii.eqb e "u"%char then
              match r1 with
              | String h1 (String h2 (String h3 (String h4 r2))) =>
                  match hex_val h1, hex_val h2, hex_val h3, hex_val h4 with
                  | Some a, Some b, Some c', Some d =>
                      match parse_string_body r2 with
                      | Some (t, rest) =>
                          Some (code_unit (a * 4096 + b * 256 + c' * 16 + d)%N +:+ t,
                                rest)
                      | None => None
                      end
                  | _, _, _, _ => None
                  end
              | _ => None
              end
            else None
        | EmptyString => None
        end
      else if (nat_of_ascii c <? 32) then None
      else
        match parse_string_body r with
        | Some (t, rest) => Some (String c t, rest)
        | None => None
        end
  end.

(** A number: an optional minus sign, an integer part ([0], or digits
    that do not start with [0]), an optional fraction (a dot and at least
    one digit), an optional exponent ([e] or [E], a sign, digits). *)
Definition lex_sign (s : string) : bool * string :=
  match Str.after_char "-" s with
  | Some r => (true, r)
  | None => (false, s)
  end.

Definition lex_int (s : string) : option (Z * string) :=
  match Str.after_char "0" s with
  | Some r => Some (0%Z, r)
  | None =>
      let '(v, cnt, r) := Num.scan_digits 0 0 s in
      match cnt with O => None | _ => Some (v, r) end
  end.

(** The digits of the fraction continue the mantissa [ip]; the result
    counts them. *)
Definition lex_frac (ip : Z) (s : string) : option (Z * nat * string) :=
  match Str.after_char "." s with
  | Some r =>
      let '(m, nf, s3) := Num.scan_digits ip 0 r in
      match nf with O => None | _ => Some (m, nf, s3) end
  | None => Some (ip, 0, s)
  end.

Definition lex_exp (s : string) : option (Z * string) :=
  match s with
  | String c r =>
      if Ascii.eqb c "e"%char || Ascii.eqb c "E"%char then
        let '(eneg, r1) :=
          match Str.after_char "-" r, Str.after_char "+" r with
          | Some r1, _ => (true, r1)
          | None, Some r1 => (false, r1)
          | None, None => (false, r)
          end in
        let '(ev, cnt, s4) := Num.scan_digits 0 0 r1 in
        match cnt with
        | O => None
        | _ => Some (if eneg then (- ev)%Z else ev, s4)
        end
      else Some (0%Z, s)
  | EmptyString => Some (0%Z, s)
  end.

Definition parse_number (s : string) : option (Num.number * string) :=
  let '(neg, s1) := lex_sign s in
  match lex_int s1 with
  | None => None
  | Some (ip, s2) =>
      match lex_frac ip s2 with
      | None => None
      | Some (m, nf, s3) =>
          match lex_exp s3 with
          | None => None
          | Some (e, s4) => Some (Num.of_decimal neg m (e - Z.of_nat nf)%Z, s4)
          end
      end
  end.

(** [s] without its prefix [p], when it starts with [p]. *)
Fixpoint drop_prefix (p s : string) : option string :=
  match p, s with
  | EmptyString, _ => Some s
  | String a p', String b s' => if Ascii.eqb a b then drop_prefix p' s' else None
  | String _ _, EmptyString => None
  end.

(** A value, the elements of an array after its opening bracket, and the
    members of an object after its opening brace. *)
Fixpoint parse_value (fuel : nat) (s : string) : parsed json :=
  match fuel with
  | O => OutOfFuel
  | S f =>
      match skip_ws s with
      | EmptyString => Bad
      | String c r =>
          if Ascii.eqb c "["%char then
            match Str.after_char "]" (skip_ws r) with
            | Some r' => Ok (JArray []) r'
            | None =>
                match parse_elements f (skip_ws r) [] with
                | Ok items rest => Ok (JArray items) rest
                | Bad => Bad
                | OutOfFuel => OutOfFuel
                end
            end
          else if Ascii.eqb c "{"%char then
            match Str.after_char "}" (skip_ws r) with
            | Some r' => Ok (JObject []) r'
            | None =>
                match parse_members f (skip_ws r) [] with
                | Ok members rest => Ok (JObject members) rest
                | Bad => Bad
                | OutOfFuel => OutOfFuel
                end
            end
          else if Ascii.eqb c dquote then
            match parse_string_body r with
            | Some (t, rest) => Ok (JString t) rest
            | None => Bad
            end
          else if Ascii.eqb c "t"%char then
            match drop_prefix "rue" r with
            | Some rest => Ok (JBool true) rest
            | None => Bad
            end
          else if Ascii.eqb c "f"%char then
            match drop_prefix "alse" r with
            | Some rest => Ok (JBool false) rest
            | None => Bad
            end
          else if Ascii.eqb c "n"%char then
            match drop_prefix "ull" r with
            | Some rest => Ok JNull rest
            | None => Bad
            end
          else
            match parse_number (String c r) with
            | Some (x, rest) => Ok (JNumber x) rest
            | None => Bad
            end
      end
  end
with parse_elements (fuel : nat) (s : string) (acc : list json) : parsed (list json) :=
  match fuel with
  | O => OutOfFuel
  | S f =>
      match parse_value f s with
      | Ok v rest =>
          match Str.after_char "," (skip_ws rest) with
          | Some r => parse_elements f r (v :: acc)
          | None =>
              match Str.after_char "]" (skip_ws rest) with
              | Some r => Ok (List.rev (v :: acc)) r
              | None => Bad
              end
          end
      | Bad => Bad
      | OutOfFuel => OutOfFuel
      end
  end
with parse_members (fuel : nat) (s : string) (acc : list (string * json))
  : parsed (list (string * json)) :=
  match fuel with
  | O => OutOfFuel
  | S f =>
      match Str.after_char dquote (skip_ws s) with
      | Some r =>
          match parse_string_body r with
          | Some (k, r1) =>
              match Str.after_char ":" (skip_ws r1) with
              | Some r2 =>
                  match parse_value f r2 with
                  | Ok v rest =>
                      match Str.after_char "," (skip_ws rest) with
                      | Some r3 => parse_members f r3 ((k, v) :: acc)
                      | None =>
                          match Str.after_char "}" (skip_ws rest) with
                          | Some r3 => Ok (List.rev ((k, v) :: acc)) r3
                          | None => Bad
                          end
                      end
                  | Bad => Bad
                  | OutOfFuel => OutOfFuel
                  end
              | None => Bad
              end
          | None => Bad
          end
      | None => Bad
      end
  end.

Definition fuel_for (s : string) : nat := 2 * String.length s + 2.

(** [JSON.parse(s)]: [None] when it throws [SyntaxError]. *)
Definition parse (s : string) : option json :=
  match parse_value (fuel_for s) s with
  | Ok v rest =>
      match skip_ws rest with
      | EmptyString => Some v
      | _ => None
      end
  | _ => None
  end.

End Json.

(** ** Products and the HTTP transport *)

Record Money : Type := {
  amount : string;
  currencyCode : string
}.

(** A product summary, as the widget and the recommendation library read
    it. *)
Record Product : Type := {
  id : string;
  title : string;
  handle : string;
  description : option string;
  priceRange : option Money;
  vendor : option string
}.

Inductive request : Type :=
| PostRecommendations
    (currentProductTitle currentProductDescription : option string)
    (availableProducts : list Product)
    (userQuery : option string)
| PostGenerateContent (apiKey : string) (prompt : string).

Record response : Type := {
  status : nat;
  statusText : string;
  body : string
}.

(** [response.ok] *)
Definition ok (r : response) : bool :=
  (200 <=? status r) && (status r <=? 299).

(** [await response.json()] *)
Definition response_json (r : response) : result json :=
  match Json.parse (body r) with
  | Some v => ret v
  | None => throw SyntaxError
  end.

(** [fetch]: the response, or the rejection of the promise. *)
Definition transport : Type := request -> result response.

(** An [async] function that calls [fetch]: the requests it issued, in
    order, and what it returned or threw. *)
Definition io (A : Type) : Type := list request * A.

(** ** The recommendation widget: [AIRecommender] *)

Module AIRecommender.

(** The callback of [availableProducts.find] for a token that is a
    string. *)
Definition handle_matches (token : string) (p : Product) : bool :=
  String.eqb (handle p) token
  || String.eqb (handle p) (Str.remove_hyphens token)
  || String.eqb (handle p) (Str.toLowerCase (Str.replace_ws "-" token)).

(** The callback for any element of the response array: [p.handle ===
    handle] is false when the token is no string, and [handle.replace]
    then throws. *)
Definition matches (token : json) (p : Product) : result bool :=
  match token with
  | JString h => ret (handle_matches h p)
  | _ => throw TypeError
  end.

(** [recommendedHandles.map(...).filter(Boolean).slice(0, 6)] *)
Definition match_tokens (availableProducts : list Product) (tokens : list json)
  : result (list Product) :=
  let* found := map_r (fun t => find_r (matches t) availableProducts) tokens in
  ret (take 6 (filter_Boolean found)).

(** The fill from the fallback list. *)
Definition fill (recommended fallbackProducts : list Product) : list Product :=
  if (length recommended <? 4) && (0 <? length fallbackProducts) then
    let usedHandles : gset string := list_to_set (handle <$> recommended) in
    let additional :=
      take (6 - length recommended)
        (filter (fun p => handle p ∉ usedHandles) fallbackProducts) in
    recommended ++ additional
  else recommended.

(** The argument of the last [setRecommendedProducts] of the [try] block. *)
Definition merge (recommended fallbackProducts : list Product) : list Product :=
  let recommended := fill recommended fallbackProducts in
  if 0 <? length recommended then recommended else take 6 fallbackProducts.

(** [data.recommendations || []], as the receiver of [.map]. *)
Definition recommendedHandles (data : json) : result (list json) :=
  match data with
  | JNull => throw TypeError
  | _ =>
      match Json.get data "recommendations" with
      | None => ret []
      | Some v =>
          if Json.truthy v then
            match v with
            | JArray tokens => ret tokens
            | _ => throw TypeError
            end
          else ret []
      end
  end.

Record props : Type := {
  currentProductTitle : option string;
  currentProductDescription : option string;
  availableProducts : list Product;
  userQuery : option string;
  fallbackProducts : list Product
}.

(** The component state.  [error] keeps the exception whose message the
    source stores; every message here is a non-empty string. *)
Record state : Type := {
  recommendedProducts : list Product;
  loading : bool;
  error : option exn
}.

Definition initial : state :=
  {| recommendedProducts := []; loading := true; error := None |}.

(** The summary of a product in the body of the request: the copy of
    its six fields, which are all the fields of [Product]. *)
Definition summary (p : Product) : Product :=
  {| id := id p;
     title := title p;
     handle := handle p;
     description := description p;
     priceRange := priceRange p;
     vendor := vendor p |}.

(** What the [try] block computes after the response has arrived. *)
Definition from_response (pr : props) (r : response) : result (list Product) :=
  if negb (ok r) then throw (Error "Failed to fetch recommendations")
  else
    let* data := response_json r in
    let* tokens := recommendedHandles data in
    let* recommended := match_tokens (availableProducts pr) tokens in
    ret (merge recommended (fallbackProducts pr)).

(** [fetchRecommendations], the effect of the component. *)
Definition fetchRecommendations (fetch : transport) (pr : props) (st : state)
  : io state :=
  match availableProducts pr with
  | [] =>
      ([], {| recommendedProducts := take 6 (fallbackProducts pr);
              loading := false;
              error := error st |})
  | _ =>
      let req :=
        PostRecommendations (currentProductTitle pr)
          (currentProductDescription pr)
          (summary <$> availableProducts pr) (userQuery pr) in
      let outcome := let* r := fetch req in from_response pr r in
      match outcome with
      | inr recommended =>
          ([req], {| recommendedProducts := recommended;
                     loading := false;
                     error := None |})
      | inl e =>
          ([req], {| recommendedProducts := take 6 (fallbackProducts pr);
                     loading := false;
                     error := Some e |})
      end
  end.

(** The products the component renders. *)
Definition rendered (pr : props) (st : state) : list Product :=
  if loading st then []
  else
    match error st, recommendedProducts st with
    | Some _, [] => take 6 (fallbackProducts pr)
    | _, shown => shown
    end.

End AIRecommender.

(** ** The recommendation library: [lib/gemini] *)

Module Gemini.

Record context : Type := {
  currentProductTitle : option string;
  currentProductDescription : option string;
  availableProducts : list Product;
  userQuery : option string
}.

Definition lf : string := String (ascii_of_nat 10) "".

Definition or_empty (o : option string) : string :=
  match o with Some s => s | None => "" end.

(** One line of the product list of the prompt. *)
Definition product_line (p : Product) : string :=
  let d := or_empty (description p) in
  "- " +:+ title p +:+ " (" +:+ handle p +:+ ")" +:+
  (if Str.truthy d then ": " +:+ Str.take 100 d else "").

Definition build_prompt (ctx : context) : string :=
  let productList :=
    Str.join lf (product_line <$> take 20 (availableProducts ctx)) in
  "You are an AI shopping assistant. Analyze the following products and provide personalized recommendations." +:+ lf +:+ lf +:+
  (match currentProductTitle ctx with
   | Some t =>
       if Str.truthy t then
         "Current Product: " +:+ t +:+ lf +:+
         (match currentProductDescription ctx with
          | Some d =>
              if Str.truthy d
              then "Description: " +:+ Str.take 300 d +:+ lf +:+ lf
              else ""
          | None => ""
          end)
       else ""
   | None => ""
   end) +:+
  (match userQuery ctx with
   | Some q => if Str.truthy q then "User Preference: " +:+ q +:+ lf +:+ lf else ""
   | None => ""
   end) +:+
  "Available Products:" +:+ lf +:+ productList +:+ lf +:+ lf +:+
  "Based on the context above, recommend 4-6 products that would be most relevant. " +:+
  "Return ONLY a JSON array of product handles (the handle is the URL-friendly identifier in parentheses), like this: [" +:+
  Str.dq "'product-handle-1', 'product-handle-2', 'product-handle-3', 'product-handle-4'" +:+
  "]" +:+ lf +:+
  "Do not include any explanation, only the JSON array.".

(** *** The response parser *)

(** The longest prefix of [s] that ends with a closing bracket. *)
Fixpoint through_last_close (s : string) : option string :=
  match s with
  | EmptyString => None
  | String c r =>
      match through_last_close r with
      | Some t => Some (String c t)
      | None => if Ascii.eqb c "]"%char then Some (String c "") else None
      end
  end.

(** [s.match(/\[.*\]/s)]: the leftmost opening bracket that has a
    closing bracket after it, through the last closing bracket. *)
Fixpoint match_array (s : string) : option string :=
  match s with
  | EmptyString => None
  | String c r =>
      if Ascii.eqb c "["%char then
        match through_last_close r with
        | Some t => Some (String c t)
        | None => match_array r
        end
      else match_array r
  end.

(** From [responseText.match] to [return recommendations]. *)
Definition parse_recommendations (responseText : string) : result (list json) :=
  match match_array responseText with
  | None => throw (Error "Could not parse recommendations from Gemini response")
  | Some jsonMatch =>
      match Json.parse jsonMatch with
      | None => throw SyntaxError
      | Some (JArray recommendations) => ret recommendations
      | Some _ => throw (Error "Gemini response is not an array")
      end
  end.

(** *** The envelope of the generative API *)

(** [v?.key] *)
Definition get_opt (v : option json) (key : string) : option json :=
  match v with
  | None | Some JNull => None
  | Some w => Json.get w key
  end.

(** [data.candidates[0]?.content?.parts], for a truthy [data.candidates] *)
Definition parts_of (candidates : json) : option json :=
  get_opt (get_opt (Json.get0 candidates) "content") "parts".

(** [data.candidates[0].content.parts[0].text.trim()], for truthy parts *)
Definition text_of (parts : json) : result string :=
  match Json.get0 parts with
  | None | Some JNull => throw TypeError
  | Some part =>
      match Json.get part "text" with
      | Some (JString s) => ret (Str.trim s)
      | _ => throw TypeError
      end
  end.

(** From [const data = await response.json()] to the response text. *)
Definition response_text (data : json) : result string :=
  match data with
  | JNull => throw TypeError
  | _ =>
      match Json.get data "candidates" with
      | None => throw (Error "Invalid response from Gemini API")
      | Some candidates =>
          if negb (Json.truthy candidates)
          then throw (Error "Invalid response from Gemini API")
          else
            match parts_of candidates with
            | None => throw (Error "Invalid response from Gemini API")
            | Some parts =>
                if negb (Json.truthy parts)
                then throw (Error "Invalid response from Gemini API")
                else text_of parts
            end
      end
  end.

Definition api_error (r : response) : exn :=
  Error ("Gemini API error: " +:+ Num.digits_of_Z (Z.of_nat (status r)) +:+
         " " +:+ statusText r +:+ " - " +:+ body r).

(** What the [try] block does with the response. *)
Definition from_response (r : response) : result (list json) :=
  if negb (ok r) then throw (api_error r)
  else
    let* data := response_json r in
    let* responseText := response_text data in
    parse_recommendations responseText.

(** [getGeminiRecommendations(apiKey, context)] *)
Definition getGeminiRecommendations
    (fetch : transport) (apiKey : option string) (ctx : context)
  : io (result (list json)) :=
  match apiKey with
  | None | Some EmptyString => ([], throw (Error "Gemini API key is required"))
  | Some key =>
      let req := PostGenerateContent key (build_prompt ctx) in
      ([req], let* r := fetch req in from_response r)
  end.

(** The callback of [context.availableProducts.find] for a string. *)
Definition handle_matches (token : string) (p : Product) : bool :=
  String.eqb (handle p) token
  || String.eqb (handle p) (Str.remove_hyphens token).

Definition matches (token : json) (p : Product) : result bool :=
  match token with
  | JString h => ret (handle_matches h p)
  | _ => throw TypeError
  end.

(** [recommendedHandles.map(...).filter(Boolean).slice(0, 6)] *)
Definition match_tokens (availableProducts : list Product) (tokens : list json)
  : result (list Product) :=
  let* found := map_r (fun t => find_r (matches t) availableProducts) tokens in
  ret (take 6 (filter_Boolean found)).

(** The fill from the fallback list. *)
Definition fill (recommendedProducts fallbackProducts : list Product)
  : list Product :=
  if (length recommendedProducts <? 4) && (0 <? length fallbackProducts) then
    let usedHandles : gset string := list_to_set (handle <$> recommendedProducts) in
    let additional :=
      take (4 - length recommendedProducts)
        (filter (fun p => handle p ∉ usedHandles) fallbackProducts) in
    recommendedProducts ++ additional
  else recommendedProducts.

(** The value the [try] block returns. *)
Definition merge (recommendedProducts fallbackProducts : list Product)
  : list Product :=
  let recommendedProducts := fill recommendedProducts fallbackProducts in
  if 0 <? length recommendedProducts then recommendedProducts
  else take 6 fallbackProducts.

(** [getRecommendationsWithFallback(apiKey, context, fallbackProducts)] *)
Definition getRecommendationsWithFallback
    (fetch : transport) (apiKey : option string) (ctx : context)
    (fallbackProducts : list Product)
  : io (list Product) :=
  let '(log, outcome) := getGeminiRecommendations fetch apiKey ctx in
  (log,
   match outcome with
   | inl _ => take 6 fallbackProducts
   | inr recommendedHandles =>
       match match_tokens (availableProducts ctx) recommendedHandles with
       | inl _ => take 6 fallbackProducts
       | inr recommendedProducts => merge recommendedProducts fallbackProducts
       end
   end).

End Gemini.

(** ** The bundle page: [routes/bundles.$handle] *)

Module Bundle.

(** The selections of [BUNDLE_BY_HANDLE_QUERY]. *)
Record Image : Type := {
  url : option string;
  altText : option string
}.

Record Variant : Type := {
  variant_id : string;
  availableForSale : bool;
  variant_title : string
}.

Record ProductRef : Type := {
  id : string;
  handle : string;
  title : string;
  featuredImage : option Image;
  variants : list Variant;
  priceRange : Money
}.

(** A reference, by its [__typename]. *)
Inductive reference : Type :=
| RProduct (p : ProductRef)
| RMediaImage (image : option Image)
| RGenericFile (url alt : option string)
| ROther (typename : string).

Record field : Type := {
  key : string;
  value : option string;
  type : string;
  reference_of : option reference;
  references : option (list reference)
}.

Record metaobject : Type := {
  meta_id : string;
  meta_handle : string;
  fields : list field
}.

(** *** [extractPlainText] *)

(** [node.type === 'text'] *)
Definition is_text_node (members : list (string * json)) : bool :=
  match Json.lookup_member "type" members with
  | Some (JString t) => String.eqb t "text"
  | _ => false
  end.

(** [walk(node)]: a string, or the [value] of a text node when that is
    truthy; [join] throws when an element has no string conversion.  The
    inner loop is [node.children] (the last member of that name) with
    [walk] already applied to the elements of the array, which keeps the
    recursion structural; [walk_object] below restates it with
    [Json.lookup_member]. *)
Fixpoint walk (node : json) : result json :=
  if negb (Json.truthy node) then ret (JString "")
  else
    match node with
    | JObject members =>
        if is_text_node members then
          match Json.lookup_member "value" members with
          | Some v => ret (if Json.truthy v then v else JString "")
          | None => ret (JString "")
          end
        else
          match
            (fix children_of (ms : list (string * json))
               : option (option (result (list json))) :=
               match ms with
               | [] => None
               | (k, v) :: r =>
                   match children_of r with
                   | Some found => Some found
                   | None =>
                       if String.eqb k "children" then
                         Some match v with
                              | JArray children => Some (map_r walk children)
                              | _ => None
                              end
                       else None
                   end
               end) members
          with
          | Some (Some walking) =>
              let* walked := walking in
              let* parts := map_r Json.toString walked in
              ret (JString (Str.join " " parts))
          | _ => ret (JString "")
          end
    | _ => ret (JString "")
    end.

(** [extractPlainText(value)].  When [walk] throws, and when it returns
    something that is no string, so that [.replace] throws, the [catch]
    returns [value]. *)
Definition extractPlainText (value : option string) : string :=
  match value with
  | None | Some EmptyString => ""
  | Some v =>
      match Json.parse v with
      | None => v
      | Some richText =>
          match walk richText with
          | inr (JString s) => Str.trim (Str.replace_ws " " s)
          | _ => v
          end
      end
  end.

(** *** [formatImageReference] *)

Definition or_empty (o : option string) : string :=
  match o with Some s => s | None => "" end.

(** The [{url, altText}] record, [None] for [null]. *)
Definition formatImageReference (r : option reference) : option (string * string) :=
  match r with
  | None => None
  | Some (RMediaImage image) =>
      match image with
      | Some img =>
          match url img with
          | Some u => if Str.truthy u then Some (u, or_empty (altText img)) else None
          | None => None
          end
      | None => None
      end
  | Some (RGenericFile u alt) =>
      match u with
      | Some u' => if Str.truthy u' then Some (u', or_empty alt) else None
      | None => None
      end
  | Some _ => None
  end.

(** *** [formatBundleFields] *)

(** A property of the flattened record. *)
Inductive fieldval : Type :=
| FText (s : string)
| FNull
| FImage (url altText : string).

(** [field.value]: the query selects it, so that a field without a
    value has [null]. *)
Definition raw (v : option string) : fieldval :=
  match v with Some s => FText s | None => FNull end.

(** The accumulator of [fields.reduce]: its own properties, and whether
    its prototype chain still ends in [Object.prototype], where the
    setter of [__proto__] lives. *)
Record object : Type := {
  own : gmap string fieldval;
  inherits : bool
}.

(** [{}] *)
Definition empty_object : object := {| own := ∅; inherits := true |}.

(** [acc[key] = v].  While the chain ends in [Object.prototype], an
    assignment to [__proto__] goes to the setter and adds no property:
    the setter ignores a string, takes a record as the new prototype
    (whose own chain ends in [Object.prototype]) and, given [null],
    leaves the object without a prototype.  From then on [__proto__] is
    a key like any other. *)
Definition assign (key : string) (v : fieldval) (acc : object) : object :=
  if String.eqb key "__proto__" && inherits acc then
    {| own := own acc;
       inherits := match v with FNull => false | _ => true end |}
  else {| own := <[key := v]> (own acc); inherits := inherits acc |}.

(** The callback of [fields.reduce]. *)
Definition format_step (acc : object) (f : field) : object :=
  if String.eqb (key f) "products" then acc
  else if String.eqb (type f) "rich_text_field" then
    assign (key f) (FText (extractPlainText (value f))) acc
  else
    match
      (if String.eqb (type f) "file_reference"
       then formatImageReference (reference_of f) else None)
    with
    | Some (u, alt) => assign (key f) (FImage u alt) acc
    | None => assign (key f) (raw (value f)) acc
    end.

Definition reduce (fs : list field) : object :=
  List.fold_left format_step fs empty_object.

(** The own properties of the object that [formatBundleFields] returns;
    they are what the spread in [loader] copies. *)
Definition formatBundleFields (fs : list field) : gmap string fieldval :=
  own (reduce fs).

(** *** [collectProducts] *)

Definition isProductField (f : field) : bool :=
  String.eqb (type f) "product_reference"
  || String.eqb (type f) "list.product_reference".

Record NormalizedProduct : Type := {
  product : ProductRef;
  firstVariant : option Variant
}.

Definition normalizeProduct (p : ProductRef) : NormalizedProduct :=
  {| product := p; firstVariant := List.head (variants p) |}.

Definition product_of (r : reference) : option ProductRef :=
  match r with RProduct p => Some p | _ => None end.

Definition collect_field (f : field) : list ProductRef :=
  if isProductField f then
    match reference_of f with
    | Some (RProduct p) => [p]
    | _ => []
    end ++
    omap product_of (match references f with Some nodes => nodes | None => [] end)
  else [].

Definition collectProducts (fs : list field) : list NormalizedProduct :=
  normalizeProduct <$> (fs ≫= collect_field).

(** *** The price calculation of [loader] *)

Record Pricing : Type := {
  subtotal : Num.number;
  bundlePrice : Num.number;
  savingsLabel : string
}.

(** [String(v)] for a property of the bundle, [undefined] included. *)
Definition to_text (v : option fieldval) : string :=
  match v with
  | None => "undefined"
  | Some FNull => "null"
  | Some (FText s) => s
  | Some (FImage _ _) => "[object Object]"
  end.

(** [v === s] *)
Definition is_text (v : option fieldval) (s : string) : bool :=
  match v with
  | Some (FText t) => String.eqb t s
  | _ => false
  end.

Definition hundred : Num.number := Num.of_Z 100.

Definition subtotal_of (products : list NormalizedProduct) : Num.number :=
  List.fold_left
    (fun sum p =>
       let price := Num.parseFloat (amount (priceRange (product p))) in
       Num.add sum (if Num.isNaN price then Num.zero else price))
    products Num.zero.

Definition price (products : list NormalizedProduct) (bundle : gmap string fieldval)
  : Pricing :=
  let subtotal := subtotal_of products in
  let bundle_type := bundle !! "bundle_type" in
  let discount_value := to_text (bundle !! "discount_value") in
  let '(bundlePrice, savingsLabel) := (subtotal, "") in
  let '(bundlePrice, savingsLabel) :=
    if is_text bundle_type "fixed_price" then
      let bundlePrice := Num.parseFloat discount_value in
      let savings := Num.sub subtotal bundlePrice in
      (bundlePrice,
       if Num.gtb savings Num.zero
       then "You save " +:+ Num.toFixed0 savings
       else savingsLabel)
    else (bundlePrice, savingsLabel) in
  let '(bundlePrice, savingsLabel) :=
    if is_text bundle_type "percentage" then
      let discountPercent := Num.parseFloat discount_value in
      if negb (Num.isNaN discountPercent) then
        let savings := Num.div (Num.mul subtotal discountPercent) hundred in
        (Num.sub subtotal savings,
         "You save " +:+ Num.toFixed0 discountPercent +:+ "%")
      else (bundlePrice, savingsLabel)
    else (bundlePrice, savingsLabel) in
  {| subtotal := subtotal;
     bundlePrice := bundlePrice;
     savingsLabel := savingsLabel |}.

(** *** [loader] *)

Record LoaderData : Type := {
  bundle : gmap string fieldval;
  products : list NormalizedProduct;
  pricing : Pricing
}.

(** [loader], after the query: [None] is the 404 response it throws. *)
Definition loader (queried : option metaobject) : option LoaderData :=
  match queried with
  | None => None
  | Some meta =>
      let fieldsObject := formatBundleFields (fields meta) in
      let products := collectProducts (fields meta) in
      let bundle :=
        fieldsObject ∪
        <["id" := FText (meta_id meta)]> (<["handle" := FText (meta_handle meta)]> ∅) in
      Some {| bundle := bundle;
              products := products;
              pricing := price products bundle |}
  end.

End Bundle.

(** ** Vocabulary of the specification

    The definitions of this module follow the wording of the
    specification, not the sources; the theorems compare the two. *)

Module Spec.




(** The fallback products whose handle is not among the matched entries,
    in fallback order. *)
Definition unused (matched fallback : list Product) : list Product :=
  filter (fun p => handle p ∉ handle <$> matched) fallback.

(** The invariant of the final output, for the available products [P] and
    the fallback list [F]: at most six entries, matched entries before
    appended fallback entries, the appended entries taken from [F] in
    fallback order, none of them with the handle of a matched entry. *)
Definition merged (P F out : list Product) : Prop :=
  length out <= 6
  /\ exists matched appended,
       out = matched ++ appended
       /\ Forall (fun p => p ∈ P) matched
       /\ appended `sublist_of` F
       /\ Forall (fun p => handle p ∉ handle <$> matched) appended.

(** [part] occurs in [text]. *)
Definition includes (text part : string) : Prop :=
  exists before after, text = before +:+ part +:+ after.

(** The text contains a substring that matches the bracketed-array
    pattern: an opening bracket with a closing bracket somewhere after
    it. *)
Definition has_bracketed_array (text : string) : Prop :=
  exists before inside after,
    text = before +:+ "[" +:+ inside +:+ "]" +:+ after.

(** [m] is the greedy match of the pattern in [text]: it starts at the
    first opening bracket and ends at the last closing bracket. *)
Definition greedy_match (text m : string) : Prop :=
  exists before inside after,
    text = before +:+ m +:+ after
    /\ m = "[" +:+ inside +:+ "]"
    /\ ~ includes before "["
    /\ ~ includes after "]".

(** The errors of the parser, by where the source throws them: no match
    of the pattern, a match that does not decode, a decoded value that is
    not an array. *)
Definition ParseError (e : exn) : Prop :=
  e = Error "Could not parse recommendations from Gemini response"
  \/ e = SyntaxError
  \/ e = Error "Gemini response is not an array".

(** The error of a missing credential. *)
Definition ConfigurationError (e : exn) : Prop :=
  e = Error "Gemini API key is required".

(** The errors of the call: a status that is no success, with the message
    of the source, and a response without the expected content. *)
Definition UpstreamError (e : exn) : Prop :=
  (exists r, e = Gemini.api_error r)
  \/ e = Error "Invalid response from Gemini API".

(** The response has the structure [candidates[0].content.parts]: every
    step of the path is there and the values tested by the source are
    truthy. *)
Definition has_parts (data : json) : Prop :=
  exists candidates first content parts,
    Json.get data "candidates" = Some candidates
    /\ Json.truthy candidates = true
    /\ Json.get0 candidates = Some first /\ first <> JNull
    /\ Json.get first "content" = Some content /\ content <> JNull
    /\ Json.get content "parts" = Some parts
    /\ Json.truthy parts = true.

(** The reference resolves to the URL [u], with the alternative text
    [alt]: a media image with an image that has a non-empty URL, or a
    generic file with a non-empty URL. *)
Definition resolves (r : option Bundle.reference) (u alt : string) : Prop :=
  u <> ""
  /\ ((exists img,
         r = Some (Bundle.RMediaImage (Some img))
         /\ Bundle.url img = Some u
         /\ alt = Bundle.or_empty (Bundle.altText img))
      \/ (exists a,
            r = Some (Bundle.RGenericFile (Some u) a)
            /\ alt = Bundle.or_empty a)).

Definition unresolvable (r : option Bundle.reference) : Prop :=
  forall u alt, ~ resolves r u alt.


(** The sum of a list of numbers, from the left, starting at zero. *)
Definition sum (l : list Num.number) : Num.number :=
  List.fold_left Num.add l Num.zero.

(** The field assigns [null]: it is no rich text, no file reference
    that resolves, and has no value. *)
Definition assigns_null (f : Bundle.field) : Prop :=
  Bundle.type f <> "rich_text_field"
  /\ (Bundle.type f = "file_reference" ->
      Bundle.formatImageReference (Bundle.reference_of f) = None)
  /\ Bundle.value f = None.

(** The white-space code units of the language: [WhiteSpace] and
    [LineTerminator], the characters of [\s] and of [trim]. *)
Definition white_space (u : N) : bool :=
  (((9 <=? u) && (u <=? 13)) || (u =? 32) || (u =? 160) || (u =? 5760)
   || ((8192 <=? u) && (u <=? 8202)) || (u =? 8232) || (u =? 8233)
   || (u =? 8239) || (u =? 8287) || (u =? 12288) || (u =? 65279))%N.

(** The rich-text document as the specification describes it: a text
    node with its value, or a container with its children. *)
Inductive rich : Type :=
| TextNode (value : string)
| ContainerNode (children : list rich).

(** Induction over a document, with its children. *)
Section RichInduction.
Variable P : rich -> Prop.
Hypothesis Htext : forall value, P (TextNode value).
Hypothesis Hcontainer :
  forall children, Forall P children -> P (ContainerNode children).

Fixpoint rich_tree_ind (doc : rich) : P doc :=
  match doc with
  | TextNode value => Htext value
  | ContainerNode children =>
      Hcontainer children
        ((fix go (l : list rich) : Forall P l :=
            match l with
            | [] => List.Forall_nil P
            | x :: r => List.Forall_cons _ x r (rich_tree_ind x) (go r)
            end) children)
  end.
End RichInduction.

(** The values of the text nodes, depth first. *)
Fixpoint text_values (doc : rich) : list string :=
  match doc with
  | TextNode value => [value]
  | ContainerNode children => List.concat (List.map text_values children)
  end.

(** The plain text of a document: the values of its text nodes joined
    with single spaces, white space collapsed, trimmed. *)
Definition plain_text (doc : rich) : string :=
  Str.trim (Str.replace_ws " " (Str.join " " (text_values doc))).

(** The text of the [value] of a text node: a string is itself; a value
    that is missing, [null], [false], [0] or [''] is empty; any other
    value is its string conversion, when it has one. *)
Definition text_of_value (value : option json) : option string :=
  match value with
  | Some (JString s) => Some s
  | Some v =>
      if Json.truthy v then
        match Json.toString v with
        | inr s => Some s
        | inl _ => None
        end
      else Some ""
  | None => Some ""
  end.

(** The JSON value [node] is read as the document [doc].  A text node
    is an object whose [type] is ["text"]; a container is any other
    object with an array of [children]; any other value is a node
    without text.  A value is read as no document when the value of one
    of the text nodes has no string conversion. *)
Inductive represents : json -> rich -> Prop :=
| represents_text (members : list (string * json)) (value : string) :
    Json.lookup_member "type" members = Some (JString "text") ->
    text_of_value (Json.lookup_member "value" members) = Some value ->
    represents (JObject members) (TextNode value)
| represents_container (members : list (string * json))
    (nodes : list json) (children : list rich) :
    Json.lookup_member "type" members <> Some (JString "text") ->
    Json.lookup_member "children" members = Some (JArray nodes) ->
    Forall2 represents nodes children ->
    represents (JObject members) (ContainerNode children)
| represents_childless (members : list (string * json)) :
    Json.lookup_member "type" members <> Some (JString "text") ->
    (forall nodes, Json.lookup_member "children" members <> Some (JArray nodes)) ->
    represents (JObject members) (ContainerNode [])
| represents_scalar (node : json) :
    (forall members, node <> JObject members) ->
    represents node (ContainerNode []).

(** The document is nothing but a text node, and its [value] is truthy
    and not a string: a number other than [0], [true], an array or an
    object. *)
Definition bare_value (node : json) : bool :=
  match node with
  | JObject members =>
      match Json.lookup_member "type" members, Json.lookup_member "value" members with
      | Some (JString t), Some v =>
          String.eqb t "text" && Json.truthy v
          && match v with JString _ => false | _ => true end
      | _, _ => false
      end
  | _ => false
  end.

End Spec.

(** ** Sample data *)

Module Sample.

Definition product (h : string) : Product :=
  {| id := "gid://shopify/Product/" +:+ h;
     title := h;
     handle := h;
     description := None;
     priceRange := None;
     vendor := None |}.

(** A transport that answers every request with [r]. *)
Definition always (r : response) : transport := fun _ => ret r.

Definition ok_with (text : string) : response :=
  {| status := 200; statusText := "OK"; body := text |}.

(** The envelope of the generative API around one text part. *)
Definition envelope (text : string) : string :=
  Str.dq "{'candidates':[{'content':{'parts':[{'text':'" +:+ text +:+ Str.dq "'}]}}]}".

(** A bundle product with the given amount. *)
Definition priced (a : string) : Bundle.NormalizedProduct :=
  Bundle.normalizeProduct
    {| Bundle.id := "gid://shopify/Product/1";
       Bundle.handle := "item";
       Bundle.title := "Item";
       Bundle.featuredImage := None;
       Bundle.variants := [];
       Bundle.priceRange := {| amount := a; currencyCode := "INR" |} |}.

(** A flattened bundle record with a type and a discount value. *)
Definition bundle (bundle_type discount_value : string)
  : gmap string Bundle.fieldval :=
  <["bundle_type" := Bundle.FText bundle_type]>
    (<["discount_value" := Bundle.FText discount_value]> ∅).

(** A field of type [file_reference]. *)
Definition file_field (k : string) (v : option string)
    (r : option Bundle.reference) : Bundle.field :=
  {| Bundle.key := k;
     Bundle.value := v;
     Bundle.type := "file_reference";
     Bundle.reference_of := r;
     Bundle.references := None |}.

Definition six : list Product :=
  [product "f1"; product "f2"; product "f3"; product "f4"; product "f5"; product "f6"].

End Sample.

(** * The callers: the recommendation route, the widget's view, the bundle pages *)

(** ** The message of an exception

    [error.message]: the text given to [new Error], or the text the
    engine gives a [TypeError] or a [SyntaxError].  The engine's texts
    are not empty; the model leaves them open. *)

Inductive message : Type :=
| Text (text : string)
| TypeErrorText
| SyntaxErrorText.

Definition message_of (e : exn) : message :=
  match e with
  | Error text => Text text
  | TypeError => TypeErrorText
  | SyntaxError => SyntaxErrorText
  end.

(** Truthiness of a message: only [''] is falsy. *)
Definition message_truthy (m : message) : bool :=
  match m with
  | Text text => Str.truthy text
  | _ => true
  end.

(** ** The recommendation route: [routes/api.recommendations] *)

Module ApiRoute.

(** The four properties [action] reads from the body of the request,
    with the types the widget gives them.  A property that is missing or
    [null] is [None]. *)
Record Body : Type := {
  currentProductTitle : option string;
  currentProductDescription : option string;
  availableProducts : option (list Product);
  userQuery : option string
}.

(** The request: its method, and its body as [await request.json()]
    and the destructuring give it, which is either the four properties
    or the exception thrown on the way (a body that is no JSON text, the
    body [null]). *)
Record Request : Type := {
  method : string;
  body : result Body
}.

(** The object given to [Response.json]. *)
Inductive Payload : Type :=
| Recommendations (recommendations : list json)
| Failure (error : message)
| Notice (message : string).

Record Response : Type := {
  status : nat;
  payload : Payload
}.

(** The context [action] builds for [getGeminiRecommendations]. *)
Definition context_of (b : Body) : Gemini.context :=
  {| Gemini.currentProductTitle := currentProductTitle b;
     Gemini.currentProductDescription := currentProductDescription b;
     Gemini.availableProducts :=
       match availableProducts b with
       | Some products => products
       | None => []
       end;
     Gemini.userQuery := userQuery b |}.

(** The response of the [catch] block. *)
Definition failed (e : exn) : Response :=
  {| status := 500;
     payload :=
       Failure (if message_truthy (message_of e) then message_of e
                else Text "Failed to get recommendations") |}.

(** [action({request, context})], with [context.env.GEMINI_API_KEY] as
    its second argument. *)
Definition action (fetch : transport) (GEMINI_API_KEY : option string)
    (request : Request) : io Response :=
  if negb (String.eqb (method request) "POST") then
    ([], {| status := 405; payload := Failure (Text "Method not allowed") |})
  else
    match GEMINI_API_KEY with
    | None | Some EmptyString =>
        ([], {| status := 500;
                payload := Failure (Text "Gemini API key not configured") |})
    | Some apiKey =>
        match body request with
        | inl e => ([], failed e)
        | inr b =>
            let '(log, outcome) :=
              Gemini.getGeminiRecommendations fetch (Some apiKey) (context_of b) in
            (log,
             match outcome with
             | inr recommendations =>
                 {| status := 200; payload := Recommendations recommendations |}
             | inl e => failed e
             end)
        end
    end.

(** [loader]: the answer to a GET request. *)
Definition loader : Response :=
  {| status := 200; payload := Notice "Use POST to get recommendations" |}.

(** The body the widget sends for the four properties; a property that
    is missing is written [null], which the route reads the same way. *)
Definition text (o : option string) : json :=
  match o with Some s => JString s | None => JNull end.

Definition encode_product (p : Product) : json :=
  JObject
    [("id", JString (id p));
     ("title", JString (title p));
     ("handle", JString (handle p));
     ("description", text (description p));
     ("priceRange",
      match priceRange p with
      | Some m =>
          JObject
            [("minVariantPrice",
              JObject [("amount", JString (amount m));
                       ("currencyCode", JString (currencyCode m))])]
      | None => JNull
      end);
     ("vendor", text (vendor p))].

Definition encode (b : Body) : json :=
  JObject
    [("currentProductTitle", text (currentProductTitle b));
     ("currentProductDescription", text (currentProductDescription b));
     ("availableProducts",
      match availableProducts b with
      | Some products => JArray (encode_product <$> products)
      | None => JNull
      end);
     ("userQuery", text (userQuery b))].

End ApiRoute.

(** ** The recommendation route on any body

    [await request.json()] gives whatever JSON value the request
    carries; the route validates nothing.  [RawRoute] is [action] and
    the part of [getGeminiRecommendations] before [fetch] on such a
    value; [ApiRoute] is its restriction to the bodies the widget
    sends, [ApiRoute.encode]. *)

Module RawRoute.

(** [`${v}`] for a property: its string conversion, ["undefined"] when
    it is missing. *)
Definition template (v : option json) : result string :=
  match v with
  | None => ret "undefined"
  | Some w => Json.toString w
  end.

(** Truthiness of a property: a missing one is falsy. *)
Definition truthy (v : option json) : bool :=
  match v with
  | Some w => Json.truthy w
  | None => false
  end.

(** [v || ''] *)
Definition or_empty (v : option json) : json :=
  match v with
  | Some w => if Json.truthy w then w else JString ""
  | None => JString ""
  end.

(** [v.substring(0, n)] for a truthy [v]: only a string has the method. *)
Definition substring (n : nat) (v : json) : result string :=
  match v with
  | JString s => ret (Str.take n s)
  | _ => throw TypeError
  end.

(** The object the first [map] of the product list makes of a product. *)
Record summary : Type := {
  title : option json;
  handle : option json;
  description : json;
  price : json;
  vendor : json
}.

(** The callback of the first [map]: a property read on [null] throws. *)
Definition summarize (product : json) : result summary :=
  match product with
  | JNull => throw TypeError
  | _ =>
      ret {| title := Json.get product "title";
             handle := Json.get product "handle";
             description := or_empty (Json.get product "description");
             price :=
               or_empty
                 (Gemini.get_opt
                    (Gemini.get_opt (Json.get product "priceRange") "minVariantPrice")
                    "amount");
             vendor := or_empty (Json.get product "vendor") |}
  end.

(** The callback of the second [map]: one line of the product list. *)
Definition product_line (p : summary) : result string :=
  let* t := template (title p) in
  let* h := template (handle p) in
  let* d :=
    if Json.truthy (description p)
    then let* s := substring 100 (description p) in ret (": " +:+ s)
    else ret "" in
  ret ("- " +:+ t +:+ " (" +:+ h +:+ ")" +:+ d).

(** The context [action] gives to [getGeminiRecommendations]. *)
Record context : Type := {
  currentProductTitle : option json;
  currentProductDescription : option json;
  availableProducts : json;
  userQuery : option json
}.

(** [availableProducts.slice(0, 20)], as far as [map] can be called on
    it: on an array.  A string has [slice] but no [map]; a number, a
    boolean and an object have no [slice]. *)
Definition first_products (availableProducts : json) : result (list json) :=
  match availableProducts with
  | JArray items => ret (take 20 items)
  | _ => throw TypeError
  end.

(** From [const productList] to the last [prompt +=]. *)
Definition build_prompt (ctx : context) : result string :=
  let* products := first_products (availableProducts ctx) in
  let* summaries := map_r summarize products in
  let* lines := map_r product_line summaries in
  let productList := Str.join Gemini.lf lines in
  let* current :=
    if truthy (currentProductTitle ctx) then
      let* t := template (currentProductTitle ctx) in
      let* d :=
        match currentProductDescription ctx with
        | Some d =>
            if Json.truthy d then
              let* s := substring 300 d in
              ret ("Description: " +:+ s +:+ Gemini.lf +:+ Gemini.lf)
            else ret ""
        | None => ret ""
        end in
      ret ("Current Product: " +:+ t +:+ Gemini.lf +:+ d)
    else ret "" in
  let* query :=
    if truthy (userQuery ctx) then
      let* q := template (userQuery ctx) in
      ret ("User Preference: " +:+ q +:+ Gemini.lf +:+ Gemini.lf)
    else ret "" in
  ret ("You are an AI shopping assistant. Analyze the following products and provide personalized recommendations." +:+ Gemini.lf +:+ Gemini.lf +:+
       current +:+ query +:+
       "Available Products:" +:+ Gemini.lf +:+ productList +:+ Gemini.lf +:+ Gemini.lf +:+
       "Based on the context above, recommend 4-6 products that would be most relevant. " +:+
       "Return ONLY a JSON array of product handles (the handle is the URL-friendly identifier in parentheses), like this: [" +:+
       Str.dq "'product-handle-1', 'product-handle-2', 'product-handle-3', 'product-handle-4'" +:+
       "]" +:+ Gemini.lf +:+
       "Do not include any explanation, only the JSON array.").

(** [getGeminiRecommendations(apiKey, context)]: what is thrown while
    the prompt is built is thrown before [fetch]. *)
Definition getGeminiRecommendations
    (fetch : transport) (apiKey : option string) (ctx : context)
  : io (result (list json)) :=
  match apiKey with
  | None | Some EmptyString => ([], throw (Error "Gemini API key is required"))
  | Some key =>
      match build_prompt ctx with
      | inl e => ([], throw e)
      | inr prompt =>
          let req := PostGenerateContent key prompt in
          ([req], let* r := fetch req in Gemini.from_response r)
      end
  end.

(** The destructuring of the body and the context built from it:
    [null] has no properties to read. *)
Definition context_of (body : json) : result context :=
  match body with
  | JNull => throw TypeError
  | _ =>
      ret {| currentProductTitle := Json.get body "currentProductTitle";
             currentProductDescription := Json.get body "currentProductDescription";
             availableProducts :=
               match Json.get body "availableProducts" with
               | Some v => if Json.truthy v then v else JArray []
               | None => JArray []
               end;
             userQuery := Json.get body "userQuery" |}
  end.

(** The prompt for a body, when the route gets as far as [fetch]. *)
Definition prompt_of (body : json) : result string :=
  let* ctx := context_of body in build_prompt ctx.

(** The request: its method, and what [await request.json()] gives or
    throws. *)
Record Request : Type := {
  method : string;
  body : result json
}.

(** [action({request, context})], with [context.env.GEMINI_API_KEY] as
    its second argument. *)
Definition action (fetch : transport) (GEMINI_API_KEY : option string)
    (request : Request) : io ApiRoute.Response :=
  if negb (String.eqb (method request) "POST") then
    ([], {| ApiRoute.status := 405;
            ApiRoute.payload := ApiRoute.Failure (Text "Method not allowed") |})
  else
    match GEMINI_API_KEY with
    | None | Some EmptyString =>
        ([], {| ApiRoute.status := 500;
                ApiRoute.payload :=
                  ApiRoute.Failure (Text "Gemini API key not configured") |})
    | Some apiKey =>
        match rbind (body request) context_of with
        | inl e => ([], ApiRoute.failed e)
        | inr ctx =>
            let '(log, outcome) :=
              getGeminiRecommendations fetch (Some apiKey) ctx in
            (log,
             match outcome with
             | inr recommendations =>
                 {| ApiRoute.status := 200;
                    ApiRoute.payload := ApiRoute.Recommendations recommendations |}
             | inl e => ApiRoute.failed e
             end)
        end
    end.

End RawRoute.

(** ** What the widget renders *)

Module AIRecommenderView.

(** The four returns of the component, without the title: the loading
    notice; the error panel, with the grid of fallback products when it
    is rendered; nothing; the grid of recommended products, with or
    without the subtitle ["(Some recommendations may be AI-powered)"]. *)
Inductive view : Type :=
| Loading
| ErrorPanel (grid : option (list Product))
| Nothing
| Grid (subtitle : bool) (products : list Product).

(** Truthiness of the [error] state: [null], or the message stored by
    [setError(err.message)]. *)
Definition error_truthy (error : option exn) : bool :=
  match error with
  | Some e => message_truthy (message_of e)
  | None => false
  end.

Definition render (pr : AIRecommender.props) (st : AIRecommender.state) : view :=
  if AIRecommender.loading st then Loading
  else if error_truthy (AIRecommender.error st)
          && (length (AIRecommender.recommendedProducts st) =? 0) then
    ErrorPanel
      (if 0 <? length (AIRecommender.fallbackProducts pr)
       then Some (take 6 (AIRecommender.fallbackProducts pr))
       else None)
  else if length (AIRecommender.recommendedProducts st) =? 0 then Nothing
  else Grid (error_truthy (AIRecommender.error st))
         (AIRecommender.recommendedProducts st).

End AIRecommenderView.

(** ** The bundle list: [routes/bundles._index] *)

Module BundlesIndex.

(** The selections of [BUNDLES_QUERY]. *)
Record field : Type := {
  key : string;
  value : option string
}.

Record bundle : Type := {
  id : string;
  handle : string;
  fields : list field
}.

(** [Object.fromEntries(fields.map((field) => [field.key, field.value]))]:
    every entry defines an own property, a later entry replaces an
    earlier one of the same key. *)
Definition fromEntries (fs : list field) : gmap string Bundle.fieldval :=
  List.fold_left (fun acc f => <[key f := Bundle.raw (value f)]> acc) fs ∅.

(** The argument [formatted.description] of [extractPlainText]. *)
Definition text_of (v : option Bundle.fieldval) : option string :=
  match v with
  | Some (Bundle.FText s) => Some s
  | _ => None
  end.

(** [formatted.title || 'Untitled bundle'] *)
Definition title_of (v : option Bundle.fieldval) : Bundle.fieldval :=
  match v with
  | Some (Bundle.FText s) =>
      if Str.truthy s then Bundle.FText s else Bundle.FText "Untitled bundle"
  | _ => Bundle.FText "Untitled bundle"
  end.

(** [formatBundleFields(bundle)] *)
Definition formatBundleFields (b : bundle) : gmap string Bundle.fieldval :=
  let formatted := fromEntries (fields b) in
  <["description" :=
      Bundle.FText (Bundle.extractPlainText (text_of (formatted !! "description")))]>
    (<["title" := title_of (formatted !! "title")]> formatted).

(** What a card of the list shows of a formatted bundle. *)
Record card : Type := {
  badge : string;
  discount_badge : option string;
  image : option string;
  heading : string;
  subtitle : option string;
  description : string;
  offer : string;
  href : string
}.

(** A property as a child of an element: a string is its text, [null]
    and [undefined] render nothing. *)
Definition shown (v : option Bundle.fieldval) : string :=
  match v with
  | Some (Bundle.FText s) => s
  | _ => ""
  end.

(** [formatted.description || 'Handpicked products curated for you.'] *)
Definition description_of (v : option Bundle.fieldval) : string :=
  match v with
  | Some (Bundle.FText s) =>
      if Str.truthy s then s else "Handpicked products curated for you."
  | _ => "Handpicked products curated for you."
  end.

(** Truthiness of a property of the formatted bundle, a string or
    [null]. *)
Definition truthy (v : option Bundle.fieldval) : bool :=
  match v with
  | Some (Bundle.FText s) => Str.truthy s
  | _ => false
  end.

(** The rupee sign, in UTF-8. *)
Definition rupee : string :=
  String (ascii_of_nat 226) (String (ascii_of_nat 130) (String (ascii_of_nat 185) "")).

Definition render_card (b : bundle) : card :=
  let formatted := formatBundleFields b in
  let bundle_type := formatted !! "bundle_type" in
  let discount_value := Bundle.to_text (formatted !! "discount_value") in
  let isPercentage := Bundle.is_text bundle_type "percentage" in
  let isFixedPrice := Bundle.is_text bundle_type "fixed_price" in
  {| badge :=
       if Bundle.is_text bundle_type "percentage" then "Smart Saver"
       else if Bundle.is_text bundle_type "fixed_price" then "Flat Price"
       else "Custom Bundle";
     discount_badge :=
       if truthy (formatted !! "discount_value") then
         Some (if isPercentage then "Save " +:+ discount_value +:+ "%"
               else if isFixedPrice then rupee +:+ discount_value
               else "Tailored offer")
       else None;
     image :=
       if truthy (formatted !! "image")
       then Some (shown (formatted !! "image")) else None;
     heading := shown (formatted !! "title");
     subtitle :=
       if truthy (formatted !! "subtitle")
       then Some (shown (formatted !! "subtitle")) else None;
     description := description_of (formatted !! "description");
     offer :=
       if isPercentage then "Bundle & save " +:+ discount_value +:+ "%"
       else if isFixedPrice then "Bundle price " +:+ rupee +:+ discount_value
       else "Build your own mix";
     href := "/bundles/" +:+ handle b |}.

(** [BundlesIndex]: the notice when there is no bundle, the cards
    otherwise. *)
Definition render (bundles : option (list bundle)) : option (list card) :=
  match bundles with
  | None | Some [] => None
  | Some l => Some (render_card <$> l)
  end.

End BundlesIndex.

(** ** The bundle page's component: [BundleDetail] *)

Module BundleDetail.

(** A line of the cart.  The values of its attributes are properties
    of the flattened record. *)
Record CartLine : Type := {
  merchandiseId : string;
  quantity : nat;
  attributes : list (string * option Bundle.fieldval)
}.

(** The callback of [products.map]: [None] is [null]. *)
Definition line_of (bundle : gmap string Bundle.fieldval)
    (product : Bundle.NormalizedProduct) : option CartLine :=
  match Bundle.firstVariant product with
  | Some variant =>
      if negb (Str.truthy (Bundle.variant_id variant))
         || negb (Bundle.availableForSale variant)
      then None
      else Some {| merchandiseId := Bundle.variant_id variant;
                   quantity := 1;
                   attributes :=
                     [("bundleId", bundle !! "id");
                      ("bundleHandle", bundle !! "handle")] |}
  | None => None
  end.

Definition cartLines (data : Bundle.LoaderData) : list CartLine :=
  filter_Boolean (line_of (Bundle.bundle data) <$> Bundle.products data).

Definition hasUnavailableProducts (data : Bundle.LoaderData) : bool :=
  negb (length (cartLines data) =? length (Bundle.products data)).

(** [products[0]?.priceRange.minVariantPrice.currencyCode] *)
Definition currency (data : Bundle.LoaderData) : option string :=
  match Bundle.products data with
  | p :: _ => Some (currencyCode (Bundle.priceRange (Bundle.product p)))
  | [] => None
  end.

(** An amount with the currency after it. *)
Definition with_currency (x : Num.number) (c : option string) : string :=
  Num.toFixed0 x +:+
  match c with
  | Some code => if Str.truthy code then " " +:+ code else ""
  | None => ""
  end.

(** The right column of the page. *)
Record summary : Type := {
  items_total : string;
  bundle_total : string;
  savings : option string;
  disabled : bool;
  button : string;
  lines : list CartLine;
  warning : bool
}.

Definition render (data : Bundle.LoaderData) : summary :=
  let pricing := Bundle.pricing data in
  {| items_total := with_currency (Bundle.subtotal pricing) (currency data);
     bundle_total := with_currency (Bundle.bundlePrice pricing) (currency data);
     savings :=
       if Str.truthy (Bundle.savingsLabel pricing)
       then Some (Bundle.savingsLabel pricing) else None;
     disabled := length (cartLines data) =? 0;
     button :=
       if 0 <? length (cartLines data) then "Add Bundle to Cart"
       else "Bundle unavailable";
     lines := cartLines data;
     warning := hasUnavailableProducts data |}.

End BundleDetail.

(** ** Data of the examples for the callers *)

Module Fixture.

Definition no_body : ApiRoute.Body :=
  {| ApiRoute.currentProductTitle := None;
     ApiRoute.currentProductDescription := None;
     ApiRoute.availableProducts := None;
     ApiRoute.userQuery := None |}.

Definition post (b : ApiRoute.Body) : ApiRoute.Request :=
  {| ApiRoute.method := "POST"; ApiRoute.body := ret b |}.

(** An answer of the generative API that is no success. *)
Definition unavailable : response :=
  {| status := 503; statusText := "Service Unavailable"; body := "overloaded" |}.

Definition context (title description : option string) (products : list Product)
  : Gemini.context :=
  {| Gemini.currentProductTitle := title;
     Gemini.currentProductDescription := description;
     Gemini.availableProducts := products;
     Gemini.userQuery := None |}.


End Fixture.
(** * Properties *)

(** ** Arrays *)

Lemma find_r_pure {A} (f : A -> bool) (l : list A) :
  find_r (fun x => ret (f x)) l = ret (List.find f l).
Proof.
  induction l as [|x l IH]; simpl; [reflexivity|].
  destruct (f x); [reflexivity|exact IH].
Qed.

Lemma map_r_pure {A B} (f : A -> B) (g : A -> result B) (l : list A) :
  (forall x, x ∈ l -> g x = ret (f x)) ->
  map_r g l = ret (f <$> l).
Proof.
  induction l as [|x l IH]; intros Hg; simpl; [reflexivity|].
  rewrite (Hg x) by set_solver. simpl.
  rewrite IH by (intros y Hy; apply Hg; set_solver). reflexivity.
Qed.

(** [find] returns the first element that satisfies the predicate. *)
Lemma find_first {A} (f : A -> bool) (l : list A) (x : A) :
  List.find f l = Some x <->
  exists l1 l2, l = l1 ++ x :: l2 /\ Forall (fun y => f y = false) l1 /\ f x = true.
Proof.
  split.
  - induction l as [|y l IH]; simpl; [discriminate|].
    destruct (f y) eqn:Hy.
    + intros [= ->]. exists [], l. auto.
    + intros H. destruct (IH H) as (l1 & l2 & -> & Hl1 & Hx).
      exists (y :: l1), l2. auto.
  - intros (l1 & l2 & -> & Hl1 & Hx).
    induction Hl1 as [|y l1 Hy _ IH]; simpl.
    + rewrite Hx. reflexivity.
    + rewrite Hy. exact IH.
Qed.

Lemma find_nothing {A} (f : A -> bool) (l : list A) :
  List.find f l = None <-> Forall (fun y => f y = false) l.
Proof.
  induction l as [|y l IH]; simpl.
  - split; auto.
  - destruct (f y) eqn:Hy.
    + split; [discriminate|]. intros H. inversion H; congruence.
    + rewrite IH. split; [auto|]. intros H. inversion H; auto.
Qed.

Lemma filter_Boolean_length {A} (l : list (option A)) :
  length (filter_Boolean l) <= length l.
Proof.
  unfold filter_Boolean.
  induction l as [|[x|] l IH]; cbn [omap list_omap length] in *; lia.
Qed.

Lemma filter_Boolean_elem {A} (l : list (option A)) (x : A) :
  x ∈ filter_Boolean l <-> Some x ∈ l.
Proof.
  unfold filter_Boolean. rewrite list_elem_of_omap. split.
  - intros (y & Hy & Heq). simpl in Heq. subst. exact Hy.
  - intros H. exists (Some x). auto.
Qed.

(** ** The model of the platform, on examples *)

Example parseFloat_examples :
  List.map (fun s => Num.toString (Num.parseFloat s))
    ["80"; "  -12.5abc"; ".5"; "5."; "5.e3"; "1e"; "0.1"; "1e21"; "1e-7";
     "-0"; "Infinity"; "+7"; "- 7"; "0x10"; "abc"; ""; "."; "undefined";
     "null"; "[object Object]"]
  = ["80"; "-12.5"; "0.5"; "5"; "5000"; "1"; "0.1"; "1e+21"; "1e-7";
     "0"; "Infinity"; "7"; "NaN"; "0"; "NaN"; "NaN"; "NaN"; "NaN";
     "NaN"; "NaN"].
Proof. vm_compute. reflexivity. Qed.

Example toFixed_examples :
  List.map (fun s => Num.toFixed0 (Num.parseFloat s))
    ["20"; "20.5"; "2.5"; "0.4"; "-0.4"; "-12.5"; "123.456"; "1e21";
     "123456789012345680000"; "abc"]
  = ["20"; "21"; "3"; "0"; "-0"; "-13"; "123"; "1e+21";
     "123456789012345683968"; "NaN"].
Proof. vm_compute. reflexivity. Qed.

Example arithmetic_examples :
  Num.toString (Num.add (Num.parseFloat "0.1") (Num.parseFloat "0.2"))
  = "0.30000000000000004"
  /\ Num.toString (Num.sub (Num.of_Z 100)
                     (Num.div (Num.mul (Num.of_Z 100) (Num.of_Z 25)) (Num.of_Z 100)))
     = "75"
  /\ Num.gtb (Num.sub (Num.of_Z 100) Num.NaN) Num.zero = false.
Proof. vm_compute. repeat split; reflexivity. Qed.

Example parse_examples :
  Json.parse (Str.dq "{'a': [1, 'x', true, null], 'a': {}}")
  = Some (JObject
            [("a", JArray [JNumber (Num.of_Z 1); JString "x"; JBool true; JNull]);
             ("a", JObject [])])
  /\ List.map Json.parse
       ["[1,]"; "[01]"; "{} x"; Str.dq "{'a' 1}"; Str.dq "['a"; "nul"; "1."; ""]
     = [None; None; None; None; None; None; None; None].
Proof. vm_compute. split; reflexivity. Qed.

Example match_array_examples :
  List.map Gemini.match_array
    ["see [1, [2], 3] and ] then ["; "no array here"; "{}"; "] ["; "[]"]
  = [Some "[1, [2], 3] and ]"; None; None; None; Some "[]"].
Proof. vm_compute. reflexivity. Qed.

Example string_examples :
  Str.remove_hyphens "red-shirt" = "redshirt"
  /\ Str.toLowerCase (Str.replace_ws "-" "Red   Shirt") = "red-shirt"
  /\ Str.trim (Str.replace_ws " " "  Hello   world ") = "Hello world".
Proof. vm_compute. repeat split; reflexivity. Qed.
(** ** Strings *)

Lemma append_cons (x : ascii) (a b : string) :
  String x a +:+ b = String x (a +:+ b).
Proof. reflexivity. Qed.

Lemma append_nil_l (a : string) : "" +:+ a = a.
Proof. reflexivity. Qed.

Lemma append_assoc (a b c : string) : (a +:+ b) +:+ c = a +:+ (b +:+ c).
Proof.
  induction a as [|x a IH]; [reflexivity|].
  rewrite !append_cons, IH. reflexivity.
Qed.

Lemma append_nil_r (a : string) : a +:+ "" = a.
Proof.
  induction a as [|x a IH]; [reflexivity|]. rewrite append_cons, IH. reflexivity.
Qed.

Lemma length_append (a b : string) :
  String.length (a +:+ b) = String.length a + String.length b.
Proof.
  induction a as [|x a IH]; [reflexivity|].
  rewrite append_cons. simpl. rewrite IH. reflexivity.
Qed.

Lemma includes_refl (s : string) : Spec.includes s s.
Proof. exists "", "". rewrite append_nil_l. symmetry. apply append_nil_r. Qed.

Lemma includes_append_l (a b part : string) :
  Spec.includes b part -> Spec.includes (a +:+ b) part.
Proof.
  intros (x & y & ->). exists (a +:+ x), y. symmetry. apply append_assoc.
Qed.

Lemma includes_append_r (a b part : string) :
  Spec.includes a part -> Spec.includes (a +:+ b) part.
Proof.
  intros (x & y & ->). exists x, (y +:+ b).
  rewrite !append_assoc. reflexivity.
Qed.

Lemma includes_char_nil (c : ascii) : ~ Spec.includes "" (String c "").
Proof. intros ([|x a] & b & H); discriminate. Qed.

Lemma includes_char_cons (c x : ascii) (r : string) :
  Spec.includes (String x r) (String c "") <-> x = c \/ Spec.includes r (String c "").
Proof.
  split.
  - intros ([|y a] & b & H).
    + rewrite append_nil_l, append_cons in H. injection H as -> _. left. reflexivity.
    + rewrite append_cons in H. injection H as _ ->. right. exists a, b. reflexivity.
  - intros [->|(a & b & ->)].
    + exists "", r. reflexivity.
    + exists (String x a), b. reflexivity.
Qed.

Lemma includes_char_dec (c : ascii) (s : string) :
  Spec.includes s (String c "") \/ ~ Spec.includes s (String c "").
Proof.
  induction s as [|x r IH].
  - right. apply includes_char_nil.
  - rewrite includes_char_cons.
    destruct (Ascii.eqb_spec x c) as [->|Hx]; [left; left; reflexivity|].
    destruct IH as [IH|IH]; [left; right; exact IH|].
    right. intros [H|H]; [congruence|exact (IH H)].
Qed.

(** ** White space *)

Ltac low_tests x :=
  repeat match goal with
  | |- context [Nat.eqb (Str.byte x) ?k] =>
      replace (Nat.eqb (Str.byte x) k) with false
        by (symmetry; apply Nat.eqb_neq; lia)
  | |- context [Nat.leb ?k (Str.byte x)] =>
      replace (Nat.leb k (Str.byte x)) with false
        by (symmetry; apply Nat.leb_gt; lia)
  end;
  rewrite ?andb_false_r; cbn [andb orb]; rewrite ?andb_false_r;
  try reflexivity.

Lemma space1_low (c : ascii) : Str.space1 c = true -> Str.byte c < 128.
Proof.
  unfold Str.space1. intros H. apply orb_true_iff in H as [H|H].
  - apply andb_true_iff in H as [_ H]. apply Nat.leb_le in H. lia.
  - apply Nat.eqb_eq in H. lia.
Qed.

Lemma space2_low1 (c d : ascii) : Str.byte c < 128 -> Str.space2 c d = false.
Proof. intros H. unfold Str.space2. low_tests c. Qed.

Lemma space2_low2 (c d : ascii) : Str.byte d < 128 -> Str.space2 c d = false.
Proof. intros H. unfold Str.space2. low_tests d. Qed.

Lemma space3_low1 (c d e : ascii) : Str.byte c < 128 -> Str.space3 c d e = false.
Proof. intros H. unfold Str.space3. low_tests c. Qed.

Lemma space3_low2 (c d e : ascii) : Str.byte d < 128 -> Str.space3 c d e = false.
Proof. intros H. unfold Str.space3. low_tests d. Qed.

Lemma space3_low3 (c d e : ascii) : Str.byte e < 128 -> Str.space3 c d e = false.
Proof. intros H. unfold Str.space3. low_tests e. Qed.

(** A white-space code unit is decided by the bytes it has: what
    follows them plays no part, and a byte of the ASCII range ends the
    look ahead. *)
Lemma space_len_prefix (c : ascii) (x y : string) :
  Str.space_len (String c (x +:+ y)) = 0 -> Str.space_len (String c x) = 0.
Proof.
  destruct x as [|d [|e x]]; rewrite ?append_cons, ?append_nil_l;
    cbn [Str.space_len]; destruct (Str.space1 c); try discriminate.
  - reflexivity.
  - destruct (Str.space2 c d); [discriminate|reflexivity].
  - auto.
Qed.

Lemma space_len_low (c k : ascii) (x y : string) :
  Str.byte k < 128 ->
  Str.space_len (String c x) = 0 ->
  Str.space_len (String c (x +:+ String k y)) = 0.
Proof.
  intros Hk.
  destruct x as [|d [|e x]]; rewrite ?append_cons, ?append_nil_l;
    cbn [Str.space_len]; destruct (Str.space1 c); try discriminate.
  - intros _. rewrite (space2_low2 c k Hk).
    destruct y as [|j y]; [reflexivity|]. rewrite (space3_low2 c k j Hk). reflexivity.
  - destruct (Str.space2 c d); [discriminate|]. intros _.
    rewrite (space3_low3 c d k Hk). reflexivity.
  - auto.
Qed.

Lemma pieces_char (c : ascii) (r : string) :
  Str.space_len (String c r) = 0 -> Str.pieces (String c r) = Str.Char c :: Str.pieces r.
Proof.
  cbn [Str.space_len Str.pieces]. destruct (Str.space1 c); [discriminate|].
  destruct r as [|d r2]; [reflexivity|].
  destruct (Str.space2 c d); [discriminate|].
  destruct r2 as [|e r3]; [reflexivity|].
  destruct (Str.space3 c d e); [discriminate|reflexivity].
Qed.

Lemma pieces_space (sp r : string) :
  Str.is_space sp = true -> Str.pieces (sp +:+ r) = Str.Space sp :: Str.pieces r.
Proof.
  unfold Str.is_space. destruct sp as [|c sp]; [discriminate|].
  cbn [Str.space_len Str.pieces String.length]. rewrite append_cons.
  cbn [Str.pieces].
  destruct (Str.space1 c).
  { destruct sp; [intros _; reflexivity|discriminate]. }
  destruct sp as [|d sp]; [discriminate|]. rewrite append_cons.
  destruct (Str.space2 c d).
  { destruct sp; [intros _; reflexivity|discriminate]. }
  destruct sp as [|e sp]; [discriminate|]. rewrite append_cons.
  destruct (Str.space3 c d e); [|discriminate].
  destruct sp; [intros _; reflexivity|discriminate].
Qed.

(** Induction along [pieces]. *)
Lemma pieces_ind (P : string -> Prop) :
  P "" ->
  (forall sp r, Str.is_space sp = true -> P r -> P (sp +:+ r)) ->
  (forall c r, Str.space_len (String c r) = 0 -> P r -> P (String c r)) ->
  forall s, P s.
Proof.
  intros Hnil Hspace Hchar s.
  assert (H : forall n s, String.length s <= n -> P s);
    [|exact (H _ s (Nat.le_refl _))].
  clear s. induction n as [|n IH]; intros s Hn.
  - destruct s; [exact Hnil|simpl in Hn; lia].
  - destruct s as [|c r]; [exact Hnil|]. simpl in Hn.
    destruct (Str.space_len (String c r)) as [|k] eqn:Hk.
    + apply Hchar; [exact Hk|apply IH; lia].
    + revert Hk. cbn [Str.space_len]. destruct (Str.space1 c) eqn:H1.
      { intros _. apply (Hspace (String c "") r).
        - unfold Str.is_space. cbn [Str.space_len]. rewrite H1. reflexivity.
        - apply IH. lia. }
      destruct r as [|d r2]; [discriminate|]. simpl in Hn.
      destruct (Str.space2 c d) eqn:H2.
      { intros _. apply (Hspace (String c (String d "")) r2).
        - unfold Str.is_space. cbn [Str.space_len]. rewrite H1, H2. reflexivity.
        - apply IH. lia. }
      destruct r2 as [|e r3]; [discriminate|]. simpl in Hn.
      destruct (Str.space3 c d e) eqn:H3; [|discriminate].
      intros _. apply (Hspace (String c (String d (String e ""))) r3).
      * unfold Str.is_space. cbn [Str.space_len]. rewrite H1, H2, H3. reflexivity.
      * apply IH. lia.
Qed.

Lemma text_pieces (s : string) : Str.text (Str.pieces s) = s.
Proof.
  induction s as [|sp r Hsp IH|c r Hc IH] using pieces_ind; [reflexivity| |].
  - rewrite (pieces_space _ _ Hsp). cbn [Str.text]. rewrite IH. reflexivity.
  - rewrite (pieces_char _ _ Hc). cbn [Str.text]. rewrite IH. reflexivity.
Qed.

Lemma read_pieces (s : string) : Str.read (Str.pieces s).
Proof.
  induction s as [|sp r Hsp IH|c r Hc IH] using pieces_ind; [exact I| |].
  - rewrite (pieces_space _ _ Hsp). split; assumption.
  - rewrite (pieces_char _ _ Hc). split; [|exact IH].
    rewrite text_pieces. exact Hc.
Qed.

Lemma pieces_text (l : list Str.piece) : Str.read l -> Str.pieces (Str.text l) = l.
Proof.
  induction l as [|[sp|c] l IH]; [reflexivity| |]; intros [H Hl]; cbn [Str.text].
  - rewrite (pieces_space _ _ H), (IH Hl). reflexivity.
  - rewrite (pieces_char _ _ H), (IH Hl). reflexivity.
Qed.

Lemma text_app (a b : list Str.piece) :
  Str.text (a ++ b) = Str.text a +:+ Str.text b.
Proof.
  induction a as [|[sp|c] a IH]; [reflexivity| |]; cbn [Str.text app].
  - rewrite IH, append_assoc. reflexivity.
  - rewrite IH. reflexivity.
Qed.

(** ** Collapsing white space and trimming *)

Lemma join_cons_char (c : ascii) (w : string) (rest : list string) :
  Str.join " " (String c w :: rest) = String c (Str.join " " (w :: rest)).
Proof. destruct rest; reflexivity. Qed.

Lemma join_cons_word (w : string) (x : string) (rest : list string) :
  Str.join " " (w :: x :: rest) = w +:+ " " +:+ Str.join " " (x :: rest).
Proof. reflexivity. Qed.

Lemma words_of_char (c : ascii) (r : list Str.piece) :
  Str.words_of (Str.Char c :: r) <> [].
Proof.
  cbn [Str.words_of]. destruct r as [|[sp|d] r]; try discriminate.
  destruct (Str.words_of _); discriminate.
Qed.

Lemma words_of_chars2 (c d : ascii) (r : list Str.piece) :
  Str.words_of (Str.Char c :: Str.Char d :: r)
  = match Str.words_of (Str.Char d :: r) with
    | w :: rest => String c w :: rest
    | [] => [String c ""]
    end.
Proof. reflexivity. Qed.

Lemma gaps_words (l : list Str.piece) :
  forallb Str.is_gap l = true <-> Str.words_of l = [].
Proof.
  induction l as [|[sp|c] l IH]; [simpl; tauto|exact IH|].
  split; [discriminate|]. intros H. destruct (words_of_char c l H).
Qed.

Lemma gaps_single (b : bool) (l : list Str.piece) :
  forallb Str.is_gap (Str.single_spaces b l) = forallb Str.is_gap l.
Proof.
  revert b. induction l as [|[sp|c] l IH]; intros b; [reflexivity| |reflexivity].
  cbn [Str.single_spaces]. destruct b; [apply IH|].
  cbn [forallb Str.is_gap andb]. apply IH.
Qed.

Lemma text_single (b : bool) (l : list Str.piece) :
  Str.text (Str.single_spaces b l) = Str.replace_ws_from " " b l.
Proof.
  revert b. induction l as [|[sp|c] l IH]; intros b; [reflexivity| |].
  - cbn [Str.single_spaces Str.replace_ws_from]. destruct b; [apply IH|].
    cbn [Str.text]. rewrite IH. reflexivity.
  - cbn [Str.single_spaces Str.replace_ws_from Str.text]. rewrite IH. reflexivity.
Qed.

(** After a run of white space the collapsed text, trimmed at its end,
    is the words of the text joined by single spaces; at the start of a
    run it has one more space in front of the words. *)
Lemma drop_end_single (l : list Str.piece) :
  Str.text (Str.drop_end_gaps (Str.single_spaces true l))
  = Str.join " " (Str.words_of l)
  /\ Str.text (Str.drop_end_gaps (Str.single_spaces false l))
     = match l, Str.words_of l with
       | p :: _, _ :: _ =>
           if Str.is_gap p then " " +:+ Str.join " " (Str.words_of l)
           else Str.join " " (Str.words_of l)
       | _, _ => ""
       end.
Proof.
  induction l as [|[sp|c] r [IHt IHf]]; [split; reflexivity| |].
  - cbn [Str.single_spaces Str.words_of Str.is_gap]. split; [exact IHt|].
    cbn [Str.drop_end_gaps forallb Str.is_gap andb]. rewrite gaps_single.
    destruct (Str.words_of r) as [|w ws] eqn:Hr.
    + apply gaps_words in Hr. rewrite Hr. reflexivity.
    + destruct (forallb Str.is_gap r) eqn:Ha.
      * apply gaps_words in Ha. congruence.
      * cbn [Str.text]. rewrite IHt. reflexivity.
  - assert (Str.text (Str.drop_end_gaps (Str.Char c :: Str.single_spaces false r))
            = Str.join " " (Str.words_of (Str.Char c :: r))) as Hmain.
    { cbn [Str.drop_end_gaps forallb Str.is_gap andb Str.text]. rewrite IHf.
      destruct r as [|[sp|d] r']; [reflexivity| |].
      - cbn [Str.words_of Str.is_gap].
        destruct (Str.words_of r') as [|w ws]; reflexivity.
      - pose proof (words_of_char d r') as Hne.
        cbn [Str.is_gap]. rewrite words_of_chars2.
        destruct (Str.words_of (Str.Char d :: r')); [congruence|].
        rewrite join_cons_char. reflexivity. }
    cbn [Str.single_spaces]. split; [exact Hmain|]. rewrite Hmain.
    pose proof (words_of_char c r) as Hne. cbn [Str.is_gap].
    destruct (Str.words_of (Str.Char c :: r)); [congruence|reflexivity].
Qed.

Lemma drop_gaps_single (b : bool) (l : list Str.piece) :
  Str.drop_gaps (Str.single_spaces b l) = Str.single_spaces true (Str.drop_gaps l).
Proof.
  revert b. induction l as [|[sp|c] l IH]; intros b; [reflexivity| |reflexivity].
  cbn [Str.single_spaces Str.drop_gaps]. destruct b; [apply IH|].
  cbn [Str.drop_gaps]. apply IH.
Qed.

Lemma words_drop_gaps (l : list Str.piece) :
  Str.words_of (Str.drop_gaps l) = Str.words_of l.
Proof. induction l as [|[sp|c] l IH]; [reflexivity|exact IH|reflexivity]. Qed.

Lemma read_drop_gaps (l : list Str.piece) : Str.read l -> Str.read (Str.drop_gaps l).
Proof.
  induction l as [|[sp|c] l IH]; [auto| |auto]. intros [_ H]. exact (IH H).
Qed.

Lemma space_byte_low : Str.byte " " < 128.
Proof. cbv. lia. Qed.

(** The bytes up to the first white space are those of the collapsed
    text, which ends there or goes on with a space. *)
Lemma single_head (l : list Str.piece) :
  exists w y y',
    Str.text l = w +:+ y
    /\ Str.text (Str.single_spaces false l) = w +:+ y'
    /\ (y' = "" \/ exists t, y' = String " " t).
Proof.
  induction l as [|[sp|c] l (w & y & y' & H1 & H2 & H3)].
  - exists "", "", "". auto.
  - exists "", (Str.text (Str.Space sp :: l)), (String " " (Str.text (Str.single_spaces true l))).
    repeat split. right. eexists. reflexivity.
  - exists (String c w), y, y'. cbn [Str.single_spaces Str.text].
    rewrite H1, H2. auto.
Qed.

Lemma read_single (b : bool) (l : list Str.piece) :
  Str.read l -> Str.read (Str.single_spaces b l).
Proof.
  revert b. induction l as [|[sp|c] l IH]; intros b; [auto| |]; intros [H Hl].
  - cbn [Str.single_spaces]. destruct b; [auto|]. split; [reflexivity|auto].
  - split; [|auto].
    destruct (single_head l) as (w & y & y' & H1 & H2 & H3).
    rewrite H2. rewrite H1 in H. apply space_len_prefix in H.
    destruct H3 as [->|(t & ->)]; [rewrite append_nil_r; exact H|].
    apply space_len_low; [exact space_byte_low|exact H].
Qed.

(** Collapsing white space and trimming leaves the words, joined by
    single spaces. *)
Lemma normalize_words (s : string) :
  Str.trim (Str.replace_ws " " s) = Str.join " " (Str.words s).
Proof.
  unfold Str.trim, Str.replace_ws, Str.words.
  rewrite <- text_single, pieces_text by apply read_single, read_pieces.
  rewrite drop_gaps_single, (proj1 (drop_end_single _)), words_drop_gaps.
  reflexivity.
Qed.

(** *** Words *)

Lemma read_app_space (a b : list Str.piece) :
  Str.read a -> Str.read b -> Str.read (a ++ Str.Space " " :: b).
Proof.
  intros Ha Hb. induction a as [|[sp|c] a IH]; cbn [app].
  - split; [reflexivity|exact Hb].
  - destruct Ha as [H Ha]. split; [exact H|auto].
  - destruct Ha as [H Ha]. split; [|auto].
    rewrite text_app. cbn [Str.text]. rewrite append_cons, append_nil_l.
    apply space_len_low; [exact space_byte_low|exact H].
Qed.

Lemma pieces_append_space (a b : string) :
  Str.pieces (a +:+ " " +:+ b) = Str.pieces a ++ Str.Space " " :: Str.pieces b.
Proof.
  rewrite <- (pieces_text (Str.pieces a ++ Str.Space " " :: Str.pieces b))
    by (apply read_app_space; apply read_pieces).
  rewrite text_app. cbn [Str.text]. rewrite !text_pieces. reflexivity.
Qed.

Lemma words_of_app_space (a b : list Str.piece) :
  Str.words_of (a ++ Str.Space " " :: b) = Str.words_of a ++ Str.words_of b.
Proof.
  induction a as [|[sp|c] r IH]; [reflexivity|exact IH|].
  destruct r as [|[sp|d] r'].
  - reflexivity.
  - cbn [app Str.words_of] in *. rewrite IH. reflexivity.
  - cbn [app] in *. rewrite !words_of_chars2, IH.
    pose proof (words_of_char d r') as Hne.
    destruct (Str.words_of (Str.Char d :: r')); [congruence|reflexivity].
Qed.

Lemma words_append_space (a b : string) :
  Str.words (a +:+ " " +:+ b) = Str.words a ++ Str.words b.
Proof. unfold Str.words. rewrite pieces_append_space. apply words_of_app_space. Qed.

Lemma words_join (l : list string) :
  Str.words (Str.join " " l) = List.concat (List.map Str.words l).
Proof.
  induction l as [|x [|y l] IH]; [reflexivity| |].
  - simpl. rewrite app_nil_r. reflexivity.
  - rewrite join_cons_word, words_append_space, IH. reflexivity.
Qed.

Lemma words_of_chars (w : string) : w <> "" -> Str.words_of (Str.chars w) = [w].
Proof.
  induction w as [|c w IH]; [congruence|]. intros _.
  destruct w as [|d w]; [reflexivity|].
  cbn [Str.chars] in *. rewrite words_of_chars2, IH by discriminate. reflexivity.
Qed.

(** A word of a text holds no white space, also when read on its own. *)
Lemma read_words (l : list Str.piece) :
  Str.read l ->
  Forall (fun w => w <> "" /\ Str.pieces w = Str.chars w) (Str.words_of l)
  /\ match l with
     | Str.Char _ :: _ =>
         exists w rest y, Str.words_of l = w :: rest /\ Str.text l = w +:+ y
     | _ => True
     end.
Proof.
  induction l as [|[sp|c] r IH]; [split; [constructor|exact I]| |].
  - intros [_ Hr]. split; [exact (proj1 (IH Hr))|exact I].
  - intros [Hc Hr]. destruct (IH Hr) as [Hall Hhead].
    assert (Hone : String c "" <> "" /\ Str.pieces (String c "") = Str.chars (String c "")).
    { split; [discriminate|]. rewrite pieces_char; [reflexivity|].
      apply (space_len_prefix c "" (Str.text r)). exact Hc. }
    cbn [Str.text]. destruct r as [|[sp|d] r'].
    + split; [constructor; [exact Hone|constructor]|]. exists (String c ""), [], "". auto.
    + split; [constructor; [exact Hone|exact Hall]|].
      eexists (String c ""), _, _. split; reflexivity.
    + destruct Hhead as (w & rest & y & Hw & Hy). rewrite words_of_chars2, Hw in *.
      inversion Hall as [|? ? [Hne Hpw] Hrest]; subst.
      rewrite Hy in Hc. split.
      * constructor; [|exact Hrest]. split; [discriminate|].
        rewrite pieces_char by exact (space_len_prefix _ _ _ Hc).
        rewrite Hpw. reflexivity.
      * exists (String c w), rest, y. rewrite Hy. auto.
Qed.

Lemma words_single (s : string) :
  Forall (fun w => Str.words w = [w]) (Str.words s).
Proof.
  unfold Str.words at 2.
  eapply Forall_impl; [exact (proj1 (read_words _ (read_pieces s)))|].
  intros w [Hne Hw]. unfold Str.words. rewrite Hw. apply words_of_chars, Hne.
Qed.

Lemma words_of_words (s : string) :
  List.concat (List.map Str.words (Str.words s)) = Str.words s.
Proof.
  pose proof (words_single s) as H.
  induction H as [|w l Hw _ IH]; [reflexivity|].
  cbn [List.map List.concat]. rewrite Hw, IH. reflexivity.
Qed.

(** Collapsing and trimming a second time changes nothing. *)
Lemma normalize_idempotent (s : string) :
  Str.trim (Str.replace_ws " " (Str.trim (Str.replace_ws " " s)))
  = Str.trim (Str.replace_ws " " s).
Proof. rewrite !normalize_words, words_join, words_of_words. reflexivity. Qed.

(** The white space of [Str] is the white space of the language, in
    the bytes that stand for its code units. *)
Lemma code_unit_space_table :
  forallb
    (fun hi =>
       forallb
         (fun lo =>
            let u := (256 * N.of_nat hi + N.of_nat lo)%N in
            Bool.eqb (Str.is_space (Json.code_unit u)) (Spec.white_space u))
         (seq 0 256))
    (seq 0 256)
  = true.
Proof. vm_compute. reflexivity. Qed.

Lemma code_unit_space (u : N) :
  (u < 65536)%N -> Str.is_space (Json.code_unit u) = Spec.white_space u.
Proof.
  intros Hu. pose proof code_unit_space_table as H.
  rewrite forallb_forall in H.
  assert (Hhi : (u / 256 < 256)%N) by (apply N.Div0.div_lt_upper_bound; lia).
  assert (Hlo : (u mod 256 < 256)%N) by (apply N.mod_lt; lia).
  assert (Hin : forall n, (n < 256)%N -> In (N.to_nat n) (seq 0 256)).
  { intros n Hn. assert (N.to_nat n < 256) by lia. apply in_seq. lia. }
  specialize (H _ (Hin _ Hhi)). rewrite forallb_forall in H.
  specialize (H _ (Hin _ Hlo)).
  cbv zeta in H. rewrite !N2Nat.id in H.
  rewrite <- (N.div_mod u 256) in H by lia.
  apply Bool.eqb_prop in H. exact H.
Qed.
(** ** Handle matching *)



Lemma widget_find_string (P : list Product) (t : string) :
  find_r (AIRecommender.matches (JString t)) P
  = ret (List.find (AIRecommender.handle_matches t) P).
Proof. apply find_r_pure. Qed.



Lemma widget_match_strings (P : list Product) (ts : list string) :
  AIRecommender.match_tokens P (JString <$> ts)
  = ret (take 6 (omap (fun t => List.find (AIRecommender.handle_matches t) P) ts)).
Proof.
  unfold AIRecommender.match_tokens, rbind.
  rewrite (map_r_pure
             (fun v => match v with
                       | JString t => List.find (AIRecommender.handle_matches t) P
                       | _ => None
                       end)).
  - simpl. unfold filter_Boolean. do 2 f_equal.
    induction ts as [|t ts IH]; [reflexivity|].
    cbn [fmap list_fmap omap list_omap] in *.
    destruct (List.find _ P); rewrite IH; reflexivity.
  - intros v Hv. apply list_elem_of_fmap in Hv as (t & -> & _).
    apply widget_find_string.
Qed.

(** The matcher of the library knows the first two encodings only. *)
Lemma encodes_lib (t : string) (p : Product) :
  Gemini.handle_matches t p = true <->
  handle p = t \/ handle p = Str.remove_hyphens t.
Proof.
  unfold Gemini.handle_matches. rewrite orb_true_iff, !String.eqb_eq. tauto.
Qed.

Lemma lib_find_string (P : list Product) (t : string) :
  find_r (Gemini.matches (JString t)) P
  = ret (List.find (Gemini.handle_matches t) P).
Proof. apply find_r_pure. Qed.




(** The library resolves neither "redshirt" nor "Red Shirt" to the
    stored handle "red-shirt": its callback has no third comparison. *)
Lemma lib_matcher_two_encodings :
  Gemini.match_tokens [Sample.product "red-shirt"]
    [JString "red-shirt"; JString "redshirt"; JString "Red Shirt"]
  = ret [Sample.product "red-shirt"].
Proof. reflexivity. Qed.

(** A token that is no string makes the callback throw as soon as there
    is a product to compare it with. *)
Lemma widget_token_not_string (P : list Product) (p : Product) (v : json) :
  (forall s, v <> JString s) ->
  find_r (AIRecommender.matches v) (p :: P) = throw TypeError.
Proof. intros Hv. destruct v; simpl; try reflexivity. destruct (Hv s eq_refl). Qed.
(** ** The fill from the fallback list *)

Lemma used_handles (M F : list Product) :
  filter (fun p => handle p ∉ (list_to_set (handle <$> M) : gset string)) F
  = Spec.unused M F.
Proof.
  unfold Spec.unused. apply list_filter_iff. intros p.
  rewrite elem_of_list_to_set. tauto.
Qed.

Lemma unused_nil (F : list Product) : Spec.unused [] F = F.
Proof.
  unfold Spec.unused. induction F as [|p F IH]; [reflexivity|].
  rewrite filter_cons_True by (simpl; set_solver). f_equal. exact IH.
Qed.

Lemma unused_sublist (M F : list Product) : Spec.unused M F `sublist_of` F.
Proof. apply sublist_filter. Qed.

Lemma unused_spec (M F : list Product) :
  Forall (fun p => handle p ∉ handle <$> M) (Spec.unused M F).
Proof.
  apply Forall_forall. intros p Hp. unfold Spec.unused in Hp.
  apply list_elem_of_filter in Hp. tauto.
Qed.

Lemma widget_fill_eq (M F : list Product) :
  AIRecommender.fill M F
  = if (length M <? 4) && (0 <? length F)
    then M ++ take (6 - length M) (Spec.unused M F)
    else M.
Proof. unfold AIRecommender.fill. rewrite used_handles. reflexivity. Qed.

Lemma lib_fill_eq (M F : list Product) :
  Gemini.fill M F
  = if (length M <? 4) && (0 <? length F)
    then M ++ take (4 - length M) (Spec.unused M F)
    else M.
Proof. unfold Gemini.fill. rewrite used_handles. reflexivity. Qed.

(** The last test of the [try] block changes nothing: the filled
    sequence is empty only when the fallback list is. *)
Lemma widget_merge_fill (M F : list Product) :
  AIRecommender.merge M F = AIRecommender.fill M F.
Proof.
  unfold AIRecommender.merge. rewrite widget_fill_eq.
  destruct M as [|m M].
  - rewrite unused_nil. destruct F; reflexivity.
  - destruct (_ && _); reflexivity.
Qed.

Lemma lib_merge_fill (M F : list Product) :
  Gemini.merge M F = Gemini.fill M F.
Proof.
  unfold Gemini.merge. rewrite lib_fill_eq.
  destruct M as [|m M].
  - rewrite unused_nil. destruct F; reflexivity.
  - destruct (_ && _); reflexivity.
Qed.

(** The policy of the widget: a short matched sequence is filled up to
    six entries from the unused fallback products, in fallback order. *)
Lemma widget_fill_policy (M F : list Product) :
  length M < 4 -> F <> [] ->
  AIRecommender.merge M F = M ++ take (6 - length M) (Spec.unused M F)
  /\ length (AIRecommender.merge M F)
     = min 6 (length M + length (Spec.unused M F)).
Proof.
  intros HM HF. rewrite widget_merge_fill, widget_fill_eq.
  destruct F as [|f F]; [congruence|].
  replace (length M <? 4) with true by (symmetry; apply Nat.ltb_lt; exact HM).
  change (0 <? length (f :: F)) with true. cbn [andb].
  split; [reflexivity|].
  rewrite length_app, length_take. lia.
Qed.

Lemma widget_fill_long (M F : list Product) :
  4 <= length M -> AIRecommender.merge M F = M.
Proof.
  intros HM. rewrite widget_merge_fill, widget_fill_eq.
  replace (length M <? 4) with false by (symmetry; apply Nat.ltb_ge; exact HM).
  reflexivity.
Qed.

Lemma widget_merge_empty (F : list Product) :
  AIRecommender.merge [] F = take 6 F.
Proof.
  rewrite widget_merge_fill, widget_fill_eq, unused_nil. destruct F; reflexivity.
Qed.

(** The library fills up to four entries only. *)
Lemma lib_fill_policy (M F : list Product) :
  length M < 4 -> F <> [] ->
  Gemini.merge M F = M ++ take (4 - length M) (Spec.unused M F)
  /\ length (Gemini.merge M F)
     = min 4 (length M + length (Spec.unused M F)).
Proof.
  intros HM HF. rewrite lib_merge_fill, lib_fill_eq.
  destruct F as [|f F]; [congruence|].
  replace (length M <? 4) with true by (symmetry; apply Nat.ltb_lt; exact HM).
  change (0 <? length (f :: F)) with true. cbn [andb].
  split; [reflexivity|].
  rewrite length_app, length_take. lia.
Qed.

Lemma lib_merge_empty (F : list Product) :
  Gemini.merge [] F = take 4 F.
Proof.
  rewrite lib_merge_fill, lib_fill_eq, unused_nil. destruct F; reflexivity.
Qed.

(** ** The final output *)

Lemma find_r_elem {A} (f : A -> result bool) (l : list A) (x : A) :
  find_r f l = ret (Some x) -> x ∈ l.
Proof.
  induction l as [|y l IH]; simpl; [discriminate|].
  destruct (f y) as [e|[|]]; try discriminate.
  - intros [= ->]. set_solver.
  - intros H. set_solver.
Qed.

Lemma map_r_Forall {A B} (g : A -> result B) (Q : B -> Prop) (l : list A) (ys : list B) :
  (forall x y, x ∈ l -> g x = ret y -> Q y) ->
  map_r g l = ret ys -> Forall Q ys.
Proof.
  revert ys. induction l as [|x l IH]; intros ys Hg; simpl.
  - intros [= <-]. constructor.
  - destruct (g x) as [e|y] eqn:Hx; [discriminate|].
    destruct (map_r g l) as [e|ys'] eqn:Hl; [discriminate|].
    intros [= <-]. constructor.
    + apply (Hg x y); [set_solver|exact Hx].
    + apply IH; [|reflexivity]. intros x' y' Hx' Hy'. apply (Hg x' y'); [set_solver|exact Hy'].
Qed.

Lemma matched_from_catalogue (find : json -> list Product -> result (option Product))
    (P : list Product) (T : list json) (found : list (option Product)) :
  (forall t p, find t P = ret (Some p) -> p ∈ P) ->
  map_r (fun t => find t P) T = ret found ->
  Forall (fun p => p ∈ P) (take 6 (filter_Boolean found))
  /\ length (take 6 (filter_Boolean found)) <= 6.
Proof.
  intros Hfind Hmap. split; [|rewrite length_take; lia].
  apply Forall_forall. intros p Hp.
  apply subseteq_take, filter_Boolean_elem in Hp.
  assert (Forall (fun o => forall q, o = Some q -> q ∈ P) found) as Hall.
  { eapply map_r_Forall; [|exact Hmap]. intros t o _ Ht q ->. eapply Hfind, Ht. }
  rewrite Forall_forall in Hall. exact (Hall _ Hp p eq_refl).
Qed.

Lemma widget_matched (P : list Product) (T : list json) (M : list Product) :
  AIRecommender.match_tokens P T = ret M ->
  Forall (fun p => p ∈ P) M /\ length M <= 6.
Proof.
  unfold AIRecommender.match_tokens, rbind.
  destruct (map_r _ T) as [e|found] eqn:Hmap; [discriminate|].
  intros [= <-].
  apply (matched_from_catalogue (fun t => find_r (AIRecommender.matches t)) P T found);
    [|exact Hmap].
  intros t p. apply find_r_elem.
Qed.

Lemma lib_matched (P : list Product) (T : list json) (M : list Product) :
  Gemini.match_tokens P T = ret M ->
  Forall (fun p => p ∈ P) M /\ length M <= 6.
Proof.
  unfold Gemini.match_tokens, rbind.
  destruct (map_r _ T) as [e|found] eqn:Hmap; [discriminate|].
  intros [= <-].
  apply (matched_from_catalogue (fun t => find_r (Gemini.matches t)) P T found);
    [|exact Hmap].
  intros t p. apply find_r_elem.
Qed.

(** A matched sequence filled with at most [cap - length M] unused
    fallback products satisfies the invariant. *)
Lemma filled_merged (cap : nat) (P F M : list Product) :
  cap <= 6 -> Forall (fun p => p ∈ P) M -> length M <= 6 ->
  Spec.merged P F
    (if (length M <? 4) && (0 <? length F)
     then M ++ take (cap - length M) (Spec.unused M F)
     else M).
Proof.
  intros Hcap HM Hlen. unfold Spec.merged.
  destruct ((length M <? 4) && (0 <? length F)) eqn:Hc.
  - apply andb_true_iff in Hc as [Hlt _]. apply Nat.ltb_lt in Hlt.
    split; [rewrite length_app, length_take; lia|].
    exists M, (take (cap - length M) (Spec.unused M F)).
    split; [reflexivity|]. split; [exact HM|]. split.
    + etransitivity; [apply sublist_take|apply unused_sublist].
    + apply Forall_take, unused_spec.
  - split; [exact Hlen|]. exists M, [].
    split; [symmetry; apply app_nil_r|]. split; [exact HM|].
    split; [apply sublist_nil_l|constructor].
Qed.

Lemma fallback_merged (P F : list Product) : Spec.merged P F (take 6 F).
Proof.
  split; [rewrite length_take; lia|]. exists [], (take 6 F).
  split; [reflexivity|]. split; [constructor|].
  split; [apply sublist_take|]. apply Forall_forall. intros p _. simpl. set_solver.
Qed.

Lemma widget_merged (P F M : list Product) :
  Forall (fun p => p ∈ P) M -> length M <= 6 ->
  Spec.merged P F (AIRecommender.merge M F).
Proof.
  intros HM Hlen. rewrite widget_merge_fill, widget_fill_eq.
  apply filled_merged; [lia|exact HM|exact Hlen].
Qed.

Lemma lib_merged (P F M : list Product) :
  Forall (fun p => p ∈ P) M -> length M <= 6 ->
  Spec.merged P F (Gemini.merge M F).
Proof.
  intros HM Hlen. rewrite lib_merge_fill, lib_fill_eq.
  apply filled_merged; [lia|exact HM|exact Hlen].
Qed.

(** When neither the matched sequence nor the fallback list repeats a
    handle, the filled sequence repeats none. *)
Lemma filled_NoDup (cap : nat) (F M : list Product) :
  NoDup (handle <$> M) -> NoDup (handle <$> F) ->
  NoDup (handle <$>
           (if (length M <? 4) && (0 <? length F)
            then M ++ take (cap - length M) (Spec.unused M F)
            else M)).
Proof.
  intros HM HF. destruct (_ && _); [|exact HM].
  rewrite fmap_app. apply NoDup_app. split; [exact HM|]. split.
  - intros h Hh Hh'. apply list_elem_of_fmap in Hh' as (p & -> & Hp).
    apply subseteq_take in Hp.
    pose proof (unused_spec M F) as Hu. rewrite Forall_forall in Hu.
    exact (Hu p Hp Hh).
  - apply (sublist_NoDup _ (handle <$> F)); [exact HF|].
    apply fmap_sublist. etransitivity; [apply sublist_take|apply unused_sublist].
Qed.

Lemma widget_response_merged (pr : AIRecommender.props) (r : response)
    (out : list Product) :
  AIRecommender.from_response pr r = ret out ->
  Spec.merged (AIRecommender.availableProducts pr)
    (AIRecommender.fallbackProducts pr) out.
Proof.
  unfold AIRecommender.from_response, rbind.
  destruct (negb (ok r)); [discriminate|].
  destruct (response_json r) as [e|data]; [discriminate|].
  destruct (AIRecommender.recommendedHandles data) as [e|tokens]; [discriminate|].
  destruct (AIRecommender.match_tokens _ tokens) as [e|M] eqn:HM; [discriminate|].
  intros [= <-]. apply widget_matched in HM as [HP Hlen].
  apply widget_merged; assumption.
Qed.

Lemma widget_state_merged (fetch : transport) (pr : AIRecommender.props)
    (st : AIRecommender.state) :
  Spec.merged (AIRecommender.availableProducts pr)
    (AIRecommender.fallbackProducts pr)
    (AIRecommender.recommendedProducts
       (snd (AIRecommender.fetchRecommendations fetch pr st))).
Proof.
  unfold AIRecommender.fetchRecommendations.
  destruct (AIRecommender.availableProducts pr) as [|p P] eqn:HP.
  - simpl. apply fallback_merged.
  - rewrite <- HP. unfold rbind.
    destruct (fetch _) as [e|r]; [simpl; apply fallback_merged|].
    destruct (AIRecommender.from_response pr r) as [e|out] eqn:Hout; simpl.
    + apply fallback_merged.
    + apply widget_response_merged in Hout. exact Hout.
Qed.

Lemma lib_output_merged (fetch : transport) (apiKey : option string)
    (ctx : Gemini.context) (F : list Product) :
  Spec.merged (Gemini.availableProducts ctx) F
    (snd (Gemini.getRecommendationsWithFallback fetch apiKey ctx F)).
Proof.
  unfold Gemini.getRecommendationsWithFallback.
  destruct (Gemini.getGeminiRecommendations fetch apiKey ctx) as [log [e|T]]; simpl.
  - apply fallback_merged.
  - destruct (Gemini.match_tokens _ T) as [e|M] eqn:HM; [apply fallback_merged|].
    apply lib_matched in HM as [HP Hlen]. apply lib_merged; assumption.
Qed.

(** C2 (as amended): for every transport, token sequence and fallback
    list, the final output of the widget and of the library has at most
    six entries, the matched entries before the appended fallback entries,
    the appended entries in fallback order and none of them with the
    handle of a matched entry.  The matched entries themselves are not
    deduplicated; the output repeats no handle when neither the matched
    sequence nor the fallback list does. *)
Theorem merged_output_invariant :
  (forall fetch pr st,
      Spec.merged (AIRecommender.availableProducts pr)
        (AIRecommender.fallbackProducts pr)
        (AIRecommender.recommendedProducts
           (snd (AIRecommender.fetchRecommendations fetch pr st))))
  /\ (forall fetch apiKey ctx F,
        Spec.merged (Gemini.availableProducts ctx) F
          (snd (Gemini.getRecommendationsWithFallback fetch apiKey ctx F)))
  /\ (forall P T M F,
        AIRecommender.match_tokens P T = ret M ->
        Spec.merged P F (AIRecommender.merge M F)
        /\ exists appended, AIRecommender.merge M F = M ++ appended)
  /\ (forall M F,
        NoDup (handle <$> M) -> NoDup (handle <$> F) ->
        NoDup (handle <$> AIRecommender.merge M F)
        /\ NoDup (handle <$> Gemini.merge M F)).
Proof.
  split; [exact widget_state_merged|].
  split; [exact lib_output_merged|].
  split.
  - intros P T M F HM. split.
    + apply widget_matched in HM as [HP Hlen]. apply widget_merged; assumption.
    + rewrite widget_merge_fill, widget_fill_eq.
      destruct (_ && _); eexists; [reflexivity|symmetry; apply app_nil_r].
  - intros M F HM HF. split.
    + rewrite widget_merge_fill, widget_fill_eq. apply filled_NoDup; assumption.
    + rewrite lib_merge_fill, lib_fill_eq. apply filled_NoDup; assumption.
Qed.

Lemma merged_output_invariant_witness :
  Spec.merged [Sample.product "a"; Sample.product "b"] Sample.six
    (AIRecommender.merge [Sample.product "b"] Sample.six)
  /\ NoDup (handle <$> AIRecommender.merge [Sample.product "b"] Sample.six).
Proof.
  destruct merged_output_invariant as (_ & _ & Hm & Hd).
  split.
  - refine (proj1 (Hm [Sample.product "a"; Sample.product "b"] [JString "b"]
                      [Sample.product "b"] Sample.six _)).
    reflexivity.
  - refine (proj1 (Hd [Sample.product "b"] Sample.six _ _)).
    + apply (bool_decide_unpack _). reflexivity.
    + apply (bool_decide_unpack _). reflexivity.
Defined.

(** C2, the counterexample: the response names the handle "a" twice, the
    widget shows the product twice. *)
Lemma repeated_token_repeats_handle :
  let a := Sample.product "a" in
  let pr := {| AIRecommender.currentProductTitle := None;
               AIRecommender.currentProductDescription := None;
               AIRecommender.availableProducts := [a];
               AIRecommender.userQuery := None;
               AIRecommender.fallbackProducts := [] |} in
  let fetch := Sample.always (Sample.ok_with (Str.dq "{'recommendations':['a','a']}")) in
  AIRecommender.recommendedProducts
    (snd (AIRecommender.fetchRecommendations fetch pr AIRecommender.initial))
  = [a; a]
  /\ ~ NoDup (handle <$> [a; a]).
Proof.
  split; [reflexivity|].
  intros H. apply NoDup_cons in H as [H _]. apply H. simpl. set_solver.
Qed.

(** C1, at the failing input: the generative API answers with an empty
    array and the fallback list has six products.  The library returns
    the first four of them, where the widget shows the first six. *)
Theorem lib_pads_to_four :
  let ctx := {| Gemini.currentProductTitle := None;
                Gemini.currentProductDescription := None;
                Gemini.availableProducts := [Sample.product "p1"];
                Gemini.userQuery := None |} in
  let fetch := Sample.always (Sample.ok_with (Sample.envelope "[]")) in
  snd (Gemini.getRecommendationsWithFallback fetch (Some "key") ctx Sample.six)
  = take 4 Sample.six
  /\ take 4 Sample.six <> take 6 Sample.six
  /\ AIRecommender.merge [] Sample.six = take 6 Sample.six.
Proof.
  split; [vm_compute; reflexivity|].
  split; [discriminate|]. apply widget_merge_empty.
Qed.

(** ** The widget without available products *)

(** C10: when the list of available products is empty, the widget sets
    the recommendations to the first six fallback products, stops
    loading, and issues no request; those six products are what it
    renders. *)
Theorem widget_no_products (fetch : transport) (pr : AIRecommender.props)
    (st : AIRecommender.state) :
  AIRecommender.availableProducts pr = [] ->
  AIRecommender.fetchRecommendations fetch pr st
  = ([], {| AIRecommender.recommendedProducts :=
              take 6 (AIRecommender.fallbackProducts pr);
            AIRecommender.loading := false;
            AIRecommender.error := AIRecommender.error st |})
  /\ AIRecommender.rendered pr
       (snd (AIRecommender.fetchRecommendations fetch pr st))
     = take 6 (AIRecommender.fallbackProducts pr).
Proof.
  intros HP. unfold AIRecommender.fetchRecommendations. rewrite HP.
  split; [reflexivity|].
  unfold AIRecommender.rendered. simpl.
  destruct (AIRecommender.error st); [|reflexivity].
  destruct (take 6 _); reflexivity.
Qed.

Lemma widget_no_products_witness :
  let pr := {| AIRecommender.currentProductTitle := Some "Red shirt";
               AIRecommender.currentProductDescription := None;
               AIRecommender.availableProducts := [];
               AIRecommender.userQuery := None;
               AIRecommender.fallbackProducts :=
                 Sample.six ++ [Sample.product "f7"] |} in
  AIRecommender.fetchRecommendations
    (Sample.always (Sample.ok_with "[]")) pr AIRecommender.initial
  = ([], {| AIRecommender.recommendedProducts := Sample.six;
            AIRecommender.loading := false;
            AIRecommender.error := None |}).
Proof.
  intros pr.
  exact (proj1 (widget_no_products (Sample.always (Sample.ok_with "[]")) pr
                  AIRecommender.initial eq_refl)).
Defined.

(** With products to choose from, the widget issues exactly one request. *)
Lemma widget_one_request (fetch : transport) (pr : AIRecommender.props)
    (st : AIRecommender.state) :
  AIRecommender.availableProducts pr <> [] ->
  length (fst (AIRecommender.fetchRecommendations fetch pr st)) = 1.
Proof.
  intros HP. unfold AIRecommender.fetchRecommendations.
  destruct (AIRecommender.availableProducts pr); [congruence|]. unfold rbind.
  destruct (fetch _) as [e|r]; [reflexivity|].
  destruct (AIRecommender.from_response pr r); reflexivity.
Qed.

(** ** The bracketed-array pattern *)

Lemma through_last_close_none (s : string) :
  Gemini.through_last_close s = None <-> ~ Spec.includes s "]".
Proof.
  induction s as [|x r IH]; simpl.
  - split; [intros _; apply includes_char_nil|reflexivity].
  - rewrite includes_char_cons.
    destruct (Gemini.through_last_close r) as [t|].
    + split; [discriminate|]. intros H. exfalso. apply H. right.
      destruct (includes_char_dec "]" r) as [Hr|Hr]; [exact Hr|].
      apply IH in Hr. discriminate.
    + destruct (Ascii.eqb_spec x "]"%char) as [->|Hx].
      * split; [discriminate|]. intros H. destruct H. left. reflexivity.
      * split; [|reflexivity]. intros _ [H|H]; [congruence|].
        apply (proj1 IH); [reflexivity|exact H].
Qed.

Lemma through_last_close_some (s t : string) :
  Gemini.through_last_close s = Some t <->
  exists inside after,
    s = (inside +:+ "]") +:+ after /\ t = inside +:+ "]" /\ ~ Spec.includes after "]".
Proof.
  revert t. induction s as [|x r IH]; intros t; simpl.
  - split; [discriminate|]. intros ([|y i] & a & H & _); discriminate.
  - destruct (Gemini.through_last_close r) as [t'|] eqn:Hr.
    + split.
      * intros [= <-]. destruct (proj1 (IH t') eq_refl) as (i & a & -> & -> & Ha).
        exists (String x i), a. auto.
      * intros (i & a & Hs & -> & Ha). f_equal.
        destruct i as [|y i].
        -- rewrite append_nil_l, append_cons, append_nil_l in Hs.
           injection Hs as -> ->.
           apply through_last_close_none in Ha. congruence.
        -- rewrite !append_cons in Hs. injection Hs as -> ->.
           rewrite append_cons. f_equal.
           assert (Some t' = Some (i +:+ "]")) as [= ->]; [|reflexivity].
           apply IH. exists i, a. auto.
    + apply through_last_close_none in Hr.
      destruct (Ascii.eqb_spec x "]"%char) as [->|Hx].
      * split.
        -- intros [= <-]. exists "", r. auto.
        -- intros (i & a & Hs & -> & Ha). destruct i as [|y i].
           ++ reflexivity.
           ++ rewrite !append_cons in Hs. injection Hs as _ ->.
              destruct Hr. apply includes_append_r. apply includes_append_l.
              apply includes_refl.
      * split; [discriminate|].
        intros (i & a & Hs & -> & Ha). destruct i as [|y i].
        -- rewrite append_nil_l, append_cons in Hs. congruence.
        -- rewrite !append_cons in Hs. injection Hs as -> ->.
           destruct Hr. apply includes_append_r. apply includes_append_l.
           apply includes_refl.
Qed.

Ltac includes_solve :=
  solve [ apply includes_refl
        | apply includes_append_l; includes_solve
        | apply includes_append_r; includes_solve ].

Ltac str_simpl :=
  repeat first [rewrite append_cons | rewrite append_nil_l].

Lemma has_bracketed_array_cons (x : ascii) (r : string) :
  Spec.has_bracketed_array (String x r) <->
  (x = "["%char /\ Spec.includes r "]") \/ Spec.has_bracketed_array r.
Proof.
  split.
  - intros ([|y b] & i & a & H).
    + rewrite append_nil_l, append_cons, append_nil_l in H. injection H as -> ->.
      left. split; [reflexivity|]. exists i, a. reflexivity.
    + rewrite append_cons in H. injection H as _ ->. right. exists b, i, a. reflexivity.
  - intros [[-> (i & a & ->)]|(b & i & a & ->)].
    + exists "", i, a. reflexivity.
    + exists (String x b), i, a. reflexivity.
Qed.

Lemma has_bracketed_array_close (s : string) :
  Spec.has_bracketed_array s -> Spec.includes s "]".
Proof.
  intros (b & i & a & ->). includes_solve.
Qed.

Lemma match_array_none (s : string) :
  Gemini.match_array s = None <-> ~ Spec.has_bracketed_array s.
Proof.
  induction s as [|x r IH]; simpl.
  - split; [|reflexivity]. intros _ ([|y b] & i & a & H); discriminate.
  - rewrite has_bracketed_array_cons.
    destruct (Ascii.eqb_spec x "["%char) as [->|Hx].
    + destruct (Gemini.through_last_close r) as [t|] eqn:Hr.
      * split; [discriminate|]. intros H. destruct H. left. split; [reflexivity|].
        destruct (includes_char_dec "]" r) as [Hc|Hc]; [exact Hc|].
        apply through_last_close_none in Hc. congruence.
      * apply through_last_close_none in Hr. rewrite IH. split.
        -- intros Hn [[_ Hc]|Hb]; [exact (Hr Hc)|exact (Hn Hb)].
        -- intros Hn Hb. apply Hn. right. exact Hb.
    + rewrite IH. split.
      * intros Hn [[Hc _]|Hb]; [congruence|exact (Hn Hb)].
      * intros Hn Hb. apply Hn. right. exact Hb.
Qed.

Lemma match_array_some (s m : string) :
  Gemini.match_array s = Some m <-> Spec.greedy_match s m.
Proof.
  revert m. induction s as [|x r IH]; intros m; simpl.
  - split; [discriminate|].
    intros (b & i & a & H & -> & _). destruct b; discriminate.
  - destruct (Ascii.eqb_spec x "["%char) as [->|Hx].
    + destruct (Gemini.through_last_close r) as [t|] eqn:Hr.
      * apply through_last_close_some in Hr as (i & a & -> & -> & Ha). split.
        -- intros [= <-]. exists "", i, a.
           split; [str_simpl; reflexivity|].
           split; [reflexivity|].
           split; [apply includes_char_nil|exact Ha].
        -- intros (b & i' & a' & Hs & -> & Hb & Ha'). destruct b as [|y b].
           ++ rewrite append_nil_l, !append_cons, !append_nil_l in Hs.
              injection Hs as Hs. f_equal. rewrite append_cons, append_nil_l. f_equal.
              assert (Gemini.through_last_close ((i +:+ "]") +:+ a) = Some (i' +:+ "]")) as H1.
              { apply through_last_close_some. exists i', a'. auto. }
              assert (Gemini.through_last_close ((i +:+ "]") +:+ a) = Some (i +:+ "]")) as H2.
              { apply through_last_close_some. exists i, a. auto. }
              congruence.
           ++ rewrite append_cons in Hs. injection Hs as <- _.
              destruct Hb. apply includes_char_cons. left. reflexivity.
      * apply through_last_close_none in Hr. rewrite IH. split.
        -- intros (b & i & a & -> & -> & _). destruct Hr. includes_solve.
        -- intros (b & i & a & Hs & -> & Hb & Ha). destruct b as [|y b].
           ++ rewrite append_nil_l, !append_cons, !append_nil_l in Hs.
              injection Hs as ->. destruct Hr. includes_solve.
           ++ rewrite append_cons in Hs. injection Hs as <- _.
              destruct Hb. apply includes_char_cons. left. reflexivity.
    + rewrite IH. split.
      * intros (b & i & a & -> & -> & Hb & Ha). exists (String x b), i, a.
        split; [reflexivity|]. split; [reflexivity|]. split; [|exact Ha].
        rewrite includes_char_cons.
        intros [H|H]; [congruence|exact (Hb H)].
      * intros (b & i & a & Hs & -> & Hb & Ha). destruct b as [|y b].
        -- rewrite append_nil_l, !append_cons in Hs. congruence.
        -- rewrite append_cons in Hs. injection Hs as -> ->. exists b, i, a.
           split; [reflexivity|]. split; [reflexivity|]. split; [|exact Ha].
           intros H. apply Hb. apply includes_char_cons. right. exact H.
Qed.

(** ** [JSON.parse] *)

(** A text that starts with an opening bracket decodes to an array or
    not at all. *)
Lemma parse_value_bracket (f : nat) (r : string) (v : json) (rest : string) :
  Json.parse_value f (String "["%char r) = Json.Ok v rest ->
  exists items, v = JArray items.
Proof.
  destruct f as [|f]; [discriminate|].
  cbn [Json.parse_value].
  change (Json.skip_ws (String "["%char r)) with (String "["%char r).
  change (Ascii.eqb "[" "[") with true. cbv iota.
  destruct (Str.after_char "]" (Json.skip_ws r)).
  - intros [= <- _]. eexists. reflexivity.
  - destruct (Json.parse_elements f _ []); [|discriminate..].
    intros [= <- _]. eexists. reflexivity.
Qed.

Lemma parse_bracket (r : string) (v : json) :
  Json.parse (String "["%char r) = Some v -> exists items, v = JArray items.
Proof.
  unfold Json.parse.
  destruct (Json.parse_value _ _) as [w rest| |] eqn:Hv; [|discriminate..].
  destruct (Json.skip_ws rest); [|discriminate].
  intros [= <-]. eapply parse_value_bracket, Hv.
Qed.

(** *** The parser consumes its input and never runs out of fuel *)

Lemma skip_ws_length (s : string) :
  String.length (Json.skip_ws s) <= String.length s.
Proof.
  induction s as [|c r IH]; simpl; [lia|].
  destruct (Json.is_ws c); simpl; lia.
Qed.

Lemma after_char_length (c : ascii) (s r : string) :
  Str.after_char c s = Some r -> String.length s = S (String.length r).
Proof.
  destruct s as [|x s]; simpl; [discriminate|].
  destruct (Ascii.eqb x c); [|discriminate]. intros [= ->]. reflexivity.
Qed.

Lemma parse_string_body_length (s t r : string) :
  Json.parse_string_body s = Some (t, r) -> String.length r < String.length s.
Proof.
  remember (S (String.length s)) as n eqn:Hn.
  assert (String.length s < n) as Hlt by lia. clear Hn.
  revert s t r Hlt. induction n as [|n IHn]; intros s t r Hlt; [lia|].
  assert (forall s' t' r', String.length s' < String.length s ->
                           Json.parse_string_body s' = Some (t', r') ->
                           String.length r' < String.length s') as IH.
  { intros s' t' r' Hs'. apply IHn. lia. }
  clear IHn Hlt.
  destruct s as [|c s]; simpl; [discriminate|].
  destruct (Ascii.eqb c Json.dquote); [intros [= _ <-]; lia|].
  destruct (Ascii.eqb c "\"%char).
  - destruct s as [|e s1]; [discriminate|].
    assert (forall x t r,
               match Json.parse_string_body s1 with
               | Some (t0, rest) => Some (String x t0, rest)
               | None => None
               end = Some (t, r) ->
               String.length r < S (S (String.length s1))) as Hsimple.
    { intros x t0 r0. destruct (Json.parse_string_body s1) as [[t1 r1]|] eqn:H1;
        [|discriminate].
      intros [= _ <-]. apply IH in H1; simpl in *; lia. }
    repeat (match goal with
            | |- (if ?b then _ else _) = _ -> _ => destruct b; [apply Hsimple|]
            end).
    destruct (Ascii.eqb e "u"%char); [|discriminate].
    destruct s1 as [|h1 [|h2 [|h3 [|h4 r2]]]]; try discriminate.
    destruct (Json.hex_val h1), (Json.hex_val h2), (Json.hex_val h3), (Json.hex_val h4);
      try discriminate.
    destruct (Json.parse_string_body r2) as [[t1 r1]|] eqn:H1; [|discriminate].
    intros [= _ <-]. apply IH in H1; simpl in *; lia.
  - destruct (nat_of_ascii c <? 32); [discriminate|].
    destruct (Json.parse_string_body s) as [[t1 r1]|] eqn:H1; [|discriminate].
    intros [= _ <-]. apply IH in H1; simpl in *; lia.
Qed.

Lemma scan_digits_length (acc : Z) (cnt : nat) (s : string) :
  String.length (snd (Num.scan_digits acc cnt s)) <= String.length s.
Proof.
  revert acc cnt. induction s as [|c r IH]; intros acc cnt; simpl; [lia|].
  destruct (Num.is_digit c); simpl; [|lia].
  specialize (IH (10 * acc + Num.digit_val c)%Z (S cnt)). lia.
Qed.

Lemma drop_prefix_length (p s r : string) :
  Json.drop_prefix p s = Some r -> String.length r <= String.length s.
Proof.
  revert s. induction p as [|a p IH]; intros s; simpl.
  - intros [= ->]. lia.
  - destruct s as [|b s]; [discriminate|].
    destruct (Ascii.eqb a b); [|discriminate]. intros H. apply IH in H. simpl. lia.
Qed.

Lemma after_char_le (c : ascii) (s r : string) :
  Str.after_char c s = Some r -> String.length r <= String.length s.
Proof. intros H. apply after_char_length in H. lia. Qed.

Lemma lex_sign_length (s : string) :
  String.length (snd (Json.lex_sign s)) <= String.length s.
Proof.
  unfold Json.lex_sign. destruct (Str.after_char "-" s) as [r|] eqn:H; simpl; [|lia].
  eapply after_char_le, H.
Qed.

Lemma lex_int_length (s : string) (v : Z) (r : string) :
  Json.lex_int s = Some (v, r) -> String.length r <= String.length s.
Proof.
  unfold Json.lex_int. destruct (Str.after_char "0" s) as [r0|] eqn:H.
  - intros [= _ <-]. eapply after_char_le, H.
  - pose proof (scan_digits_length 0 0 s) as Hd.
    destruct (Num.scan_digits 0 0 s) as [[v' cnt] r'].
    destruct cnt; [discriminate|]. intros [= _ <-]. exact Hd.
Qed.

Lemma lex_frac_length (ip : Z) (s : string) (m : Z) (nf : nat) (r : string) :
  Json.lex_frac ip s = Some (m, nf, r) -> String.length r <= String.length s.
Proof.
  unfold Json.lex_frac. destruct (Str.after_char "." s) as [r0|] eqn:H.
  - apply after_char_le in H. pose proof (scan_digits_length ip 0 r0) as Hd.
    destruct (Num.scan_digits ip 0 r0) as [[m' nf'] r'].
    destruct nf'; [discriminate|]. intros [= _ _ <-]. simpl in Hd. lia.
  - intros [= _ _ <-]. lia.
Qed.

Lemma lex_exp_length (s : string) (e : Z) (r : string) :
  Json.lex_exp s = Some (e, r) -> String.length r <= String.length s.
Proof.
  unfold Json.lex_exp. destruct s as [|c s]; [intros [= _ <-]; lia|].
  destruct (_ || _); [|intros [= _ <-]; lia].
  assert (exists eneg r1,
             match Str.after_char "-" s, Str.after_char "+" s with
             | Some r1, _ => (true, r1)
             | None, Some r1 => (false, r1)
             | None, None => (false, s)
             end = (eneg, r1) /\ String.length r1 <= String.length s)
    as (eneg & r1 & -> & Hr1).
  { destruct (Str.after_char "-" s) as [r1|] eqn:Hm.
    - exists true, r1. split; [reflexivity|eapply after_char_le, Hm].
    - destruct (Str.after_char "+" s) as [r1|] eqn:Hp.
      + exists false, r1. split; [reflexivity|eapply after_char_le, Hp].
      + exists false, s. split; [reflexivity|lia]. }
  pose proof (scan_digits_length 0 0 r1) as Hd.
  destruct (Num.scan_digits 0 0 r1) as [[ev cnt] s4].
  destruct cnt; [discriminate|]. intros [= _ <-]. simpl in *. lia.
Qed.

Lemma parse_number_length (s : string) (x : Num.number) (r : string) :
  Json.parse_number s = Some (x, r) -> String.length r <= String.length s.
Proof.
  unfold Json.parse_number. pose proof (lex_sign_length s) as H1.
  destruct (Json.lex_sign s) as [neg s1].
  destruct (Json.lex_int s1) as [[ip s2]|] eqn:H2; [|discriminate].
  destruct (Json.lex_frac ip s2) as [[[m nf] s3]|] eqn:H3; [|discriminate].
  destruct (Json.lex_exp s3) as [[e s4]|] eqn:H4; [|discriminate].
  intros [= _ <-]. apply lex_int_length in H2. apply lex_frac_length in H3.
  apply lex_exp_length in H4. simpl in H1. lia.
Qed.

(** What is left after a value, the elements of an array or the members
    of an object is no longer than what was there. *)
Lemma parse_length (f : nat) :
  (forall s v r, Json.parse_value f s = Json.Ok v r ->
                 String.length r <= String.length s)
  /\ (forall s acc l r, Json.parse_elements f s acc = Json.Ok l r ->
                        String.length r <= String.length s)
  /\ (forall s acc l r, Json.parse_members f s acc = Json.Ok l r ->
                        String.length r <= String.length s).
Proof.
  induction f as [|f (IHv & IHe & IHm)]; [repeat split; discriminate|].
  split; [|split].
  - intros s v r. cbn [Json.parse_value].
    pose proof (skip_ws_length s) as Hs.
    destruct (Json.skip_ws s) as [|c s']; [discriminate|].
    pose proof (skip_ws_length s') as Hs'.
    destruct (Ascii.eqb c "[").
    { destruct (Str.after_char "]" _) as [r'|] eqn:Hc.
      - intros [= _ <-]. apply after_char_le in Hc. simpl in *. lia.
      - destruct (Json.parse_elements f _ []) as [items rest| |] eqn:He; [|discriminate..].
        intros [= _ <-]. apply IHe in He. simpl in *. lia. }
    destruct (Ascii.eqb c "{").
    { destruct (Str.after_char "}" _) as [r'|] eqn:Hc.
      - intros [= _ <-]. apply after_char_le in Hc. simpl in *. lia.
      - destruct (Json.parse_members f _ []) as [ms rest| |] eqn:He; [|discriminate..].
        intros [= _ <-]. apply IHm in He. simpl in *. lia. }
    destruct (Ascii.eqb c Json.dquote).
    { destruct (Json.parse_string_body s') as [[t rest]|] eqn:Hb; [|discriminate].
      intros [= _ <-]. apply parse_string_body_length in Hb. simpl in *. lia. }
    destruct (Ascii.eqb c "t").
    { destruct (Json.drop_prefix "rue" s') as [rest|] eqn:Hb; [|discriminate].
      intros [= _ <-]. apply drop_prefix_length in Hb. simpl in *. lia. }
    destruct (Ascii.eqb c "f").
    { destruct (Json.drop_prefix "alse" s') as [rest|] eqn:Hb; [|discriminate].
      intros [= _ <-]. apply drop_prefix_length in Hb. simpl in *. lia. }
    destruct (Ascii.eqb c "n").
    { destruct (Json.drop_prefix "ull" s') as [rest|] eqn:Hb; [|discriminate].
      intros [= _ <-]. apply drop_prefix_length in Hb. simpl in *. lia. }
    destruct (Json.parse_number (String c s')) as [[x rest]|] eqn:Hb; [|discriminate].
    intros [= _ <-]. apply parse_number_length in Hb. simpl in *. lia.
  - intros s acc l r. cbn [Json.parse_elements].
    destruct (Json.parse_value f s) as [v rest| |] eqn:Hv; [|discriminate..].
    apply IHv in Hv. pose proof (skip_ws_length rest) as Hs.
    destruct (Str.after_char "," _) as [r1|] eqn:Hc.
    + intros He. apply IHe in He. apply after_char_le in Hc. lia.
    + destruct (Str.after_char "]" _) as [r1|] eqn:Hc'; [|discriminate].
      intros [= _ <-]. apply after_char_le in Hc'. lia.
  - intros s acc l r. cbn [Json.parse_members].
    pose proof (skip_ws_length s) as Hs.
    destruct (Str.after_char Json.dquote _) as [r0|] eqn:Hq; [|discriminate].
    apply after_char_le in Hq.
    destruct (Json.parse_string_body r0) as [[k r1]|] eqn:Hb; [|discriminate].
    apply parse_string_body_length in Hb. pose proof (skip_ws_length r1) as Hs1.
    destruct (Str.after_char ":" _) as [r2|] eqn:Hc; [|discriminate].
    apply after_char_le in Hc.
    destruct (Json.parse_value f r2) as [v rest| |] eqn:Hv; [|discriminate..].
    apply IHv in Hv. pose proof (skip_ws_length rest) as Hs2.
    destruct (Str.after_char "," _) as [r3|] eqn:Hc1.
    + intros He. apply IHm in He. apply after_char_le in Hc1. lia.
    + destruct (Str.after_char "}" _) as [r3|] eqn:Hc2; [|discriminate].
      intros [= _ <-]. apply after_char_le in Hc2. lia.
Qed.

(** Fuel: [2 * length + 1] for a value and one more for the elements of
    an array or the members of an object are enough. *)
Lemma parse_fuel (f : nat) :
  (forall s, 2 * String.length s + 1 <= f ->
             Json.parse_value f s <> Json.OutOfFuel)
  /\ (forall s acc, 2 * String.length s + 2 <= f ->
                    Json.parse_elements f s acc <> Json.OutOfFuel)
  /\ (forall s acc, 2 * String.length s + 2 <= f ->
                    Json.parse_members f s acc <> Json.OutOfFuel).
Proof.
  induction f as [|f (IHv & IHe & IHm)]; [repeat split; intros; lia|].
  split; [|split].
  - intros s Hf. cbn [Json.parse_value].
    pose proof (skip_ws_length s) as Hs.
    destruct (Json.skip_ws s) as [|c s']; [discriminate|].
    pose proof (skip_ws_length s') as Hs'. simpl in Hs.
    destruct (Ascii.eqb c "[").
    { destruct (Str.after_char "]" _); [discriminate|].
      specialize (IHe (Json.skip_ws s') []).
      destruct (Json.parse_elements f _ []); try discriminate.
      exfalso. apply IHe; [lia|reflexivity]. }
    destruct (Ascii.eqb c "{").
    { destruct (Str.after_char "}" _); [discriminate|].
      specialize (IHm (Json.skip_ws s') []).
      destruct (Json.parse_members f _ []); try discriminate.
      exfalso. apply IHm; [lia|reflexivity]. }
    destruct (Ascii.eqb c Json.dquote);
      [destruct (Json.parse_string_body s') as [[? ?]|]; discriminate|].
    destruct (Ascii.eqb c "t"); [destruct (Json.drop_prefix _ s'); discriminate|].
    destruct (Ascii.eqb c "f"); [destruct (Json.drop_prefix _ s'); discriminate|].
    destruct (Ascii.eqb c "n"); [destruct (Json.drop_prefix _ s'); discriminate|].
    destruct (Json.parse_number _) as [[? ?]|]; discriminate.
  - intros s acc Hf. cbn [Json.parse_elements].
    specialize (IHv s).
    destruct (Json.parse_value f s) as [v rest| |] eqn:Hv; [|discriminate|].
    + apply (proj1 (parse_length f)) in Hv.
      pose proof (skip_ws_length rest) as Hs.
      destruct (Str.after_char "," _) as [r1|] eqn:Hc.
      * apply after_char_length in Hc. apply IHe. lia.
      * destruct (Str.after_char "]" _); discriminate.
    + exfalso. apply IHv; [lia|reflexivity].
  - intros s acc Hf. cbn [Json.parse_members].
    pose proof (skip_ws_length s) as Hs.
    destruct (Str.after_char Json.dquote _) as [r0|] eqn:Hq; [|discriminate].
    apply after_char_length in Hq.
    destruct (Json.parse_string_body r0) as [[k r1]|] eqn:Hb; [|discriminate].
    apply parse_string_body_length in Hb. pose proof (skip_ws_length r1) as Hs1.
    destruct (Str.after_char ":" _) as [r2|] eqn:Hc; [|discriminate].
    apply after_char_length in Hc.
    specialize (IHv r2).
    destruct (Json.parse_value f r2) as [v rest| |] eqn:Hv; [|discriminate|].
    + apply (proj1 (parse_length f)) in Hv.
      pose proof (skip_ws_length rest) as Hs2.
      destruct (Str.after_char "," _) as [r3|] eqn:Hc1.
      * apply after_char_length in Hc1. apply IHm. lia.
      * destruct (Str.after_char "}" _); discriminate.
    + exfalso. apply IHv; [lia|reflexivity].
Qed.

(** [Json.parse] gives [None] for a text that is not well-formed, never
    for lack of fuel. *)
Lemma parse_total (s : string) :
  Json.parse_value (Json.fuel_for s) s <> Json.OutOfFuel.
Proof. apply (proj1 (parse_fuel _)). unfold Json.fuel_for. lia. Qed.

(** *** White space around the text *)

Lemma byte_not_bracket (c : ascii) :
  Str.space1 c = true \/ 128 <= Str.byte c ->
  Ascii.eqb c "[" = false /\ Ascii.eqb c "]" = false.
Proof.
  intros H. split.
  - destruct (Ascii.eqb_spec c "["%char) as [->|]; [|reflexivity].
    destruct H as [H|H]; [discriminate|cbv in H; lia].
  - destruct (Ascii.eqb_spec c "]"%char) as [->|]; [|reflexivity].
    destruct H as [H|H]; [discriminate|cbv in H; lia].
Qed.

(** No byte of a white-space code unit is a bracket. *)
Lemma space_not_bracket (sp r : string) :
  Str.is_space sp = true ->
  Gemini.through_last_close (sp +:+ r)
  = match Gemini.through_last_close r with
    | Some t => Some (sp +:+ t)
    | None => None
    end
  /\ Gemini.match_array (sp +:+ r) = Gemini.match_array r.
Proof.
  assert (Hhigh : forall b, (Str.byte b < 128 -> false = true) -> 128 <= Str.byte b).
  { intros b H. destruct (le_lt_dec 128 (Str.byte b)) as [|Hlt]; [assumption|].
    discriminate (H Hlt). }
  assert (Hstep : forall c x,
             Str.space1 c = true \/ 128 <= Str.byte c ->
             Gemini.through_last_close (String c x)
             = match Gemini.through_last_close x with
               | Some t => Some (String c t)
               | None => None
               end
             /\ Gemini.match_array (String c x) = Gemini.match_array x).
  { intros c x Hc. destruct (byte_not_bracket c Hc) as [Ho Hcl].
    cbn [Gemini.through_last_close Gemini.match_array]. rewrite Ho, Hcl.
    split; reflexivity. }
  unfold Str.is_space. destruct sp as [|c sp]; [discriminate|].
  cbn [Str.space_len String.length]. destruct (Str.space1 c) eqn:H1.
  { destruct sp; [intros _|discriminate]. rewrite append_cons, append_nil_l.
    apply Hstep. left. exact H1. }
  destruct sp as [|d sp]; [discriminate|].
  destruct (Str.space2 c d) eqn:H2.
  { destruct sp; [intros _|discriminate]. rewrite !append_cons, append_nil_l.
    destruct (Hstep c (String d r)) as [-> ->];
      [right; apply Hhigh; intros H; rewrite <- H2; symmetry; apply space2_low1, H|].
    destruct (Hstep d r) as [-> ->];
      [right; apply Hhigh; intros H; rewrite <- H2; symmetry; apply space2_low2, H|].
    split; [|reflexivity]. destruct (Gemini.through_last_close r); reflexivity. }
  destruct sp as [|e sp]; [discriminate|].
  destruct (Str.space3 c d e) eqn:H3; [|discriminate].
  destruct sp; [intros _|discriminate]. rewrite !append_cons, append_nil_l.
  destruct (Hstep c (String d (String e r))) as [-> ->];
    [right; apply Hhigh; intros H; rewrite <- H3; symmetry; apply space3_low1, H|].
  destruct (Hstep d (String e r)) as [-> ->];
    [right; apply Hhigh; intros H; rewrite <- H3; symmetry; apply space3_low2, H|].
  destruct (Hstep e r) as [-> ->];
    [right; apply Hhigh; intros H; rewrite <- H3; symmetry; apply space3_low3, H|].
  split; [|reflexivity]. destruct (Gemini.through_last_close r); reflexivity.
Qed.

Lemma gaps_no_match (l : list Str.piece) :
  Str.read l -> forallb Str.is_gap l = true ->
  Gemini.through_last_close (Str.text l) = None /\ Gemini.match_array (Str.text l) = None.
Proof.
  induction l as [|[sp|c] l IH]; [split; reflexivity| |discriminate].
  intros [Hsp Hl] Hg. destruct (IH Hl Hg) as [H1 H2].
  destruct (space_not_bracket sp (Str.text l) Hsp) as [H3 H4].
  cbn [Str.text]. rewrite H3, H4, H1, H2. split; reflexivity.
Qed.

Lemma match_array_drop_end (l : list Str.piece) :
  Str.read l ->
  Gemini.through_last_close (Str.text (Str.drop_end_gaps l))
  = Gemini.through_last_close (Str.text l)
  /\ Gemini.match_array (Str.text (Str.drop_end_gaps l))
     = Gemini.match_array (Str.text l).
Proof.
  induction l as [|p r IH]; [split; reflexivity|]. intros Hl.
  cbn [Str.drop_end_gaps]. destruct (forallb Str.is_gap (p :: r)) eqn:Hg.
  - destruct (gaps_no_match _ Hl Hg) as [-> ->]. split; reflexivity.
  - destruct p as [sp|c]; destruct Hl as [Hp Hr]; destruct (IH Hr) as [IH1 IH2];
      cbn [Str.text].
    + destruct (space_not_bracket sp (Str.text r) Hp) as [-> ->].
      destruct (space_not_bracket sp (Str.text (Str.drop_end_gaps r)) Hp) as [-> ->].
      rewrite IH1, IH2. split; reflexivity.
    + cbn [Gemini.through_last_close Gemini.match_array]. rewrite IH1, IH2.
      split; reflexivity.
Qed.

Lemma match_array_drop_gaps (l : list Str.piece) :
  Str.read l ->
  Gemini.match_array (Str.text (Str.drop_gaps l)) = Gemini.match_array (Str.text l).
Proof.
  induction l as [|[sp|c] l IH]; [reflexivity| |reflexivity]. intros [Hsp Hl].
  cbn [Str.drop_gaps Str.text]. rewrite (IH Hl).
  symmetry. apply (space_not_bracket sp _ Hsp).
Qed.

(** The parser sees the same match with or without the white space that
    [trim] removes. *)
Lemma parse_recommendations_trim (text : string) :
  Gemini.parse_recommendations (Str.trim text) = Gemini.parse_recommendations text.
Proof.
  unfold Gemini.parse_recommendations, Str.trim.
  rewrite (proj2 (match_array_drop_end _ (read_drop_gaps _ (read_pieces text)))).
  rewrite (match_array_drop_gaps _ (read_pieces text)), text_pieces. reflexivity.
Qed.

(** ** The response parser *)

Lemma greedy_match_bracket (text m : string) :
  Spec.greedy_match text m -> exists r, m = String "["%char r.
Proof. intros (b & i & a & _ & -> & _). eexists. reflexivity. Qed.

(** The third test of the parser never fires: a match of the pattern
    starts with a bracket, and such a text decodes to an array or not at
    all. *)
Lemma parse_recommendations_cases (text : string) :
  match Gemini.match_array text with
  | None =>
      Gemini.parse_recommendations text
      = throw (Error "Could not parse recommendations from Gemini response")
  | Some m =>
      match Json.parse m with
      | None => Gemini.parse_recommendations text = throw SyntaxError
      | Some v =>
          exists items, v = JArray items
                        /\ Gemini.parse_recommendations text = ret items
      end
  end.
Proof.
  unfold Gemini.parse_recommendations.
  destruct (Gemini.match_array text) as [m|] eqn:Hm; [|reflexivity].
  apply match_array_some, greedy_match_bracket in Hm as (r & ->).
  destruct (Json.parse _) as [v|] eqn:Hv; [|reflexivity].
  destruct (parse_bracket r v Hv) as (items & ->). exists items. auto.
Qed.

(** C7: the parser fails exactly when the text contains no substring
    that matches the bracketed-array pattern, or when the greedy match
    does not decode as well-formed JSON, or when the decoded value is not
    an array; every failure is a parse error; otherwise the parser
    returns the decoded array.  The texts "no array here" and "{}" are
    rejected.  The white space that [trim] removes from the raw text
    changes none of this. *)
Theorem response_parser (text : string) :
  Gemini.parse_recommendations (Str.trim text)
  = Gemini.parse_recommendations text
  /\ ((exists e, Gemini.parse_recommendations text = throw e)
   <-> ~ Spec.has_bracketed_array text
       \/ (exists m, Spec.greedy_match text m /\ Json.parse m = None)
       \/ (exists m v, Spec.greedy_match text m /\ Json.parse m = Some v
                       /\ forall items, v <> JArray items))
  /\ (forall e, Gemini.parse_recommendations text = throw e -> Spec.ParseError e)
  /\ (forall m items,
        Spec.greedy_match text m -> Json.parse m = Some (JArray items) ->
        Gemini.parse_recommendations text = ret items)
  /\ ((exists e, Gemini.parse_recommendations text = throw e)
      \/ (exists items, Gemini.parse_recommendations text = ret items))
  /\ Gemini.parse_recommendations "no array here"
     = throw (Error "Could not parse recommendations from Gemini response")
  /\ Gemini.parse_recommendations "{}"
     = throw (Error "Could not parse recommendations from Gemini response").
Proof.
  split; [apply parse_recommendations_trim|].
  pose proof (parse_recommendations_cases text) as Hc.
  unfold throw, ret in *.
  destruct (Gemini.match_array text) as [m|] eqn:Hm.
  - apply match_array_some in Hm.
    assert (forall m', Spec.greedy_match text m' -> m' = m) as Huniq.
    { intros m' Hm'. apply match_array_some in Hm, Hm'. congruence. }
    assert (Spec.has_bracketed_array text) as Hhas.
    { destruct Hm as (b & i & a & -> & -> & _). exists b, i, a.
      rewrite !append_assoc. reflexivity. }
    destruct (Json.parse m) as [v|] eqn:Hv.
    + destruct Hc as (items & -> & Hc).
      split; [|split; [|split; [|split; [|split; reflexivity]]]].
      * split.
        -- intros (e & He). congruence.
        -- intros [Hn|[(m' & Hm' & Hp)|(m' & v' & Hm' & Hp & Hna)]].
           ++ destruct (Hn Hhas).
           ++ apply Huniq in Hm'. congruence.
           ++ apply Huniq in Hm'. subst m'. rewrite Hv in Hp.
              injection Hp as <-. destruct (Hna items eq_refl).
      * intros e He. congruence.
      * intros m' items' Hm' Hp. apply Huniq in Hm'. subst m'.
        rewrite Hv in Hp. injection Hp as <-. exact Hc.
      * right. exists items. exact Hc.
    + split; [|split; [|split; [|split; [|split; reflexivity]]]].
      * split; [|intros _; eexists; exact Hc].
        intros _. right. left. exists m. auto.
      * intros e He. rewrite Hc in He. injection He as <-. right. left. reflexivity.
      * intros m' items' Hm' Hp. apply Huniq in Hm'. congruence.
      * left. eexists. exact Hc.
  - apply match_array_none in Hm.
    split; [|split; [|split; [|split; [|split; reflexivity]]]].
    + split; [|intros _; eexists; exact Hc]. intros _. left. exact Hm.
    + intros e He. rewrite Hc in He. injection He as <-. left. reflexivity.
    + intros m items (b & i & a & -> & -> & _). destruct Hm. exists b, i, a.
      rewrite !append_assoc. reflexivity.
    + left. eexists. exact Hc.
Qed.

Lemma response_parser_witness :
  Gemini.parse_recommendations
    (Str.dq "Here you go: ['red-shirt', 'blue-hat'] (two picks)")
  = ret [JString "red-shirt"; JString "blue-hat"].
Proof.
  refine (proj1 (proj2 (proj2 (proj2 (response_parser _))))
            (Str.dq "['red-shirt', 'blue-hat']") _ _ _).
  - exists "Here you go: ", (Str.dq "'red-shirt', 'blue-hat'"), " (two picks)".
    split; [reflexivity|]. split; [reflexivity|].
    split; intros H.
    + repeat (apply includes_char_cons in H as [H|H]; [discriminate|]).
      exact (includes_char_nil _ H).
    + repeat (apply includes_char_cons in H as [H|H]; [discriminate|]).
      exact (includes_char_nil _ H).
  - reflexivity.
Defined.

(** ** The client of the generative API *)

Lemma no_api_key (fetch : transport) (ctx : Gemini.context) :
  Gemini.getGeminiRecommendations fetch None ctx
  = ([], throw (Error "Gemini API key is required"))
  /\ Gemini.getGeminiRecommendations fetch (Some "") ctx
     = ([], throw (Error "Gemini API key is required")).
Proof. split; reflexivity. Qed.

(** With a key, the client issues one request and hands the response to
    [from_response]. *)
Lemma with_api_key (fetch : transport) (key : string) (ctx : Gemini.context) :
  key <> "" ->
  Gemini.getGeminiRecommendations fetch (Some key) ctx
  = ([PostGenerateContent key (Gemini.build_prompt ctx)],
     rbind (fetch (PostGenerateContent key (Gemini.build_prompt ctx)))
       Gemini.from_response).
Proof. intros Hk. destruct key; [congruence|reflexivity]. Qed.

(** A single attempt: at most one request, whatever the transport does. *)
Lemma single_attempt (fetch : transport) (apiKey : option string)
    (ctx : Gemini.context) :
  length (fst (Gemini.getGeminiRecommendations fetch apiKey ctx)) <= 1.
Proof. destruct apiKey as [[|c k]|]; simpl; lia. Qed.

Lemma api_error_message (r : response) :
  exists message,
    Gemini.api_error r = Error message
    /\ Spec.includes message (Num.digits_of_Z (Z.of_nat (status r)))
    /\ Spec.includes message (body r).
Proof.
  eexists. split; [reflexivity|]. split; includes_solve.
Qed.

Lemma non_success_status (r : response) :
  ok r = false -> Gemini.from_response r = throw (Gemini.api_error r).
Proof. intros H. unfold Gemini.from_response. rewrite H. reflexivity. Qed.

Lemma get_opt_some (v : json) (key : string) :
  v <> JNull -> Gemini.get_opt (Some v) key = Json.get v key.
Proof. intros Hv. destruct v; congruence || reflexivity. Qed.

Lemma get_opt_inv (v : option json) (key : string) (w : json) :
  Gemini.get_opt v key = Some w ->
  exists u, v = Some u /\ u <> JNull /\ Json.get u key = Some w.
Proof.
  destruct v as [u|]; [|discriminate]. intros H. exists u.
  destruct u; simpl in *; try discriminate.
  split; [reflexivity|]. split; [discriminate|exact H].
Qed.

Lemma response_text_unfold (data : json) :
  data <> JNull ->
  Gemini.response_text data
  = match Json.get data "candidates" with
    | None => throw (Error "Invalid response from Gemini API")
    | Some candidates =>
        if negb (Json.truthy candidates)
        then throw (Error "Invalid response from Gemini API")
        else
          match Gemini.parts_of candidates with
          | None => throw (Error "Invalid response from Gemini API")
          | Some parts =>
              if negb (Json.truthy parts)
              then throw (Error "Invalid response from Gemini API")
              else Gemini.text_of parts
          end
    end.
Proof. intros Hdata. destruct data; congruence || reflexivity. Qed.

(** The test of the source on a response that is not [null]. *)
Lemma response_text_has_parts (data : json) :
  data <> JNull ->
  (Spec.has_parts data ->
   exists candidates parts,
     Json.get data "candidates" = Some candidates
     /\ Gemini.parts_of candidates = Some parts
     /\ Gemini.response_text data = Gemini.text_of parts)
  /\ (~ Spec.has_parts data ->
      Gemini.response_text data = throw (Error "Invalid response from Gemini API")).
Proof.
  intros Hdata. rewrite response_text_unfold by exact Hdata.
  unfold Spec.has_parts, Gemini.parts_of. split.
  - intros (cs & c0 & content & parts & Hcs & Ht & H0 & Hn0 & Hcontent & Hnc & Hparts & Htp).
    exists cs, parts. rewrite Hcs, Ht, H0.
    rewrite (get_opt_some c0) by exact Hn0. rewrite Hcontent.
    rewrite (get_opt_some content) by exact Hnc. rewrite Hparts, Htp.
    auto.
  - intros Hno.
    destruct (Json.get data "candidates") as [cs|] eqn:Hcs; [|reflexivity].
    destruct (Json.truthy cs) eqn:Ht; [|reflexivity]. cbn [negb].
    destruct (Gemini.get_opt (Gemini.get_opt (Json.get0 cs) "content") "parts")
      as [parts|] eqn:Hparts; [|reflexivity].
    destruct (Json.truthy parts) eqn:Htp; [|reflexivity].
    destruct Hno.
    apply get_opt_inv in Hparts as (content & Hcontent & Hnc & Hparts).
    apply get_opt_inv in Hcontent as (c0 & H0 & Hn0 & Hcontent).
    exists cs, c0, content, parts. auto 10.
Qed.

Lemma missing_structure (r : response) (data : json) :
  ok r = true -> response_json r = ret data -> data <> JNull ->
  ~ Spec.has_parts data ->
  Gemini.from_response r = throw (Error "Invalid response from Gemini API").
Proof.
  intros Hok Hjson Hdata Hno. unfold Gemini.from_response. rewrite Hok, Hjson.
  simpl. rewrite (proj2 (response_text_has_parts data Hdata) Hno). reflexivity.
Qed.

(** The error contract of the client, where the source keeps it: a
    missing key is a configuration error and no request is issued; a
    status that is no success is an upstream error whose message states
    the status code and the body; a response that is not [null] and lacks
    the expected structure is an upstream error; at most one request is
    issued. *)
Lemma client_error_contract (fetch : transport) (ctx : Gemini.context) :
  (forall apiKey, apiKey = None \/ apiKey = Some "" ->
     exists e, Gemini.getGeminiRecommendations fetch apiKey ctx = ([], throw e)
               /\ Spec.ConfigurationError e)
  /\ (forall key r, key <> "" ->
        fetch (PostGenerateContent key (Gemini.build_prompt ctx)) = ret r ->
        ok r = false ->
        exists message,
          Gemini.getGeminiRecommendations fetch (Some key) ctx
          = ([PostGenerateContent key (Gemini.build_prompt ctx)], throw (Error message))
          /\ Spec.UpstreamError (Error message)
          /\ Spec.includes message (Num.digits_of_Z (Z.of_nat (status r)))
          /\ Spec.includes message (body r))
  /\ (forall key r data, key <> "" ->
        fetch (PostGenerateContent key (Gemini.build_prompt ctx)) = ret r ->
        ok r = true -> response_json r = ret data -> data <> JNull ->
        ~ Spec.has_parts data ->
        exists e,
          Gemini.getGeminiRecommendations fetch (Some key) ctx
          = ([PostGenerateContent key (Gemini.build_prompt ctx)], throw e)
          /\ Spec.UpstreamError e)
  /\ (forall apiKey,
        length (fst (Gemini.getGeminiRecommendations fetch apiKey ctx)) <= 1).
Proof.
  split; [|split; [|split]].
  - intros apiKey [->| ->]; eexists; (split; [reflexivity|]); reflexivity.
  - intros key r Hk Hf Hok. destruct (api_error_message r) as (msg & Hmsg & Hs & Hb).
    exists msg. rewrite with_api_key, Hf by assumption. cbn [rbind ret].
    rewrite non_success_status, Hmsg by assumption.
    split; [reflexivity|]. split; [|auto]. left. exists r. congruence.
  - intros key r data Hk Hf Hok Hjson Hdata Hno. eexists.
    rewrite with_api_key, Hf by assumption. cbn [rbind ret].
    rewrite (missing_structure r data) by assumption.
    split; [reflexivity|]. right. reflexivity.
  - intros apiKey. apply single_attempt.
Qed.

(** C8, at the failing input: the generative API answers 200 with the
    body [null].  The response lacks the structure
    [candidates[0].content.parts], and the client throws the [TypeError]
    of the property read instead of its error for an invalid response.
    The same happens one step further, when [parts] is an empty array. *)
Theorem null_response_type_error (ctx : Gemini.context) :
  Gemini.getGeminiRecommendations (Sample.always (Sample.ok_with "null"))
    (Some "key") ctx
  = ([PostGenerateContent "key" (Gemini.build_prompt ctx)], throw TypeError)
  /\ ~ Spec.has_parts JNull
  /\ ~ Spec.UpstreamError TypeError
  /\ Gemini.getGeminiRecommendations
       (Sample.always
          (Sample.ok_with (Str.dq "{'candidates':[{'content':{'parts':[]}}]}")))
       (Some "key") ctx
     = ([PostGenerateContent "key" (Gemini.build_prompt ctx)], throw TypeError).
Proof.
  split; [reflexivity|]. split; [|split; [|reflexivity]].
  - intros (cs & c0 & content & parts & Hcs & _). discriminate.
  - intros [(r & Hr)|Hr]; discriminate.
Qed.

(** ** Rich text *)

Lemma is_text_iff (members : list (string * json)) :
  Bundle.is_text_node members = true
  <-> Json.lookup_member "type" members = Some (JString "text").
Proof.
  unfold Bundle.is_text_node.
  destruct (Json.lookup_member "type" members) as [[]|]; try (split; discriminate).
  rewrite String.eqb_eq. split; congruence.
Qed.

(** [walk] on an object, with [node.children] read by name. *)
Lemma walk_object (members : list (string * json)) :
  Bundle.walk (JObject members)
  = if Bundle.is_text_node members then
      ret match Json.lookup_member "value" members with
          | Some v => if Json.truthy v then v else JString ""
          | None => JString ""
          end
    else
      match Json.lookup_member "children" members with
      | Some (JArray children) =>
          let* walked := map_r Bundle.walk children in
          let* parts := map_r Json.toString walked in
          ret (JString (Str.join " " parts))
      | _ => ret (JString "")
      end.
Proof.
  cbn [Bundle.walk Json.truthy negb]. destruct (Bundle.is_text_node members).
  { destruct (Json.lookup_member "value" members); reflexivity. }
  match goal with
  | |- match ?F members with _ => _ end = _ =>
      assert (F members
              = match Json.lookup_member "children" members with
                | Some (JArray children) => Some (Some (map_r Bundle.walk children))
                | Some _ => Some None
                | None => None
                end) as ->
  end.
  { induction members as [|[k v] ms IH]; [reflexivity|].
    cbn [Json.lookup_member]. rewrite IH.
    destruct (Json.lookup_member "children" ms) as [w|].
    - destruct w; reflexivity.
    - destruct (String.eqb k "children"); [|reflexivity]. destruct v; reflexivity. }
  destruct (Json.lookup_member "children" members) as [[]|]; reflexivity.
Qed.

Lemma walk_scalar (node : json) :
  (forall members, node <> JObject members) -> Bundle.walk node = ret (JString "").
Proof.
  intros H. destruct node; try reflexivity.
  - simpl. destruct (negb b); reflexivity.
  - simpl. destruct (negb _); reflexivity.
  - simpl. destruct (negb _); reflexivity.
  - destruct (H members eq_refl).
Qed.

Lemma map_r_cons {A B} (f : A -> result B) (x : A) (r : list A) :
  map_r f (x :: r)
  = let* y := f x in let* ys := map_r f r in ret (y :: ys).
Proof.
  cbn [map_r rbind]. destruct (f x); [reflexivity|].
  destruct (map_r f r); reflexivity.
Qed.

(** [walk] returns a string, except on a text node whose value is truthy
    and not a string. *)
Lemma walk_bare_value (node : json) :
  match Bundle.walk node with
  | inr (JString _) => Spec.bare_value node = false
  | inr _ => Spec.bare_value node = true
  | inl _ => True
  end.
Proof.
  destruct node as [| | | |items|members];
    try (rewrite walk_scalar by discriminate; reflexivity).
  rewrite walk_object. unfold Bundle.is_text_node. cbn [Spec.bare_value].
  assert (Hc : forall (b : bool),
             match
               match Json.lookup_member "children" members with
               | Some (JArray children) =>
                   let* walked := map_r Bundle.walk children in
                   let* parts := map_r Json.toString walked in
                   ret (JString (Str.join " " parts))
               | _ => ret (JString "")
               end
             with
             | inr (JString _) => false = false
             | inr _ => false = true
             | inl _ => True
             end).
  { intros _. destruct (Json.lookup_member "children" members) as [[]|]; try reflexivity.
    destruct (map_r Bundle.walk items); [exact I|]. cbn [rbind].
    destruct (map_r Json.toString _); [exact I|reflexivity]. }
  destruct (Json.lookup_member "type" members) as [[| | |t| |]|];
    try (destruct (Json.lookup_member "value" members); exact (Hc true)).
  destruct (String.eqb t "text").
  - destruct (Json.lookup_member "value" members) as [v|]; [|reflexivity].
    destruct (Json.truthy v) eqn:Hv; [|reflexivity]. destruct v; reflexivity.
  - destruct (Json.lookup_member "value" members); exact (Hc true).
Qed.

(** On a value read as a document, [walk] returns a value whose string
    conversion has the words of the values of the text nodes, in order. *)
Lemma walk_represents (doc : Spec.rich) :
  forall node, Spec.represents node doc ->
  exists w s,
    Bundle.walk node = ret w /\ Json.toString w = ret s
    /\ Str.words s = List.concat (List.map Str.words (Spec.text_values doc)).
Proof.
  induction doc as [value|children IH] using Spec.rich_tree_ind; intros node Hrep.
  - inversion Hrep as [members v Htype Hvalue| | |]; subst.
    rewrite walk_object, (proj2 (is_text_iff _) Htype).
    cbn [Spec.text_values List.map List.concat]. rewrite app_nil_r.
    unfold Spec.text_of_value in Hvalue.
    destruct (Json.lookup_member "value" members) as [v|];
      [|exists (JString ""), ""; injection Hvalue as <-; auto].
    assert (Hother :
              (if Json.truthy v
               then match Json.toString v with inr s => Some s | inl _ => None end
               else Some "") = Some value ->
              exists w s,
                ret (if Json.truthy v then v else JString "") = ret w
                /\ Json.toString w = ret s /\ Str.words s = Str.words value).
    { destruct (Json.truthy v).
      - destruct (Json.toString v) as [e|s] eqn:Hs; [discriminate|].
        intros [= <-]. exists v, s. auto.
      - intros [= <-]. exists (JString ""), "". auto. }
    destruct v as [|b|x|s|items|ms]; try exact (Hother Hvalue).
    injection Hvalue as <-. exists (JString s), s.
    split; [destruct s; reflexivity|auto].
  - assert (forall members,
               Json.lookup_member "type" members <> Some (JString "text") ->
               Bundle.is_text_node members = false) as Hnot.
    { intros members H. destruct (Bundle.is_text_node members) eqn:E; [|reflexivity].
      apply is_text_iff in E. congruence. }
    inversion Hrep as [| members nodes cs Htype Hchildren Hall
                       | members Htype Hchildren | n Hscalar]; subst.
    + rewrite walk_object, (Hnot _ Htype), Hchildren.
      assert (Hlist : exists ws ss,
                 map_r Bundle.walk nodes = ret ws /\ map_r Json.toString ws = ret ss
                 /\ List.concat (List.map Str.words ss)
                    = List.concat (List.map Str.words
                                     (List.concat (List.map Spec.text_values children)))).
      { clear Hrep Hchildren Htype.
        induction Hall as [|n c nodes cs Hn Hall IHall]; [exists [], []; auto|].
        inversion IH as [|? ? IHc IHcs]; subst.
        destruct (IHc n Hn) as (w & s & Hw & Hs & Hwords).
        destruct (IHall IHcs) as (ws & ss & Hws & Hss & Hall').
        exists (w :: ws), (s :: ss). rewrite !map_r_cons, Hw, Hs. cbn [rbind ret].
        rewrite Hws, Hss. cbn [rbind ret]. split; [reflexivity|]. split; [reflexivity|].
        cbn [List.map List.concat]. rewrite Hwords, Hall', List.map_app, List.concat_app.
        reflexivity. }
      destruct Hlist as (ws & ss & -> & Hss & Hwords). cbn [rbind ret].
      rewrite Hss. cbn [rbind ret]. eexists _, _. split; [reflexivity|].
      split; [reflexivity|]. rewrite words_join. exact Hwords.
    + exists (JString ""), "". rewrite walk_object, (Hnot _ Htype).
      split; [|auto].
      destruct (Json.lookup_member "children" members) as [[]|]; try reflexivity.
      destruct (Hchildren items eq_refl).
    + exists (JString ""), "". rewrite (walk_scalar _ Hscalar). auto.
Qed.

(** Every value is read as a document, or [walk] stops short of a
    string on it: it throws, or it returns a value that is no string and
    has no string conversion. *)
Lemma represents_cases (node : json) :
  (exists doc, Spec.represents node doc)
  \/ ((forall doc, ~ Spec.represents node doc)
      /\ ((exists e, Bundle.walk node = throw e)
          \/ (exists w e,
                 Bundle.walk node = ret w /\ Json.toString w = throw e
                 /\ forall t, w <> JString t))).
Proof.
  pose (P := fun n =>
    (exists doc, Spec.represents n doc)
    \/ ((forall doc, ~ Spec.represents n doc)
        /\ ((exists e, Bundle.walk n = throw e)
            \/ (exists w e,
                   Bundle.walk n = ret w /\ Json.toString w = throw e
                   /\ forall t, w <> JString t)))).
  assert (Hlist : forall nodes,
             Forall P nodes ->
             (exists children, Forall2 Spec.represents nodes children)
             \/ ((exists n, n ∈ nodes /\ forall doc, ~ Spec.represents n doc)
                 /\ ((exists e, map_r Bundle.walk nodes = throw e)
                     \/ (exists ws e,
                            map_r Bundle.walk nodes = ret ws
                            /\ map_r Json.toString ws = throw e)))).
  { induction 1 as [|n nodes Hn _ IHnodes]; [left; exists []; constructor|].
    rewrite map_r_cons. destruct Hn as [[doc Hdoc]|[Hno Hstuck]].
    - destruct (walk_represents doc n Hdoc) as (w & s & Hw & Hs & _). rewrite Hw.
      cbn [rbind ret].
      destruct IHnodes as [[children Hch]|[(m & Hm & Hno) Hstuck]].
      + left. exists (doc :: children). constructor; assumption.
      + right. split; [exists m; split; [apply list_elem_of_further, Hm|exact Hno]|].
        destruct Hstuck as [[e He]|(ws & e & Hws & He)].
        * left. exists e. rewrite He. reflexivity.
        * right. exists (w :: ws), e. rewrite Hws. split; [reflexivity|].
          rewrite map_r_cons, Hs, He. reflexivity.
    - right. split; [exists n; split; [apply list_elem_of_here|exact Hno]|].
      destruct Hstuck as [[e He]|(w & e & Hw & He & _)].
      + left. exists e. rewrite He. reflexivity.
      + rewrite Hw. cbn [rbind ret].
        destruct (map_r Bundle.walk nodes) as [e'|ws]; [left; exists e'; reflexivity|].
        right. exists (w :: ws), e. split; [reflexivity|].
        rewrite map_r_cons, He. reflexivity. }
  assert (Hin : forall key members v (Q : json -> Prop),
             Forall (fun m => Q (snd m)) members ->
             Json.lookup_member key members = Some v -> Q v).
  { intros key members v Q Hall. induction Hall as [|[k x] r Hx _ IHr]; [discriminate|].
    cbn [Json.lookup_member]. destruct (Json.lookup_member key r).
    - intros [= ->]. apply IHr. reflexivity.
    - destruct (String.eqb k key); [|discriminate]. intros [= ->]. exact Hx. }
  pose (Q := fun v => P v /\ forall items, v = JArray items -> Forall P items).
  enough (H : Q node) by exact (proj1 H).
  assert (Hscalar : forall n, (forall members, n <> JObject members) -> P n).
  { intros n Hn. left. eexists. apply Spec.represents_scalar, Hn. }
  induction node as [|b|x|s|items IH|members IH] using Json.tree_ind;
    try (split; [apply Hscalar; discriminate|discriminate]).
  - split; [apply Hscalar; discriminate|].
    intros ? [= <-]. eapply Forall_impl; [exact IH|]. intros n Hn. exact (proj1 Hn).
  - split; [|discriminate].
    assert (Htext : Json.lookup_member "type" members = Some (JString "text")
                    \/ Json.lookup_member "type" members <> Some (JString "text")).
    { destruct (Json.lookup_member "type" members) as [[| | |s| |]|];
        try (right; discriminate).
      destruct (String.eqb_spec s "text") as [->|Hs]; [left; reflexivity|].
      right. congruence. }
    destruct Htext as [Htype|Htype].
    + destruct (Spec.text_of_value (Json.lookup_member "value" members)) as [s|] eqn:Hv.
      { left. eexists. apply (Spec.represents_text _ _ Htype Hv). }
      right. split.
      { intros doc Hdoc. inversion Hdoc as [? ? _ Hv'| | |? Hs]; subst;
          [congruence|congruence|congruence|]. destruct (Hs members eq_refl). }
      right. rewrite walk_object, (proj2 (is_text_iff _) Htype).
      unfold Spec.text_of_value in Hv.
      destruct (Json.lookup_member "value" members) as [v|]; [|discriminate].
      destruct (Json.truthy v) eqn:Ht.
      * destruct v; try discriminate;
          (destruct (Json.toString _) as [e|] eqn:He; [|discriminate]);
          (eexists _, e; split; [reflexivity|]; split; [exact He|discriminate]).
      * destruct v; discriminate.
    + assert (Hnot : Bundle.is_text_node members = false).
      { destruct (Bundle.is_text_node members) eqn:E; [|reflexivity].
        apply is_text_iff in E. congruence. }
      assert (Hless : (forall nodes,
                          Json.lookup_member "children" members <> Some (JArray nodes)) ->
                      P (JObject members)).
      { intros H. left. eexists. apply Spec.represents_childless; assumption. }
      destruct (Json.lookup_member "children" members) as [[| | | |nodes|]|] eqn:Hc;
        try (apply Hless; congruence).
      destruct (Hlist nodes (proj2 (Hin _ _ _ Q IH Hc) nodes eq_refl))
        as [[children Hch]|[(n & Hn & Hno) Hstuck]].
      * left. eexists. eapply Spec.represents_container; [exact Htype|exact Hc|exact Hch].
      * right. split.
        { intros doc Hdoc.
          inversion Hdoc as [|? nodes' cs _ Hc' Hall|? _ Hc'|? Hs]; subst.
          - congruence.
          - rewrite Hc in Hc'. injection Hc' as <-.
            apply list_elem_of_lookup in Hn as [i Hi].
            destruct (Forall2_lookup_l _ _ _ _ _ Hall Hi) as (c & _ & Hrep).
            exact (Hno c Hrep).
          - exact (Hc' nodes Hc).
          - destruct (Hs members eq_refl). }
        left. rewrite walk_object, Hnot, Hc.
        destruct Hstuck as [[e ->]|(ws & e & -> & He)].
        -- exists e. reflexivity.
        -- exists e. cbn [rbind ret]. rewrite He. reflexivity.
Qed.

Lemma parse_nonempty (value : string) (doc : json) :
  Json.parse value = Some doc -> value <> "".
Proof. intros H ->. discriminate. Qed.

Lemma extractPlainText_parsed (value : string) (node : json) :
  Json.parse value = Some node ->
  Bundle.extractPlainText (Some value)
  = match Bundle.walk node with
    | inr (JString s) => Str.trim (Str.replace_ws " " s)
    | _ => value
    end.
Proof.
  intros Hparse. unfold Bundle.extractPlainText.
  destruct value as [|c value]; [discriminate|]. rewrite Hparse. reflexivity.
Qed.

Lemma extractPlainText_represents (value : string) (node : json) (doc : Spec.rich) :
  Json.parse value = Some node -> Spec.represents node doc ->
  Bundle.extractPlainText (Some value)
  = if Spec.bare_value node then value else Spec.plain_text doc.
Proof.
  intros Hparse Hrep. rewrite (extractPlainText_parsed _ _ Hparse).
  unfold Spec.plain_text.
  pose proof (walk_bare_value node) as Hb.
  destruct (walk_represents doc node Hrep) as (w & s & Hw & Hs & Hwords).
  rewrite Hw in *. unfold ret in *.
  destruct w; rewrite Hb; try reflexivity.
  injection Hs as ->.
  rewrite !normalize_words, words_join, Hwords. reflexivity.
Qed.

Lemma extractPlainText_unread (value : string) (node : json) :
  Json.parse value = Some node -> (forall doc, ~ Spec.represents node doc) ->
  Bundle.extractPlainText (Some value) = value.
Proof.
  intros Hparse Hno. rewrite (extractPlainText_parsed _ _ Hparse).
  destruct (represents_cases node) as [[doc Hdoc]|[_ [[e ->]|(w & e & -> & _ & Hw)]]].
  - destruct (Hno doc Hdoc).
  - reflexivity.
  - unfold ret. destruct w; try reflexivity. destruct (Hw s eq_refl).
Qed.

Lemma extractPlainText_malformed (value : string) :
  Json.parse value = None -> Bundle.extractPlainText (Some value) = value.
Proof.
  intros Hparse. unfold Bundle.extractPlainText.
  destruct value; [reflexivity|]. rewrite Hparse. reflexivity.
Qed.

(** C9, amended: for every value that is well-formed JSON the extraction
    returns the values of the text nodes of the document in depth-first
    order, joined with single spaces, white space collapsed and trimmed,
    with two exceptions, in which it returns the value unchanged: the
    document is nothing but a text node whose value is truthy and not a
    string, or the value of one of its text nodes has no string
    conversion, so that the JSON value is read as no document.  The
    value of a text node that is missing, [null], [false], [0] or ['']
    counts as empty, any other value that is not a string as its string
    conversion.  The document with the two text nodes "Hello" and
    "world" gives "Hello world", with no-break spaces around and between
    the words as well; for every value that is not well-formed JSON the
    extraction returns the value unchanged, and for a missing value the
    empty string. *)
Theorem rich_text_extraction (value : string) :
  (forall node,
      Json.parse value = Some node ->
      (forall doc,
          Spec.represents node doc ->
          Bundle.extractPlainText (Some value)
          = if Spec.bare_value node then value else Spec.plain_text doc)
      /\ ((forall doc, ~ Spec.represents node doc) ->
          Bundle.extractPlainText (Some value) = value)
      /\ ((exists doc, Spec.represents node doc)
          \/ (forall doc, ~ Spec.represents node doc)))
  /\ (Json.parse value = None -> Bundle.extractPlainText (Some value) = value)
  /\ Bundle.extractPlainText None = ""
  /\ Bundle.extractPlainText
       (Some (Str.dq "{'type':'root','children':[{'type':'text','value':'Hello'},{'type':'text','value':'world'}]}"))
     = "Hello world"
  /\ Bundle.extractPlainText
       (Some (Str.dq "{'type':'root','children':[{'type':'text','value':'\u00a0Hello\u2003'},{'type':'text','value':'\ufeffworld\u00a0'}]}"))
     = "Hello world"
  /\ Bundle.extractPlainText
       (Some (Str.dq "{'type':'text','value':' Hello\u00a0\u00a0world\u00a0'}"))
     = "Hello world"
  /\ Bundle.extractPlainText
       (Some (Str.dq "{'type':'root','children':[{'type':'text','value':5},{'type':'text','value':true},{'type':'text','value':null},{'type':'text','value':[1,[2,null]]},{'type':'text','value':{'a':1}},{'type':'text','value':0},{'type':'text'},{'type':'text','value':2.50}]}"))
     = "5 true 1,2, [object Object] 2.5"
  /\ Bundle.extractPlainText
       (Some (Str.dq "{'type':'root','children':[{'type':'text','value':'Hello'},{'type':'text','value':[{'toString':1}]}]}"))
     = Str.dq "{'type':'root','children':[{'type':'text','value':'Hello'},{'type':'text','value':[{'toString':1}]}]}".
Proof.
  split; [|split; [|split; [|split; [|split; [|split; [|split]]]]]].
  - intros node Hparse. split; [|split].
    + intros doc. apply extractPlainText_represents, Hparse.
    + apply extractPlainText_unread, Hparse.
    + destruct (represents_cases node) as [H|[H _]]; [left|right]; exact H.
  - apply extractPlainText_malformed.
  - reflexivity.
  - vm_compute. reflexivity.
  - vm_compute. reflexivity.
  - vm_compute. reflexivity.
  - vm_compute. reflexivity.
  - vm_compute. reflexivity.
Qed.

Lemma rich_text_extraction_witness :
  Bundle.extractPlainText
    (Some (Str.dq "{'type':'root','children':[{'type':'paragraph','children':[{'type':'text','value':'  Hello','bold':true},{'type':'text','value':'rich\u2028'}]},{'type':'text','value':7}]}"))
  = "Hello rich 7".
Proof.
  refine (proj1 (proj1 (rich_text_extraction _)
            (JObject
               [("type", JString "root");
                ("children",
                 JArray
                   [JObject
                      [("type", JString "paragraph");
                       ("children",
                        JArray
                          [JObject [("type", JString "text");
                                    ("value", JString "  Hello");
                                    ("bold", JBool true)];
                           JObject [("type", JString "text");
                                    ("value", JString ("rich" +:+ Json.code_unit 8232))]])];
                    JObject [("type", JString "text");
                             ("value", JNumber (Num.of_Z 7))]])])
            _)
            (Spec.ContainerNode
               [Spec.ContainerNode
                  [Spec.TextNode "  Hello";
                   Spec.TextNode ("rich" +:+ Json.code_unit 8232)];
                Spec.TextNode "7"])
            _).
  - vm_compute. reflexivity.
  - eapply Spec.represents_container; [discriminate|reflexivity|].
    constructor.
    + eapply Spec.represents_container; [discriminate|reflexivity|].
      constructor; [apply Spec.represents_text; reflexivity|].
      constructor; [apply Spec.represents_text; reflexivity|constructor].
    + constructor; [apply Spec.represents_text; vm_compute; reflexivity|constructor].
Defined.

(** A document that is nothing but a text node with the value 5 is
    well-formed JSON, and its text is "5"; [walk] returns the number,
    [.replace] throws, and the value comes back unchanged. *)
Lemma text_value_not_string :
  Json.parse (Str.dq "{'type':'text','value':5}")
  = Some (JObject [("type", JString "text"); ("value", JNumber (Num.of_Z 5))])
  /\ Spec.represents
       (JObject [("type", JString "text"); ("value", JNumber (Num.of_Z 5))])
       (Spec.TextNode "5")
  /\ Spec.plain_text (Spec.TextNode "5") = "5"
  /\ Bundle.extractPlainText (Some (Str.dq "{'type':'text','value':5}"))
     = Str.dq "{'type':'text','value':5}".
Proof.
  split; [vm_compute; reflexivity|].
  split; [apply Spec.represents_text; vm_compute; reflexivity|].
  split; vm_compute; reflexivity.
Qed.

(** ** The flattened bundle record *)

Lemma formatImageReference_resolves (r : option Bundle.reference) (u alt : string) :
  Bundle.formatImageReference r = Some (u, alt) <-> Spec.resolves r u alt.
Proof.
  unfold Bundle.formatImageReference, Spec.resolves. split.
  - destruct r as [[p|[img|]|[u'|] a|t]|]; try discriminate.
    + destruct (Bundle.url img) as [u'|] eqn:Hu; [|discriminate].
      destruct u' as [|c u']; [discriminate|]. simpl.
      intros [= <- <-]. split; [discriminate|]. left. exists img. auto.
    + destruct u' as [|c u']; [discriminate|]. simpl.
      intros [= <- <-]. split; [discriminate|]. right. exists a. auto.
  - intros [Hu [(img & -> & Himg & ->)|(a & -> & ->)]].
    + rewrite Himg. destruct u; [congruence|reflexivity].
    + destruct u; [congruence|reflexivity].
Qed.

Lemma formatImageReference_unresolvable (r : option Bundle.reference) :
  Bundle.formatImageReference r = None <-> Spec.unresolvable r.
Proof.
  unfold Spec.unresolvable. split.
  - intros H u alt Hr. apply formatImageReference_resolves in Hr. congruence.
  - intros H. destruct (Bundle.formatImageReference r) as [[u alt]|] eqn:E; [|reflexivity].
    apply formatImageReference_resolves in E. destruct (H u alt E).
Qed.

Lemma assign_lookup (k : string) (v : Bundle.fieldval) (acc : Bundle.object) :
  k <> "__proto__" -> Bundle.own (Bundle.assign k v acc) !! k = Some v.
Proof.
  intros Hk. unfold Bundle.assign.
  destruct (String.eqb_spec k "__proto__"); [congruence|]. apply lookup_insert_eq.
Qed.

Lemma assign_lookup_ne (k k' : string) (v : Bundle.fieldval) (acc : Bundle.object) :
  k <> k' -> Bundle.own (Bundle.assign k v acc) !! k' = Bundle.own acc !! k'.
Proof.
  intros Hk. unfold Bundle.assign.
  destruct (String.eqb k "__proto__" && Bundle.inherits acc); [reflexivity|].
  apply lookup_insert_ne, Hk.
Qed.

Lemma format_step_other (acc : Bundle.object) (f : Bundle.field) (k : string) :
  Bundle.key f <> k ->
  Bundle.own (Bundle.format_step acc f) !! k = Bundle.own acc !! k.
Proof.
  intros Hk. unfold Bundle.format_step.
  destruct (String.eqb (Bundle.key f) "products"); [reflexivity|].
  destruct (String.eqb (Bundle.type f) "rich_text_field");
    [apply assign_lookup_ne, Hk|].
  destruct (if String.eqb (Bundle.type f) "file_reference" then _ else _) as [[u alt]|];
    apply assign_lookup_ne, Hk.
Qed.

Lemma format_fields_app (pre post : list Bundle.field) :
  Bundle.formatBundleFields (pre ++ post)
  = Bundle.own (List.fold_left Bundle.format_step post (Bundle.reduce pre)).
Proof.
  unfold Bundle.formatBundleFields, Bundle.reduce. rewrite fold_left_app. reflexivity.
Qed.

Lemma fold_step_other (post : list Bundle.field) (acc : Bundle.object) (k : string) :
  Forall (fun g => Bundle.key g <> k) post ->
  Bundle.own (List.fold_left Bundle.format_step post acc) !! k = Bundle.own acc !! k.
Proof.
  revert acc. induction post as [|g post IH]; intros acc Hall; [reflexivity|].
  inversion Hall as [|? ? Hg Hpost]; subst. simpl.
  rewrite IH by exact Hpost. apply format_step_other, Hg.
Qed.

Lemma format_step_file_reference (acc : Bundle.object) (f : Bundle.field) :
  Bundle.type f = "file_reference" ->
  Bundle.key f <> "products" -> Bundle.key f <> "__proto__" ->
  Bundle.own (Bundle.format_step acc f) !! Bundle.key f
  = Some match Bundle.formatImageReference (Bundle.reference_of f) with
         | Some (u, alt) => Bundle.FImage u alt
         | None => Bundle.raw (Bundle.value f)
         end.
Proof.
  intros Ht Hk Hp. unfold Bundle.format_step.
  destruct (String.eqb_spec (Bundle.key f) "products"); [congruence|].
  rewrite Ht. simpl.
  destruct (Bundle.formatImageReference _) as [[u alt]|]; apply assign_lookup, Hp.
Qed.

(** C6 (as amended): a field of type [file_reference] whose key is
    neither "products" nor "__proto__", and is not used again by a later
    field, maps to the record of its URL and alternative text when the
    reference resolves, and to the raw value of the field when it does
    not; the key is present in the flattened record either way. *)
Theorem file_reference_fields (pre post : list Bundle.field) (f : Bundle.field) :
  Bundle.type f = "file_reference" ->
  Bundle.key f <> "products" -> Bundle.key f <> "__proto__" ->
  Forall (fun g => Bundle.key g <> Bundle.key f) post ->
  (forall u alt,
      Spec.resolves (Bundle.reference_of f) u alt ->
      Bundle.formatBundleFields (pre ++ f :: post) !! Bundle.key f
      = Some (Bundle.FImage u alt))
  /\ (Spec.unresolvable (Bundle.reference_of f) ->
      Bundle.formatBundleFields (pre ++ f :: post) !! Bundle.key f
      = Some (Bundle.raw (Bundle.value f))).
Proof.
  intros Ht Hk Hp Hpost.
  assert (Bundle.formatBundleFields (pre ++ f :: post) !! Bundle.key f
          = Some match Bundle.formatImageReference (Bundle.reference_of f) with
                 | Some (u, alt) => Bundle.FImage u alt
                 | None => Bundle.raw (Bundle.value f)
                 end) as ->.
  { rewrite format_fields_app. cbn [List.fold_left].
    rewrite fold_step_other by exact Hpost.
    apply format_step_file_reference; assumption. }
  split.
  - intros u alt Hr. apply formatImageReference_resolves in Hr. rewrite Hr. reflexivity.
  - intros Hu. apply formatImageReference_unresolvable in Hu. rewrite Hu. reflexivity.
Qed.

Lemma file_reference_fields_witness :
  Bundle.formatBundleFields
    [Sample.file_field "image" (Some "gid://shopify/MediaImage/1")
       (Some (Bundle.RMediaImage
                (Some {| Bundle.url := Some "https://cdn.example/a.png";
                         Bundle.altText := None |})))]
  !! "image"
  = Some (Bundle.FImage "https://cdn.example/a.png" "").
Proof.
  refine (proj1 (file_reference_fields []
                   []
                   (Sample.file_field "image" (Some "gid://shopify/MediaImage/1")
                      (Some (Bundle.RMediaImage
                               (Some {| Bundle.url := Some "https://cdn.example/a.png";
                                        Bundle.altText := None |}))))
                   eq_refl _ _ _) "https://cdn.example/a.png" "" _).
  - discriminate.
  - discriminate.
  - constructor.
  - split; [discriminate|]. left. eexists. split; [reflexivity|]. split; reflexivity.
Defined.

(** C6, the counterexample: a file reference that does not resolve (the
    reference is [null]) leaves its key in the record, with the raw value
    of the field. *)
Lemma unresolved_reference_kept :
  Bundle.formatBundleFields
    [Sample.file_field "image" (Some "gid://shopify/MediaImage/1") None]
  !! "image"
  = Some (Bundle.FText "gid://shopify/MediaImage/1")
  /\ Spec.unresolvable
       (Bundle.reference_of
          (Sample.file_field "image" (Some "gid://shopify/MediaImage/1") None)).
Proof.
  split; [vm_compute; reflexivity|].
  apply formatImageReference_unresolvable. reflexivity.
Qed.

(** ** The price of a bundle *)



Lemma is_text_exclusive (v : option Bundle.fieldval) (s t : string) :
  s <> t -> Bundle.is_text v s = true -> Bundle.is_text v t = false.
Proof.
  intros Hst. unfold Bundle.is_text. destruct v as [[u| |]|]; try discriminate.
  intros H. apply String.eqb_eq in H. subst u. apply String.eqb_neq, Hst.
Qed.

Lemma isNaN_eq (x : Num.number) : Num.isNaN x = true <-> x = Num.NaN.
Proof. unfold Num.NaN. destruct x; simpl; split; congruence. Qed.

Lemma sub_NaN (x : Num.number) : Num.sub x Num.NaN = Num.NaN.
Proof. destruct x; reflexivity. Qed.

(** The three branches of the calculation. *)
Lemma price_fixed (products : list Bundle.NormalizedProduct)
    (bundle : gmap string Bundle.fieldval) :
  Bundle.is_text (bundle !! "bundle_type") "fixed_price" = true ->
  Bundle.price products bundle
  = let subtotal := Bundle.subtotal_of products in
    let bundlePrice := Num.parseFloat (Bundle.to_text (bundle !! "discount_value")) in
    {| Bundle.subtotal := subtotal;
       Bundle.bundlePrice := bundlePrice;
       Bundle.savingsLabel :=
         if Num.gtb (Num.sub subtotal bundlePrice) Num.zero
         then "You save " +:+ Num.toFixed0 (Num.sub subtotal bundlePrice)
         else "" |}.
Proof.
  intros Hf. unfold Bundle.price. rewrite Hf.
  rewrite (is_text_exclusive _ "fixed_price" "percentage") by (discriminate || exact Hf).
  reflexivity.
Qed.

Lemma price_percentage (products : list Bundle.NormalizedProduct)
    (bundle : gmap string Bundle.fieldval) :
  Bundle.is_text (bundle !! "bundle_type") "percentage" = true ->
  Bundle.price products bundle
  = let subtotal := Bundle.subtotal_of products in
    let discountPercent := Num.parseFloat (Bundle.to_text (bundle !! "discount_value")) in
    if Num.isNaN discountPercent
    then {| Bundle.subtotal := subtotal;
            Bundle.bundlePrice := subtotal;
            Bundle.savingsLabel := "" |}
    else {| Bundle.subtotal := subtotal;
            Bundle.bundlePrice :=
              Num.sub subtotal
                (Num.div (Num.mul subtotal discountPercent) Bundle.hundred);
            Bundle.savingsLabel :=
              "You save " +:+ Num.toFixed0 discountPercent +:+ "%" |}.
Proof.
  intros Hp. unfold Bundle.price. rewrite Hp.
  rewrite (is_text_exclusive _ "percentage" "fixed_price") by (discriminate || exact Hp).
  cbv zeta. destruct (Num.isNaN _); reflexivity.
Qed.


Lemma price_subtotal (products : list Bundle.NormalizedProduct)
    (bundle : gmap string Bundle.fieldval) :
  Bundle.subtotal (Bundle.price products bundle) = Bundle.subtotal_of products.
Proof.
  unfold Bundle.price.
  destruct (Bundle.is_text _ "fixed_price"), (Bundle.is_text _ "percentage");
    cbv zeta; try destruct (negb _); reflexivity.
Qed.



(** The other example of the specification: 25 percent of 100. *)
Lemma percentage_example :
  let p := Bundle.price [Sample.priced "100"] (Sample.bundle "percentage" "25") in
  Bundle.bundlePrice p = Num.of_Z 75 /\ Bundle.savingsLabel p = "You save 25%".
Proof. split; vm_compute; reflexivity. Qed.

(** C5 (as amended): when the discount value does not parse as a number,
    a bundle of type [fixed_price] has the bundle price [NaN], which the
    page prints as "NaN", and no label; a bundle of type [percentage]
    keeps the subtotal as its bundle price, with no label: that branch
    tests the parsed discount. *)
Theorem discount_not_numeric (products : list Bundle.NormalizedProduct)
    (bundle : gmap string Bundle.fieldval) :
  Num.isNaN (Num.parseFloat (Bundle.to_text (bundle !! "discount_value"))) = true ->
  let p := Bundle.price products bundle in
  (Bundle.is_text (bundle !! "bundle_type") "fixed_price" = true ->
   Bundle.bundlePrice p = Num.NaN
   /\ Num.toFixed0 (Bundle.bundlePrice p) = "NaN"
   /\ Bundle.savingsLabel p = "")
  /\ (Bundle.is_text (bundle !! "bundle_type") "percentage" = true ->
      Bundle.bundlePrice p = Bundle.subtotal p /\ Bundle.savingsLabel p = "").
Proof.
  intros Hn. cbv zeta. split.
  - intros Hf. rewrite (price_fixed _ _ Hf). cbv zeta. simpl.
    apply isNaN_eq in Hn. rewrite Hn, sub_NaN. auto.
  - intros Hp. rewrite (price_percentage _ _ Hp). cbv zeta. rewrite Hn. auto.
Qed.

Lemma discount_not_numeric_witness :
  Bundle.bundlePrice
    (Bundle.price [Sample.priced "100"] (Sample.bundle "fixed_price" "eighty"))
  = Num.NaN
  /\ Num.toFixed0
       (Bundle.bundlePrice
          (Bundle.price [Sample.priced "100"] (Sample.bundle "fixed_price" "eighty")))
     = "NaN"
  /\ Bundle.savingsLabel
       (Bundle.price [Sample.priced "100"] (Sample.bundle "fixed_price" "eighty"))
     = "".
Proof.
  refine (proj1 (discount_not_numeric [Sample.priced "100"]
                   (Sample.bundle "fixed_price" "eighty") _) _);
    vm_compute; reflexivity.
Defined.

(** C5, the counterexample: a bundle of type [percentage] whose discount
    value is no number has the subtotal as its bundle price, not [NaN]. *)
Lemma percentage_guards_NaN :
  let p := Bundle.price [Sample.priced "100"] (Sample.bundle "percentage" "abc") in
  Num.isNaN (Num.parseFloat "abc") = true
  /\ Bundle.bundlePrice p = Num.of_Z 100
  /\ Num.isNaN (Bundle.bundlePrice p) = false.
Proof. repeat split; vm_compute; reflexivity. Qed.

(** ** The loader *)

(** The loader prices the collected products against the flattened
    record; the identifier and the handle of the metaobject do not hide a
    field of the record. *)
Lemma loader_pricing (meta : Bundle.metaobject) :
  exists data,
    Bundle.loader (Some meta) = Some data
    /\ Bundle.products data = Bundle.collectProducts (Bundle.fields meta)
    /\ Bundle.pricing data = Bundle.price (Bundle.products data) (Bundle.bundle data)
    /\ Bundle.bundle data !! "bundle_type"
       = Bundle.formatBundleFields (Bundle.fields meta) !! "bundle_type"
    /\ Bundle.bundle data !! "discount_value"
       = Bundle.formatBundleFields (Bundle.fields meta) !! "discount_value".
Proof.
  eexists. split; [reflexivity|]. cbn [Bundle.products Bundle.pricing Bundle.bundle].
  split; [reflexivity|]. split; [reflexivity|].
  split; apply lookup_union_l;
    rewrite lookup_insert_ne by discriminate;
    rewrite lookup_insert_ne by discriminate; apply lookup_empty.
Qed.

(** * Further properties of the code *)

(** ** The recommendation route *)

Lemma action_post (fetch : transport) (key : string) (request : ApiRoute.Request) :
  ApiRoute.method request = "POST" -> key <> "" ->
  ApiRoute.action fetch (Some key) request
  = match ApiRoute.body request with
    | inl e => ([], ApiRoute.failed e)
    | inr b =>
        let '(log, outcome) :=
          Gemini.getGeminiRecommendations fetch (Some key) (ApiRoute.context_of b) in
        (log,
         match outcome with
         | inr recommendations =>
             {| ApiRoute.status := 200;
                ApiRoute.payload := ApiRoute.Recommendations recommendations |}
         | inl e => ApiRoute.failed e
         end)
    end.
Proof.
  intros Hm Hk. unfold ApiRoute.action. rewrite Hm. simpl.
  destruct key; [congruence|reflexivity].
Qed.

Lemma action_not_post (fetch : transport) (key : option string)
    (request : ApiRoute.Request) :
  ApiRoute.method request <> "POST" ->
  ApiRoute.action fetch key request
  = ([], {| ApiRoute.status := 405;
            ApiRoute.payload := ApiRoute.Failure (Text "Method not allowed") |}).
Proof.
  intros Hm. unfold ApiRoute.action.
  destruct (String.eqb_spec (ApiRoute.method request) "POST"); [contradiction|reflexivity].
Qed.

Lemma action_no_key (fetch : transport) (key : option string)
    (request : ApiRoute.Request) :
  ApiRoute.method request = "POST" -> key = None \/ key = Some "" ->
  ApiRoute.action fetch key request
  = ([], {| ApiRoute.status := 500;
            ApiRoute.payload :=
              ApiRoute.Failure (Text "Gemini API key not configured") |}).
Proof.
  intros Hm [-> | ->]; unfold ApiRoute.action; rewrite Hm; reflexivity.
Qed.

Lemma key_cases (key : option string) :
  (key = None \/ key = Some "") \/ exists k, key = Some k /\ k <> "".
Proof.
  destruct key as [[|c k]|]; [left; right; reflexivity| |left; left; reflexivity].
  right. exists (String c k). split; [reflexivity|discriminate].
Qed.


Lemma action_run (fetch : transport) (key : string) (request : ApiRoute.Request)
    (b : ApiRoute.Body) :
  ApiRoute.method request = "POST" -> key <> "" ->
  ApiRoute.body request = ret b ->
  ApiRoute.action fetch (Some key) request
  = let req := PostGenerateContent key (Gemini.build_prompt (ApiRoute.context_of b)) in
    ([req],
     match rbind (fetch req) Gemini.from_response with
     | inr recommendations =>
         {| ApiRoute.status := 200;
            ApiRoute.payload := ApiRoute.Recommendations recommendations |}
     | inl e => ApiRoute.failed e
     end).
Proof.
  intros Hm Hk Hb. rewrite (action_post _ _ _ Hm Hk), Hb. unfold ret.
  rewrite (with_api_key _ _ _ Hk). reflexivity.
Qed.

(** *** The route on any body *)

Lemma map_r_throws {A B} (f : A -> result B) (l : list A) (e : exn) :
  map_r f l = throw e -> exists x, x ∈ l /\ f x = throw e.
Proof.
  induction l as [|x r IH]; [discriminate|]. rewrite map_r_cons.
  destruct (f x) as [e'|y] eqn:Hx.
  - intros [= ->]. exists x. split; [apply list_elem_of_here|exact Hx].
  - cbn [rbind]. destruct (map_r f r) as [e'|ys]; [|discriminate].
    intros [= ->]. destruct (IH eq_refl) as (z & Hz & Hfz).
    exists z. split; [apply list_elem_of_further, Hz|exact Hfz].
Qed.

(** A string conversion throws nothing but [TypeError]. *)
Lemma toString_throws (v : json) (e : exn) :
  Json.toString v = throw e -> e = TypeError.
Proof.
  revert e.
  induction v as [|b|x|s|items IH|members _] using Json.tree_ind; intros e;
    try discriminate.
  - cbn [Json.toString].
    destruct (map_r _ items) as [e'|parts] eqn:Hm; [|discriminate].
    intros [= ->]. apply map_r_throws in Hm as (x & Hx & Hfx).
    rewrite Forall_forall in IH. destruct x; try discriminate; exact (IH _ Hx _ Hfx).
  - cbn [Json.toString]. destruct (Json.lookup_member "toString" members); [|discriminate].
    intros [= <-]. reflexivity.
Qed.

Lemma rbind_throws {A B} (m : result A) (k : A -> result B) (e : exn) :
  rbind m k = throw e -> m = throw e \/ exists a, m = ret a /\ k a = throw e.
Proof. destruct m as [e'|a]; [intros [= ->]; left; reflexivity|]. intros H. right. eauto. Qed.

Lemma template_throws (v : option json) (e : exn) :
  RawRoute.template v = throw e -> e = TypeError.
Proof. destruct v; [apply toString_throws|discriminate]. Qed.

Lemma substring_throws (n : nat) (v : json) (e : exn) :
  RawRoute.substring n v = throw e -> e = TypeError.
Proof. destruct v; try discriminate; intros [= <-]; reflexivity. Qed.

(** Whatever stops the route before [fetch], once the body is read, is
    a [TypeError]. *)
Lemma prompt_of_throws (b : json) (e : exn) :
  RawRoute.prompt_of b = throw e -> e = TypeError.
Proof.
  unfold RawRoute.prompt_of. intros H.
  apply rbind_throws in H as [H|(ctx & _ & H)].
  { destruct b; try discriminate. injection H as <-. reflexivity. }
  unfold RawRoute.build_prompt in H.
  apply rbind_throws in H as [H|(products & _ & H)].
  { destruct (RawRoute.availableProducts ctx); try discriminate;
      injection H as <-; reflexivity. }
  apply rbind_throws in H as [H|(summaries & _ & H)].
  { apply map_r_throws in H as (x & _ & H). destruct x; try discriminate.
    injection H as <-. reflexivity. }
  apply rbind_throws in H as [H|(lines & _ & H)].
  { apply map_r_throws in H as (x & _ & H). unfold RawRoute.product_line in H.
    apply rbind_throws in H as [H|(t & _ & H)]; [exact (template_throws _ _ H)|].
    apply rbind_throws in H as [H|(h & _ & H)]; [exact (template_throws _ _ H)|].
    apply rbind_throws in H as [H|(d & _ & H)]; [|discriminate].
    destruct (Json.truthy _); [|discriminate].
    apply rbind_throws in H as [H|(s' & _ & H)]; [|discriminate].
    exact (substring_throws _ _ _ H). }
  apply rbind_throws in H as [H|(current & _ & H)].
  { destruct (RawRoute.truthy _); [|discriminate].
    apply rbind_throws in H as [H|(t & _ & H)]; [exact (template_throws _ _ H)|].
    apply rbind_throws in H as [H|(d & _ & H)]; [|discriminate].
    destruct (RawRoute.currentProductDescription ctx) as [d|]; [|discriminate].
    destruct (Json.truthy d); [|discriminate].
    apply rbind_throws in H as [H|(s' & _ & H)]; [|discriminate].
    exact (substring_throws _ _ _ H). }
  apply rbind_throws in H as [H|(query & _ & H)]; [|discriminate].
  destruct (RawRoute.truthy _); [|discriminate].
  apply rbind_throws in H as [H|(q & _ & H)]; [|discriminate].
  exact (template_throws _ _ H).
Qed.

Lemma raw_action_post (fetch : transport) (key : string) (request : RawRoute.Request) :
  RawRoute.method request = "POST" -> key <> "" ->
  RawRoute.action fetch (Some key) request
  = match rbind (RawRoute.body request) RawRoute.prompt_of with
    | inl e => ([], ApiRoute.failed e)
    | inr prompt =>
        let req := PostGenerateContent key prompt in
        ([req],
         match rbind (fetch req) Gemini.from_response with
         | inr recommendations =>
             {| ApiRoute.status := 200;
                ApiRoute.payload := ApiRoute.Recommendations recommendations |}
         | inl e => ApiRoute.failed e
         end)
    end.
Proof.
  intros Hm Hk. unfold RawRoute.action, RawRoute.prompt_of. rewrite Hm.
  change (negb (String.eqb "POST" "POST")) with false. cbv iota.
  destruct key as [|c key]; [congruence|].
  destruct (RawRoute.body request) as [e|b]; [reflexivity|]. cbn [rbind].
  destruct (RawRoute.context_of b) as [e|ctx]; [reflexivity|]. cbn [rbind].
  unfold RawRoute.getGeminiRecommendations.
  destruct (RawRoute.build_prompt ctx) as [e|prompt]; reflexivity.
Qed.

(** The lines of the product list for the products the widget sends. *)
Lemma line_encode (p : Product) :
  rbind (RawRoute.summarize (ApiRoute.encode_product p)) RawRoute.product_line
  = ret (Gemini.product_line p).
Proof.
  unfold Gemini.product_line, Gemini.or_empty.
  destruct (description p) as [[|c d]|] eqn:Hd;
    cbn; rewrite Hd; reflexivity.
Qed.

Lemma lines_encode (ps : list Product) :
  exists summaries,
    map_r RawRoute.summarize (ApiRoute.encode_product <$> ps) = ret summaries
    /\ map_r RawRoute.product_line summaries = ret (Gemini.product_line <$> ps).
Proof.
  induction ps as [|p ps (ss & Hs & Hl)]; [exists []; split; reflexivity|].
  pose proof (line_encode p) as Hp.
  destruct (RawRoute.summarize (ApiRoute.encode_product p)) as [e|s] eqn:Hsp;
    [discriminate|]. cbn [rbind] in Hp.
  exists (s :: ss). rewrite fmap_cons, !map_r_cons, Hsp, Hs, Hp, Hl. split; reflexivity.
Qed.

(** On the body the widget sends, the prompt is the one of the typed
    model. *)
Lemma prompt_of_encode (b : ApiRoute.Body) :
  RawRoute.prompt_of (ApiRoute.encode b)
  = ret (Gemini.build_prompt (ApiRoute.context_of b)).
Proof.
  destruct b as [t d ps q].
  unfold RawRoute.prompt_of, RawRoute.build_prompt, Gemini.build_prompt.
  cbn [RawRoute.context_of ApiRoute.encode rbind ret ApiRoute.context_of
       ApiRoute.currentProductTitle ApiRoute.currentProductDescription
       ApiRoute.availableProducts ApiRoute.userQuery
       Gemini.currentProductTitle Gemini.currentProductDescription
       Gemini.availableProducts Gemini.userQuery].
  cbn [RawRoute.currentProductTitle RawRoute.currentProductDescription
       RawRoute.availableProducts RawRoute.userQuery].
  set (b := {| ApiRoute.currentProductTitle := t;
               ApiRoute.currentProductDescription := d;
               ApiRoute.availableProducts := ps;
               ApiRoute.userQuery := q |}).
  change (Json.get (ApiRoute.encode b) "currentProductTitle") with (Some (ApiRoute.text t)).
  change (Json.get (ApiRoute.encode b) "currentProductDescription")
    with (Some (ApiRoute.text d)).
  change (Json.get (ApiRoute.encode b) "userQuery") with (Some (ApiRoute.text q)).
  change (Json.get (ApiRoute.encode b) "availableProducts")
    with (Some match ps with
               | Some products => JArray (ApiRoute.encode_product <$> products)
               | None => JNull
               end).
  cbv iota. clear b.
  assert (Hlines : exists summaries,
             map_r RawRoute.summarize
               (take 20 (ApiRoute.encode_product
                           <$> match ps with Some products => products | None => [] end))
             = ret summaries
             /\ map_r RawRoute.product_line summaries
                = ret (Gemini.product_line
                         <$> take 20 match ps with Some products => products | None => [] end)).
  { rewrite <- fmap_take. apply lines_encode. }
  destruct Hlines as (summaries & Hs & Hl).
  assert (Hproducts :
            RawRoute.first_products
              (if Json.truthy match ps with
                              | Some products => JArray (ApiRoute.encode_product <$> products)
                              | None => JNull
                              end
               then match ps with
                    | Some products => JArray (ApiRoute.encode_product <$> products)
                    | None => JNull
                    end
               else JArray [])
            = ret (take 20 (ApiRoute.encode_product
                              <$> match ps with Some products => products | None => [] end))).
  { destruct ps; reflexivity. }
  rewrite Hproducts. cbn [rbind ret]. rewrite Hs. cbn [rbind ret]. rewrite Hl.
  cbn [rbind ret].
  destruct t as [[|c t]|], d as [[|c' d]|], q as [[|c'' q]|]; reflexivity.
Qed.

(** X1: [action] on any request.  Any method other than POST is
    answered 405 "Method not allowed"; a POST without a key is answered
    500 "Gemini API key not configured", whatever the body; a POST with
    a key whose body cannot be read, or is read but lets the prompt not
    be built, is answered by the [catch] block with what was thrown,
    which is a [TypeError] once the body is read; none of these issues a
    request.  The request to the generative API goes out exactly when
    the method is POST, a key is configured, the body is read and the
    prompt is built from it, and it carries that prompt.  The prompt is
    built for every body the widget sends, and is then the prompt of the
    typed model; it is not built for the body [null], for
    [availableProducts] that is a string or holds [null], for a
    description that is a number, under the current product or under
    one of the products; it is built for a body that is a string, which
    reads as a body without properties.  A title or a handle that is no
    string is written as its string conversion, ["undefined"] when it
    is missing. *)
Theorem action_guards (fetch : transport) (key : option string)
    (request : RawRoute.Request) :
  (RawRoute.method request <> "POST" ->
   RawRoute.action fetch key request
   = ([], {| ApiRoute.status := 405;
             ApiRoute.payload := ApiRoute.Failure (Text "Method not allowed") |}))
  /\ (RawRoute.method request = "POST" -> key = None \/ key = Some "" ->
      RawRoute.action fetch key request
      = ([], {| ApiRoute.status := 500;
                ApiRoute.payload :=
                  ApiRoute.Failure (Text "Gemini API key not configured") |}))
  /\ (forall k e,
        RawRoute.method request = "POST" -> key = Some k -> k <> "" ->
        rbind (RawRoute.body request) RawRoute.prompt_of = throw e ->
        RawRoute.action fetch key request = ([], ApiRoute.failed e))
  /\ (forall b e, RawRoute.prompt_of b = throw e -> e = TypeError)
  /\ (fst (RawRoute.action fetch key request) <> []
      <-> RawRoute.method request = "POST"
          /\ (exists k, key = Some k /\ k <> "")
          /\ exists b prompt,
               RawRoute.body request = ret b /\ RawRoute.prompt_of b = ret prompt)
  /\ (forall k b prompt,
        RawRoute.method request = "POST" -> key = Some k -> k <> "" ->
        RawRoute.body request = ret b -> RawRoute.prompt_of b = ret prompt ->
        fst (RawRoute.action fetch key request) = [PostGenerateContent k prompt])
  /\ (forall b : ApiRoute.Body,
        RawRoute.prompt_of (ApiRoute.encode b)
        = ret (Gemini.build_prompt (ApiRoute.context_of b)))
  /\ (forall typed : ApiRoute.Request,
        RawRoute.method request = ApiRoute.method typed ->
        RawRoute.body request
        = rbind (ApiRoute.body typed) (fun b => ret (ApiRoute.encode b)) ->
        RawRoute.action fetch key request = ApiRoute.action fetch key typed)
  /\ RawRoute.prompt_of JNull = throw TypeError
  /\ RawRoute.prompt_of (JObject [("availableProducts", JArray [JNull])])
     = throw TypeError
  /\ RawRoute.prompt_of (JObject [("availableProducts", JString "shirts")])
     = throw TypeError
  /\ RawRoute.prompt_of
       (JObject [("currentProductTitle", JString "Shirt");
                 ("currentProductDescription", JNumber (Num.of_Z 5))])
     = throw TypeError
  /\ RawRoute.prompt_of
       (JObject [("availableProducts",
                  JArray [JObject [("title", JString "Shirt");
                                   ("handle", JString "shirt");
                                   ("description", JNumber (Num.of_Z 5))]])])
     = throw TypeError
  /\ rbind (RawRoute.summarize
              (JObject [("title", JArray [JBool true; JNull; JNumber (Num.of_Z 2)]);
                        ("handle", JObject [("a", JNumber (Num.of_Z 1))]);
                        ("description", JString "Soft cotton")]))
       RawRoute.product_line
     = ret "- true,,2 ([object Object]): Soft cotton"
  /\ rbind (RawRoute.summarize (JObject [("title", JNull)])) RawRoute.product_line
     = ret "- null (undefined)"
  /\ RawRoute.prompt_of (JString "shirts") = RawRoute.prompt_of (JObject [])
  /\ RawRoute.prompt_of (JObject [])
     = ret (Gemini.build_prompt
              {| Gemini.currentProductTitle := None;
                 Gemini.currentProductDescription := None;
                 Gemini.availableProducts := [];
                 Gemini.userQuery := None |}).
Proof.
  split; [|split; [|split; [|split; [|split; [|split; [|split; [|split]]]]]]].
  - intros Hm. unfold RawRoute.action.
    destruct (String.eqb_spec (RawRoute.method request) "POST"); [contradiction|reflexivity].
  - intros Hm [-> | ->]; unfold RawRoute.action; rewrite Hm; reflexivity.
  - intros k e Hm -> Hk Hb. rewrite (raw_action_post _ _ _ Hm Hk), Hb. reflexivity.
  - exact prompt_of_throws.
  - split.
    + intros Hlog.
      destruct (String.eqb_spec (RawRoute.method request) "POST") as [Hm|Hm].
      2:{ unfold RawRoute.action in Hlog.
          destruct (String.eqb_spec (RawRoute.method request) "POST");
            [contradiction|]. destruct (Hlog eq_refl). }
      destruct (key_cases key) as [Hk|(k & -> & Hk)].
      { destruct Hk as [-> | ->]; unfold RawRoute.action in Hlog; rewrite Hm in Hlog;
          destruct (Hlog eq_refl). }
      split; [exact Hm|]. split; [exists k; auto|].
      rewrite (raw_action_post _ _ _ Hm Hk) in Hlog.
      destruct (RawRoute.body request) as [e|b]; [destruct (Hlog eq_refl)|].
      cbn [rbind] in Hlog.
      destruct (RawRoute.prompt_of b) as [e|prompt] eqn:Hp; [destruct (Hlog eq_refl)|].
      exists b, prompt. split; [reflexivity|exact Hp].
    + intros (Hm & (k & -> & Hk) & b & prompt & Hb & Hp).
      rewrite (raw_action_post _ _ _ Hm Hk), Hb. cbn [rbind ret]. rewrite Hp. discriminate.
  - intros k b prompt Hm -> Hk Hb Hp.
    rewrite (raw_action_post _ _ _ Hm Hk), Hb. cbn [rbind ret]. rewrite Hp. reflexivity.
  - exact prompt_of_encode.
  - intros typed Hmethod Hbody.
    destruct (String.eqb_spec (RawRoute.method request) "POST") as [Hm|Hm].
    2:{ rewrite (action_not_post fetch key typed) by (rewrite <- Hmethod; exact Hm).
        unfold RawRoute.action.
        destruct (String.eqb_spec (RawRoute.method request) "POST");
          [contradiction|reflexivity]. }
    destruct (key_cases key) as [Hk|(k & -> & Hk)].
    { rewrite (action_no_key fetch key typed) by (try rewrite <- Hmethod; assumption).
      destruct Hk as [-> | ->]; unfold RawRoute.action; rewrite Hm; reflexivity. }
    rewrite Hmethod in Hm.
    rewrite (raw_action_post _ _ _ (eq_trans Hmethod Hm) Hk), Hbody.
    destruct (ApiRoute.body typed) as [e|b] eqn:Hb.
    + rewrite (action_post _ _ _ Hm Hk), Hb. reflexivity.
    + rewrite (action_run _ _ _ b Hm Hk Hb).
      cbn [rbind ret]. rewrite prompt_of_encode. reflexivity.
  - repeat split; vm_compute; reflexivity.
Qed.

Lemma action_guards_witness :
  RawRoute.action (Sample.always Fixture.unavailable) (Some "key")
    {| RawRoute.method := "POST";
       RawRoute.body := ret (JObject [("availableProducts", JArray [JNull])]) |}
  = ([], ApiRoute.failed TypeError).
Proof.
  apply (proj1 (proj2 (proj2
           (action_guards (Sample.always Fixture.unavailable) (Some "key")
              {| RawRoute.method := "POST";
                 RawRoute.body :=
                   ret (JObject [("availableProducts", JArray [JNull])]) |})))
           "key" TypeError).
  - reflexivity.
  - reflexivity.
  - discriminate.
  - vm_compute. reflexivity.
Defined.

Lemma failed_answer (e : exn) :
  ApiRoute.status (ApiRoute.failed e) = 500
  /\ exists m, ApiRoute.payload (ApiRoute.failed e) = ApiRoute.Failure m
               /\ message_truthy m = true.
Proof.
  split; [reflexivity|]. unfold ApiRoute.failed. simpl.
  destruct (message_truthy (message_of e)) eqn:Ht.
  - exists (message_of e). split; [reflexivity|exact Ht].
  - exists (Text "Failed to get recommendations"). split; reflexivity.
Qed.

(** X2: the answers of [action].  The status is 200, 405 or 500; it is
    200 exactly when the payload is a list of recommendations, and these
    are then what [getGeminiRecommendations] returned for the context
    built from the body; every other answer carries an error message
    that is not empty; at most one request goes to the generative API. *)
Theorem action_answers (fetch : transport) (key : option string)
    (request : ApiRoute.Request) :
  let log := fst (ApiRoute.action fetch key request) in
  let answer := snd (ApiRoute.action fetch key request) in
  length log <= 1
  /\ (ApiRoute.status answer = 200 \/ ApiRoute.status answer = 405
      \/ ApiRoute.status answer = 500)
  /\ (ApiRoute.status answer = 200
      <-> exists recommendations,
            ApiRoute.payload answer = ApiRoute.Recommendations recommendations)
  /\ (forall recommendations,
        ApiRoute.payload answer = ApiRoute.Recommendations recommendations ->
        exists k b,
          key = Some k /\ ApiRoute.body request = ret b
          /\ Gemini.getGeminiRecommendations fetch (Some k) (ApiRoute.context_of b)
             = (log, ret recommendations))
  /\ (ApiRoute.status answer <> 200 ->
      exists m, ApiRoute.payload answer = ApiRoute.Failure m
                /\ message_truthy m = true).
Proof.
  cbv zeta.
  assert (Hfail : forall log answer,
             length log <= 1 ->
             ApiRoute.status answer = 405 \/ ApiRoute.status answer = 500 ->
             (exists m, ApiRoute.payload answer = ApiRoute.Failure m
                        /\ message_truthy m = true) ->
             ApiRoute.action fetch key request = (log, answer) ->
             length (fst (ApiRoute.action fetch key request)) <= 1
  /\ (ApiRoute.status (snd (ApiRoute.action fetch key request)) = 200
      \/ ApiRoute.status (snd (ApiRoute.action fetch key request)) = 405
      \/ ApiRoute.status (snd (ApiRoute.action fetch key request)) = 500)
  /\ (ApiRoute.status (snd (ApiRoute.action fetch key request)) = 200
      <-> exists recommendations,
            ApiRoute.payload (snd (ApiRoute.action fetch key request))
            = ApiRoute.Recommendations recommendations)
  /\ (forall recommendations,
        ApiRoute.payload (snd (ApiRoute.action fetch key request))
        = ApiRoute.Recommendations recommendations ->
        exists k b,
          key = Some k /\ ApiRoute.body request = ret b
          /\ Gemini.getGeminiRecommendations fetch (Some k) (ApiRoute.context_of b)
             = (fst (ApiRoute.action fetch key request), ret recommendations))
  /\ (ApiRoute.status (snd (ApiRoute.action fetch key request)) <> 200 ->
      exists m, ApiRoute.payload (snd (ApiRoute.action fetch key request))
                = ApiRoute.Failure m
                /\ message_truthy m = true)).
  { intros log answer Hlen Hs (m & Hp & Ht) ->. cbn [fst snd]. rewrite Hp.
    split; [exact Hlen|]. split; [tauto|].
    split; [split; [intros H; rewrite H in Hs; destruct Hs; discriminate
                   |intros [? ?]; discriminate]|].
    split; [intros ? ?; discriminate|]. intros _. exists m. auto. }
  destruct (String.eqb_spec (ApiRoute.method request) "POST") as [Hm|Hm].
  2:{ eapply Hfail; [| | |apply (action_not_post _ _ _ Hm)];
        [simpl; lia|left; reflexivity|eexists; split; reflexivity]. }
  destruct (key_cases key) as [Hk|(k & -> & Hk)].
  { eapply Hfail; [| | |apply (action_no_key _ _ _ Hm Hk)];
      [simpl; lia|right; reflexivity|eexists; split; reflexivity]. }
  destruct (ApiRoute.body request) as [e|b] eqn:Hb.
  { destruct (failed_answer e) as [Hs Hp].
    eapply Hfail; [| | |rewrite (action_post _ _ _ Hm Hk), Hb; reflexivity];
      [simpl; lia|right; exact Hs|exact Hp]. }
  pose proof (single_attempt fetch (Some k) (ApiRoute.context_of b)) as Hlen.
  destruct (Gemini.getGeminiRecommendations fetch (Some k) (ApiRoute.context_of b))
    as [log [e|recs]] eqn:Hg; cbn [fst snd] in *.
  - destruct (failed_answer e) as [Hs Hp].
    assert (Ha : ApiRoute.action fetch (Some k) request = (log, ApiRoute.failed e)).
    { rewrite (action_post _ _ _ Hm Hk), Hb, Hg. reflexivity. }
    exact (Hfail log (ApiRoute.failed e) Hlen (or_intror Hs) Hp Ha).
  - rewrite (action_post _ _ _ Hm Hk), Hb, Hg.
    cbn [fst snd ApiRoute.status ApiRoute.payload].
    split; [exact Hlen|]. split; [auto|].
    split; [split; [intros _; exists recs; reflexivity|reflexivity]|].
    split; [|intros H; congruence].
    intros r Hr. injection Hr as <-. exists k, b. auto.
Qed.

(** X3: what the caller of the route learns of a failure of the
    generative API.  For a POST request with a key and a readable body:
    a rejected request is answered 500 with the message of the
    rejection; an answer of the API whose status is no success is
    answered 500 with a message that contains that status and the whole
    body of the API's answer; a text without a bracketed array is
    answered 500 with the message of the parser. *)
Theorem action_reports_upstream (fetch : transport) (key : string)
    (request : ApiRoute.Request) (b : ApiRoute.Body) :
  ApiRoute.method request = "POST" -> key <> "" ->
  ApiRoute.body request = ret b ->
  let req := PostGenerateContent key (Gemini.build_prompt (ApiRoute.context_of b)) in
  (forall e, fetch req = throw e ->
     ApiRoute.action fetch (Some key) request = ([req], ApiRoute.failed e))
  /\ (forall r, fetch req = ret r -> ok r = false ->
        exists text,
          ApiRoute.action fetch (Some key) request
          = ([req], {| ApiRoute.status := 500;
                       ApiRoute.payload := ApiRoute.Failure (Text text) |})
          /\ Spec.includes text (Num.digits_of_Z (Z.of_nat (status r)))
          /\ Spec.includes text (body r))
  /\ (forall r data text,
        fetch req = ret r -> ok r = true -> response_json r = ret data ->
        Gemini.response_text data = ret text ->
        ~ Spec.has_bracketed_array text ->
        ApiRoute.action fetch (Some key) request
        = ([req],
           {| ApiRoute.status := 500;
              ApiRoute.payload :=
                ApiRoute.Failure
                  (Text "Could not parse recommendations from Gemini response") |})).
Proof.
  intros Hm Hk Hb req.
  rewrite (action_run _ _ _ _ Hm Hk Hb). cbv zeta. fold req.
  split; [|split].
  - intros e He. rewrite He. reflexivity.
  - intros r Hr Hok. rewrite Hr. cbn [rbind ret]. rewrite (non_success_status _ Hok).
    destruct (api_error_message r) as (text & Ht & H1 & H2).
    exists text. rewrite Ht. split; [|auto].
    unfold throw, ApiRoute.failed. cbn [message_of message_truthy].
    destruct text as [|x text]; [|reflexivity].
    exfalso. apply (f_equal (fun e => match e with Error m => String.length m | _ => 0 end)) in Ht.
    unfold Gemini.api_error in Ht. rewrite !length_append in Ht. simpl in Ht. lia.
  - intros r data text Hr Hok Hj Ht Hno. rewrite Hr. cbn [rbind ret].
    unfold Gemini.from_response. rewrite Hok, Hj. cbn [negb rbind ret]. rewrite Ht.
    cbn [rbind ret].
    apply match_array_none in Hno.
    pose proof (parse_recommendations_cases text) as Hc. rewrite Hno in Hc.
    rewrite Hc. reflexivity.
Qed.


Lemma action_reports_upstream_witness :
  exists text,
    ApiRoute.action (Sample.always Fixture.unavailable) (Some "key")
      (Fixture.post Fixture.no_body)
    = ([PostGenerateContent "key"
          (Gemini.build_prompt (ApiRoute.context_of Fixture.no_body))],
       {| ApiRoute.status := 500;
          ApiRoute.payload := ApiRoute.Failure (Text text) |})
    /\ Spec.includes text "503"
    /\ Spec.includes text "overloaded".
Proof.
  refine (proj1 (proj2 (action_reports_upstream (Sample.always Fixture.unavailable)
                          "key" (Fixture.post Fixture.no_body) Fixture.no_body
                          eq_refl _ eq_refl))
            Fixture.unavailable eq_refl eq_refl).
  discriminate.
Defined.
(** ** The prompt *)



Lemma build_prompt_unfold (ctx : Gemini.context) :
  Gemini.build_prompt ctx
  = "You are an AI shopping assistant. Analyze the following products and provide personalized recommendations." +:+ Gemini.lf +:+ Gemini.lf +:+
    (if Str.truthy (Gemini.or_empty (Gemini.currentProductTitle ctx)) then
       "Current Product: " +:+ Gemini.or_empty (Gemini.currentProductTitle ctx) +:+ Gemini.lf +:+
       (if Str.truthy (Gemini.or_empty (Gemini.currentProductDescription ctx))
        then "Description: " +:+
             Str.take 300 (Gemini.or_empty (Gemini.currentProductDescription ctx)) +:+
             Gemini.lf +:+ Gemini.lf
        else "")
     else "") +:+
    (if Str.truthy (Gemini.or_empty (Gemini.userQuery ctx))
     then "User Preference: " +:+ Gemini.or_empty (Gemini.userQuery ctx) +:+
          Gemini.lf +:+ Gemini.lf
     else "") +:+
    "Available Products:" +:+ Gemini.lf +:+
    Str.join Gemini.lf (Gemini.product_line <$> take 20 (Gemini.availableProducts ctx)) +:+
    Gemini.lf +:+ Gemini.lf +:+
    "Based on the context above, recommend 4-6 products that would be most relevant. " +:+
    "Return ONLY a JSON array of product handles (the handle is the URL-friendly identifier in parentheses), like this: [" +:+
    Str.dq "'product-handle-1', 'product-handle-2', 'product-handle-3', 'product-handle-4'" +:+
    "]" +:+ Gemini.lf +:+
    "Do not include any explanation, only the JSON array.".
Proof.
  unfold Gemini.build_prompt. cbv zeta.
  destruct (Gemini.currentProductTitle ctx) as [[|c t]|];
    destruct (Gemini.currentProductDescription ctx) as [[|c' d]|];
    destruct (Gemini.userQuery ctx) as [[|c'' q]|]; reflexivity.
Qed.



Lemma includes_trans (a b c : string) :
  Spec.includes a b -> Spec.includes b c -> Spec.includes a c.
Proof.
  intros (x & y & ->) (u & v & ->). exists (x +:+ u), (v +:+ y).
  rewrite !append_assoc. reflexivity.
Qed.

Lemma join_includes (sep x : string) (l : list string) :
  x ∈ l -> Spec.includes (Str.join sep l) x.
Proof.
  induction l as [|y l IH]; intros Hx; [inversion Hx|].
  apply elem_of_cons in Hx as [->|Hx].
  - destruct l as [|z l]; [apply includes_refl|].
    cbn [Str.join]. apply includes_append_r, includes_refl.
  - destruct l as [|z l]; [inversion Hx|].
    cbn [Str.join]. apply includes_append_l, includes_append_l, IH, Hx.
Qed.

(** X6: every one of the first 20 available products is listed in the
    prompt, with its title and, in parentheses, the handle the model is
    asked to return. *)
Theorem prompt_lists_handles (ctx : Gemini.context) (p : Product) :
  p ∈ take 20 (Gemini.availableProducts ctx) ->
  Spec.includes (Gemini.build_prompt ctx)
    ("- " +:+ title p +:+ " (" +:+ handle p +:+ ")").
Proof.
  intros Hp. rewrite build_prompt_unfold.
  do 7 apply includes_append_l. apply includes_append_r.
  apply includes_trans with (Gemini.product_line p).
  - apply join_includes, list_elem_of_fmap. exists p. auto.
  - unfold Gemini.product_line. cbv zeta.
    exists "", (if Str.truthy (Gemini.or_empty (description p))
                then ": " +:+ Str.take 100 (Gemini.or_empty (description p)) else "").
    rewrite append_nil_l, !append_assoc. reflexivity.
Qed.


Lemma prompt_lists_handles_witness :
  Spec.includes
    (Gemini.build_prompt (Fixture.context None None [Sample.product "red-shirt"]))
    "- red-shirt (red-shirt)".
Proof.
  apply (prompt_lists_handles
           (Fixture.context None None [Sample.product "red-shirt"])
           (Sample.product "red-shirt")).
  apply list_elem_of_here.
Defined.

(** ** Falling back *)

Lemma lib_token_not_string (P : list Product) (p : Product) (v : json) :
  (forall s, v <> JString s) ->
  find_r (Gemini.matches v) (p :: P) = throw TypeError.
Proof. intros Hv. destruct v; simpl; try reflexivity. destruct (Hv s eq_refl). Qed.

(** A token that is no string makes the mapping of the tokens throw, as
    soon as there is a product to compare it with. *)
Lemma map_r_token_not_string (matches : json -> Product -> result bool)
    (P : list Product) (T : list json) :
  (forall s, find_r (matches (JString s)) P
             = ret (List.find (fun p => match matches (JString s) p with
                                        | inr b => b
                                        | inl _ => false
                                        end) P)) ->
  (forall v, (forall s, v <> JString s) -> find_r (matches v) P = throw TypeError) ->
  (exists v, v ∈ T /\ forall s, v <> JString s) ->
  map_r (fun t => find_r (matches t) P) T = throw TypeError.
Proof.
  intros Hstr Hother. induction T as [|t T IH]; intros (v & Hv & Hns).
  - inversion Hv.
  - cbn [map_r].
    assert (Hcase : (exists s, t = JString s) \/ forall s, t <> JString s).
    { destruct t; try (right; intros s; discriminate). left. eexists. reflexivity. }
    destruct Hcase as [(s & ->)|Ht].
    + rewrite Hstr. unfold ret.
      apply elem_of_cons in Hv as [->|Hv]; [destruct (Hns s eq_refl)|].
      rewrite IH; [reflexivity|]. exists v. auto.
    + rewrite (Hother t Ht). reflexivity.
Qed.

Lemma widget_tokens_not_strings (P : list Product) (T : list json) :
  P <> [] -> (exists v, v ∈ T /\ forall s, v <> JString s) ->
  AIRecommender.match_tokens P T = throw TypeError.
Proof.
  intros HP HT. destruct P as [|p P]; [congruence|].
  unfold AIRecommender.match_tokens.
  rewrite (map_r_token_not_string AIRecommender.matches (p :: P) T); [reflexivity| | |exact HT].
  - intros s. apply widget_find_string.
  - intros v Hv. apply widget_token_not_string, Hv.
Qed.

Lemma lib_tokens_not_strings (P : list Product) (T : list json) :
  P <> [] -> (exists v, v ∈ T /\ forall s, v <> JString s) ->
  Gemini.match_tokens P T = throw TypeError.
Proof.
  intros HP HT. destruct P as [|p P]; [congruence|].
  unfold Gemini.match_tokens.
  rewrite (map_r_token_not_string Gemini.matches (p :: P) T); [reflexivity| | |exact HT].
  - intros s. apply lib_find_string.
  - intros v Hv. apply lib_token_not_string, Hv.
Qed.

Lemma lib_match_strings (P : list Product) (ts : list string) :
  Gemini.match_tokens P (JString <$> ts)
  = ret (take 6 (omap (fun t => List.find (Gemini.handle_matches t) P) ts)).
Proof.
  unfold Gemini.match_tokens, rbind.
  rewrite (map_r_pure
             (fun v => match v with
                       | JString t => List.find (Gemini.handle_matches t) P
                       | _ => None
                       end)).
  - simpl. unfold filter_Boolean. do 2 f_equal.
    induction ts as [|t ts IH]; [reflexivity|].
    cbn [fmap list_fmap omap list_omap] in *.
    destruct (List.find _ P); rewrite IH; reflexivity.
  - intros v Hv. apply list_elem_of_fmap in Hv as (t & -> & _).
    apply lib_find_string.
Qed.

Lemma map_r_no_products (matches : json -> Product -> result bool) (T : list json) :
  map_r (fun t => find_r (matches t) []) T = ret (List.map (fun _ => None) T).
Proof.
  induction T as [|t T IH]; [reflexivity|].
  cbn [map_r find_r List.map ret] in *. rewrite IH. reflexivity.
Qed.

Lemma filter_Boolean_nothing {A B} (T : list B) :
  filter_Boolean (List.map (fun _ => @None A) T) = [].
Proof. induction T as [|t T IH]; [reflexivity|exact IH]. Qed.

(** X7: [getRecommendationsWithFallback] never fails; it answers with
    the first six fallback products whenever [getGeminiRecommendations]
    throws (no key, in which case no request is issued; a rejected
    request; a status that is no success; a response it cannot read),
    and also when a recommendation that is no string meets a non-empty
    list of available products.  With no available product every
    recommendation is dropped, string or not, and the answer is the
    first four fallback products. *)
Theorem lib_falls_back (fetch : transport) (apiKey : option string)
    (ctx : Gemini.context) (F : list Product) :
  let run := Gemini.getGeminiRecommendations fetch apiKey ctx in
  let answer := Gemini.getRecommendationsWithFallback fetch apiKey ctx F in
  (forall e, snd run = throw e -> answer = (fst run, take 6 F))
  /\ (apiKey = None \/ apiKey = Some "" -> answer = ([], take 6 F))
  /\ (forall T,
        snd run = ret T -> Gemini.availableProducts ctx <> [] ->
        (exists v, v ∈ T /\ forall s, v <> JString s) ->
        answer = (fst run, take 6 F))
  /\ (forall T,
        snd run = ret T -> Gemini.availableProducts ctx = [] ->
        answer = (fst run, take 4 F)).
Proof.
  cbv zeta. unfold Gemini.getRecommendationsWithFallback.
  split; [|split; [|split]].
  - intros e He.
    destruct (Gemini.getGeminiRecommendations fetch apiKey ctx) as [log out].
    cbn [fst snd] in *. rewrite He. reflexivity.
  - intros [-> | ->]; reflexivity.
  - intros T HT HP Hv.
    destruct (Gemini.getGeminiRecommendations fetch apiKey ctx) as [log out].
    cbn [fst snd] in *. rewrite HT. unfold ret.
    rewrite (lib_tokens_not_strings _ _ HP Hv). reflexivity.
  - intros T HT HP.
    destruct (Gemini.getGeminiRecommendations fetch apiKey ctx) as [log out].
    cbn [fst snd] in *. rewrite HT, HP. unfold ret, Gemini.match_tokens.
    rewrite map_r_no_products. cbn [rbind ret].
    rewrite filter_Boolean_nothing. cbn [take]. unfold ret.
    rewrite lib_merge_empty. reflexivity.
Qed.

(** X8: [getRecommendationsWithFallback] when the model answered with
    strings.  The matched products are the first six of the products
    found for the tokens, in token order, a product being found for a
    token when its handle is the token or the token without its hyphens.
    With fewer than four of them and a non-empty fallback list, fallback
    products whose handle is not among the matched ones are appended
    until there are four; otherwise the matched products are the
    answer. *)
Theorem lib_answer (fetch : transport) (apiKey : option string)
    (ctx : Gemini.context) (F : list Product) (ts : list string) :
  snd (Gemini.getGeminiRecommendations fetch apiKey ctx) = ret (JString <$> ts) ->
  let M :=
    take 6 (omap (fun t => List.find (Gemini.handle_matches t)
                             (Gemini.availableProducts ctx)) ts) in
  snd (Gemini.getRecommendationsWithFallback fetch apiKey ctx F)
  = (if (length M <? 4) && (0 <? length F)
     then M ++ take (4 - length M) (Spec.unused M F)
     else M)
  /\ (forall p, p ∈ M ->
        p ∈ Gemini.availableProducts ctx
        /\ exists t, t ∈ ts /\ (handle p = t \/ handle p = Str.remove_hyphens t)).
Proof.
  intros Hrun M. split.
  - unfold Gemini.getRecommendationsWithFallback.
    destruct (Gemini.getGeminiRecommendations fetch apiKey ctx) as [log out].
    cbn [fst snd] in *. rewrite Hrun. unfold ret.
    pose proof (lib_match_strings (Gemini.availableProducts ctx) ts) as Hm.
    unfold ret in Hm. rewrite Hm. fold M.
    rewrite lib_merge_fill. apply lib_fill_eq.
  - intros p Hp. apply elem_of_take in Hp as (i & Hp & _).
    apply list_elem_of_lookup_2 in Hp.
    apply list_elem_of_omap in Hp as (t & Ht & Hfind).
    apply find_first in Hfind as (l1 & l2 & HP & _ & Hmatch).
    split.
    + rewrite HP. apply elem_of_app. right. apply list_elem_of_here.
    + exists t. split; [exact Ht|]. apply encodes_lib, Hmatch.
Qed.

Lemma lib_answer_witness :
  snd (Gemini.getRecommendationsWithFallback
         (Sample.always (Sample.ok_with (Sample.envelope (Str.dq "[\'red-shirt\']"))))
         (Some "key")
         (Fixture.context None None [Sample.product "redshirt"; Sample.product "blue-hat"])
         Sample.six)
  = [Sample.product "redshirt"; Sample.product "f1"; Sample.product "f2";
     Sample.product "f3"].
Proof.
  refine (proj1 (lib_answer
            (Sample.always (Sample.ok_with (Sample.envelope (Str.dq "[\'red-shirt\']"))))
            (Some "key")
            (Fixture.context None None [Sample.product "redshirt"; Sample.product "blue-hat"])
            Sample.six ["red-shirt"] _)).
  vm_compute. reflexivity.
Defined.

(** X9: the last conditional of both mergers, [recommended.length > 0 ?
    recommended : fallbackProducts.slice(0, 6)], never changes the
    result.  After the fill the list is empty only when the fallback
    list is empty, and the first six fallback products are then the
    empty list as well: the result is the filled list in every case. *)
Theorem final_conditional_redundant (M F : list Product) :
  (AIRecommender.fill M F = [] -> M = [] /\ F = [])
  /\ (Gemini.fill M F = [] -> M = [] /\ F = [])
  /\ AIRecommender.merge M F = AIRecommender.fill M F
  /\ Gemini.merge M F = Gemini.fill M F.
Proof.
  assert (Hfill : forall cap,
             0 < cap ->
             (if (length M <? 4) && (0 <? length F)
              then M ++ take (cap - length M) (Spec.unused M F)
              else M) = [] -> M = [] /\ F = []).
  { intros cap Hcap H. destruct M as [|m M].
    - split; [reflexivity|]. rewrite unused_nil in H.
      destruct F as [|f F]; [reflexivity|].
      cbn [length Nat.ltb Nat.leb andb app] in H.
      replace (cap - 0) with (S (cap - 1)) in H by lia. discriminate.
    - destruct ((length (m :: M) <? 4) && (0 <? length F)); discriminate. }
  split; [|split; [|split]].
  - rewrite widget_fill_eq. apply Hfill. lia.
  - rewrite lib_fill_eq. apply Hfill. lia.
  - apply widget_merge_fill.
  - apply lib_merge_fill.
Qed.


(** ** The two matchers *)




(** ** The widget *)

Lemma widget_fetch (fetch : transport) (pr : AIRecommender.props)
    (st : AIRecommender.state) :
  AIRecommender.availableProducts pr <> [] ->
  AIRecommender.fetchRecommendations fetch pr st
  = let req :=
      PostRecommendations (AIRecommender.currentProductTitle pr)
        (AIRecommender.currentProductDescription pr)
        (AIRecommender.summary <$> AIRecommender.availableProducts pr)
        (AIRecommender.userQuery pr) in
    match rbind (fetch req) (AIRecommender.from_response pr) with
    | inr recommended =>
        ([req], {| AIRecommender.recommendedProducts := recommended;
                   AIRecommender.loading := false;
                   AIRecommender.error := None |})
    | inl e =>
        ([req], {| AIRecommender.recommendedProducts :=
                     take 6 (AIRecommender.fallbackProducts pr);
                   AIRecommender.loading := false;
                   AIRecommender.error := Some e |})
    end.
Proof.
  intros HP. unfold AIRecommender.fetchRecommendations.
  destruct (AIRecommender.availableProducts pr) as [|p P]; [congruence|reflexivity].
Qed.

Lemma from_response_not_ok (pr : AIRecommender.props) (r : response) :
  ok r = false ->
  AIRecommender.from_response pr r = throw (Error "Failed to fetch recommendations").
Proof. intros Hok. unfold AIRecommender.from_response. rewrite Hok. reflexivity. Qed.

Lemma from_response_strings (pr : AIRecommender.props) (r : response) (data : json)
    (ts : list string) :
  ok r = true -> Json.parse (body r) = Some data ->
  Json.get data "recommendations" = Some (JArray (JString <$> ts)) ->
  let M :=
    take 6 (omap (fun t => List.find (AIRecommender.handle_matches t)
                             (AIRecommender.availableProducts pr)) ts) in
  AIRecommender.from_response pr r
  = ret (if (length M <? 4) && (0 <? length (AIRecommender.fallbackProducts pr))
         then M ++ take (6 - length M)
                     (Spec.unused M (AIRecommender.fallbackProducts pr))
         else M).
Proof.
  intros Hok Hb Hrec M.
  unfold AIRecommender.from_response, response_json. rewrite Hok, Hb. cbn [negb rbind ret].
  assert (HT : AIRecommender.recommendedHandles data = ret (JString <$> ts)).
  { unfold AIRecommender.recommendedHandles.
    destruct data; try discriminate. rewrite Hrec. reflexivity. }
  rewrite HT. cbn [rbind ret].
  pose proof (widget_match_strings (AIRecommender.availableProducts pr) ts) as Hm.
  unfold ret in Hm. rewrite Hm. fold M. cbn [rbind].
  rewrite widget_merge_fill, widget_fill_eq. reflexivity.
Qed.

(** X10: the failures of the widget.  With at least one available
    product, the widget issues one request and, when it fails, shows the
    first six fallback products and keeps the error: the rejection of
    the request; for an answer whose status is no success, always the
    error "Failed to fetch recommendations", whatever the body of the
    answer says; the syntax error of a body that is no JSON text; the
    type error of a recommendation that is no string, or of truthy
    [recommendations] that are no array. *)
Theorem widget_failures (fetch : transport) (pr : AIRecommender.props)
    (st : AIRecommender.state) :
  AIRecommender.availableProducts pr <> [] ->
  let req :=
    PostRecommendations (AIRecommender.currentProductTitle pr)
      (AIRecommender.currentProductDescription pr)
      (AIRecommender.summary <$> AIRecommender.availableProducts pr)
      (AIRecommender.userQuery pr) in
  let fallen e :=
    ([req], {| AIRecommender.recommendedProducts :=
                 take 6 (AIRecommender.fallbackProducts pr);
               AIRecommender.loading := false;
               AIRecommender.error := Some e |}) in
  (forall e, fetch req = throw e ->
     AIRecommender.fetchRecommendations fetch pr st = fallen e)
  /\ (forall r, fetch req = ret r -> ok r = false ->
        AIRecommender.fetchRecommendations fetch pr st
        = fallen (Error "Failed to fetch recommendations"))
  /\ (forall r, fetch req = ret r -> ok r = true -> Json.parse (body r) = None ->
        AIRecommender.fetchRecommendations fetch pr st = fallen SyntaxError)
  /\ (forall r data T,
        fetch req = ret r -> ok r = true -> Json.parse (body r) = Some data ->
        AIRecommender.recommendedHandles data = ret T ->
        (exists v, v ∈ T /\ forall s, v <> JString s) ->
        AIRecommender.fetchRecommendations fetch pr st = fallen TypeError)
  /\ (forall r data v,
        fetch req = ret r -> ok r = true -> Json.parse (body r) = Some data ->
        Json.get data "recommendations" = Some v -> Json.truthy v = true ->
        (forall items, v <> JArray items) ->
        AIRecommender.fetchRecommendations fetch pr st = fallen TypeError).
Proof.
  intros HP req fallen. rewrite (widget_fetch _ _ _ HP). cbv zeta. fold req.
  split; [|split; [|split; [|split]]].
  - intros e ->. reflexivity.
  - intros r -> Hok. cbn [rbind ret]. rewrite (from_response_not_ok _ _ Hok).
    reflexivity.
  - intros r -> Hok Hb. cbn [rbind ret]. unfold AIRecommender.from_response, response_json.
    rewrite Hok, Hb. reflexivity.
  - intros r data T -> Hok Hb HT Hv. cbn [rbind ret].
    unfold AIRecommender.from_response, response_json.
    rewrite Hok, Hb. cbn [negb rbind ret]. rewrite HT. cbn [rbind ret].
    rewrite (widget_tokens_not_strings _ _ HP Hv). reflexivity.
  - intros r data v -> Hok Hb Hv Ht Hna. cbn [rbind ret].
    unfold AIRecommender.from_response, response_json.
    rewrite Hok, Hb. cbn [negb rbind ret].
    assert (HT : AIRecommender.recommendedHandles data = throw TypeError).
    { unfold AIRecommender.recommendedHandles.
      destruct data; try discriminate. rewrite Hv, Ht.
      destruct v; try reflexivity. destruct (Hna items eq_refl). }
    rewrite HT. reflexivity.
Qed.

Lemma widget_failures_witness :
  let pr := {| AIRecommender.currentProductTitle := None;
               AIRecommender.currentProductDescription := None;
               AIRecommender.availableProducts := [Sample.product "a"];
               AIRecommender.userQuery := None;
               AIRecommender.fallbackProducts := Sample.six |} in
  AIRecommender.fetchRecommendations (Sample.always Fixture.unavailable) pr
    AIRecommender.initial
  = ([PostRecommendations None None [Sample.product "a"] None],
     {| AIRecommender.recommendedProducts := Sample.six;
        AIRecommender.loading := false;
        AIRecommender.error := Some (Error "Failed to fetch recommendations") |}).
Proof.
  intros pr.
  refine (proj1 (proj2 (widget_failures (Sample.always Fixture.unavailable) pr
                          AIRecommender.initial _))
            Fixture.unavailable eq_refl eq_refl).
  discriminate.
Defined.

(** X11: an answer without recommendations is no failure.  When the
    body of a successful answer is a JSON value other than [null] whose
    [recommendations] are missing or falsy, the widget shows the first
    six fallback products and sets no error. *)
Theorem widget_no_recommendations (fetch : transport) (pr : AIRecommender.props)
    (st : AIRecommender.state) (r : response) (data : json) :
  AIRecommender.availableProducts pr <> [] ->
  let req :=
    PostRecommendations (AIRecommender.currentProductTitle pr)
      (AIRecommender.currentProductDescription pr)
      (AIRecommender.summary <$> AIRecommender.availableProducts pr)
      (AIRecommender.userQuery pr) in
  fetch req = ret r -> ok r = true -> Json.parse (body r) = Some data ->
  data <> JNull ->
  (Json.get data "recommendations" = None
   \/ exists v, Json.get data "recommendations" = Some v /\ Json.truthy v = false) ->
  AIRecommender.fetchRecommendations fetch pr st
  = ([req], {| AIRecommender.recommendedProducts :=
                 take 6 (AIRecommender.fallbackProducts pr);
               AIRecommender.loading := false;
               AIRecommender.error := None |}).
Proof.
  intros HP req Hr Hok Hb Hnull Hrec.
  rewrite (widget_fetch _ _ _ HP). cbv zeta. fold req. rewrite Hr. cbn [rbind ret].
  unfold AIRecommender.from_response, response_json. rewrite Hok, Hb. cbn [negb rbind ret].
  assert (HT : AIRecommender.recommendedHandles data = ret []).
  { unfold AIRecommender.recommendedHandles.
    destruct data; try congruence;
      destruct Hrec as [-> | (v & -> & ->)]; reflexivity. }
  rewrite HT. cbn [rbind ret]. unfold AIRecommender.match_tokens.
  cbn [map_r rbind ret filter_Boolean omap list_omap take].
  rewrite widget_merge_empty. reflexivity.
Qed.

Lemma widget_no_recommendations_witness :
  let pr := {| AIRecommender.currentProductTitle := None;
               AIRecommender.currentProductDescription := None;
               AIRecommender.availableProducts := [Sample.product "a"];
               AIRecommender.userQuery := None;
               AIRecommender.fallbackProducts := Sample.six |} in
  let r := Sample.ok_with (Str.dq "{'message':'Use POST to get recommendations'}") in
  AIRecommender.fetchRecommendations (Sample.always r) pr AIRecommender.initial
  = ([PostRecommendations None None [Sample.product "a"] None],
     {| AIRecommender.recommendedProducts := Sample.six;
        AIRecommender.loading := false;
        AIRecommender.error := None |}).
Proof.
  intros pr r.
  refine (widget_no_recommendations (Sample.always r) pr AIRecommender.initial r
            (JObject [("message", JString "Use POST to get recommendations")])
            _ eq_refl eq_refl _ _ _).
  - discriminate.
  - vm_compute. reflexivity.
  - discriminate.
  - left. reflexivity.
Defined.

(** X12: the widget when the route answered with strings.  The matched
    products are the first six of the products found for the tokens, in
    token order; with fewer than four of them and a non-empty fallback
    list, fallback products whose handle is not among the matched ones
    are appended until there are six.  No error is set, and one request
    was issued, which carries every available product. *)
Theorem widget_answer (fetch : transport) (pr : AIRecommender.props)
    (st : AIRecommender.state) (r : response) (data : json) (ts : list string) :
  AIRecommender.availableProducts pr <> [] ->
  let req :=
    PostRecommendations (AIRecommender.currentProductTitle pr)
      (AIRecommender.currentProductDescription pr)
      (AIRecommender.summary <$> AIRecommender.availableProducts pr)
      (AIRecommender.userQuery pr) in
  fetch req = ret r -> ok r = true -> Json.parse (body r) = Some data ->
  Json.get data "recommendations" = Some (JArray (JString <$> ts)) ->
  let M :=
    take 6 (omap (fun t => List.find (AIRecommender.handle_matches t)
                             (AIRecommender.availableProducts pr)) ts) in
  AIRecommender.fetchRecommendations fetch pr st
  = ([req],
     {| AIRecommender.recommendedProducts :=
          if (length M <? 4) && (0 <? length (AIRecommender.fallbackProducts pr))
          then M ++ take (6 - length M)
                      (Spec.unused M (AIRecommender.fallbackProducts pr))
          else M;
        AIRecommender.loading := false;
        AIRecommender.error := None |}).
Proof.
  intros HP req Hr Hok Hb Hrec M.
  rewrite (widget_fetch _ _ _ HP). cbv zeta. fold req. rewrite Hr. cbn [rbind ret].
  rewrite (from_response_strings pr r data ts Hok Hb Hrec). reflexivity.
Qed.

Lemma widget_answer_witness :
  let pr := {| AIRecommender.currentProductTitle := None;
               AIRecommender.currentProductDescription := None;
               AIRecommender.availableProducts :=
                 [Sample.product "red-shirt"; Sample.product "blue-hat"];
               AIRecommender.userQuery := None;
               AIRecommender.fallbackProducts := Sample.six |} in
  let r := Sample.ok_with (Str.dq "{'recommendations':['Red Shirt','green-sock']}") in
  AIRecommender.recommendedProducts
    (snd (AIRecommender.fetchRecommendations (Sample.always r) pr AIRecommender.initial))
  = Sample.product "red-shirt"
    :: [Sample.product "f1"; Sample.product "f2"; Sample.product "f3";
        Sample.product "f4"; Sample.product "f5"].
Proof.
  intros pr r.
  rewrite (widget_answer (Sample.always r) pr AIRecommender.initial r
             (JObject [("recommendations", JArray [JString "Red Shirt"; JString "green-sock"])])
             ["Red Shirt"; "green-sock"]);
    [vm_compute; reflexivity|discriminate|reflexivity|reflexivity
    |vm_compute; reflexivity|reflexivity].
Defined.

Lemma take_nil_inv {A} (n : nat) (l : list A) : take (S n) l = [] -> l = [].
Proof. destruct l; [reflexivity|discriminate]. Qed.

Lemma fetch_state_cases (fetch : transport) (pr : AIRecommender.props)
    (st : AIRecommender.state) :
  let st' := snd (AIRecommender.fetchRecommendations fetch pr st) in
  AIRecommender.loading st' = false
  /\ ((AIRecommender.error st' = None
       /\ length (AIRecommender.recommendedProducts st') <= 6)
      \/ AIRecommender.recommendedProducts st'
         = take 6 (AIRecommender.fallbackProducts pr)).
Proof.
  cbv zeta.
  pose proof (widget_state_merged fetch pr st) as [Hlen _].
  revert Hlen. unfold AIRecommender.fetchRecommendations.
  destruct (AIRecommender.availableProducts pr) as [|p P].
  - cbn [snd AIRecommender.loading AIRecommender.recommendedProducts]. auto.
  - destruct (rbind _ _) as [e|out];
      cbn [snd AIRecommender.loading AIRecommender.recommendedProducts AIRecommender.error];
      auto.
Qed.

(** X13: what the widget renders once [fetchRecommendations] has run,
    from any earlier state.  It never shows the loading notice and never
    more than six products.  The error panel appears only with an empty
    fallback list, so the grid of fallback products under it is never
    rendered.  The subtitle "(Some recommendations may be AI-powered)"
    appears only above the first six fallback products. *)
Theorem widget_view (fetch : transport) (pr : AIRecommender.props)
    (st : AIRecommender.state) :
  let st' := snd (AIRecommender.fetchRecommendations fetch pr st) in
  match AIRecommenderView.render pr st' with
  | AIRecommenderView.Loading => False
  | AIRecommenderView.ErrorPanel grid =>
      grid = None /\ AIRecommender.fallbackProducts pr = []
  | AIRecommenderView.Nothing => AIRecommender.recommendedProducts st' = []
  | AIRecommenderView.Grid subtitle products =>
      products = AIRecommender.recommendedProducts st'
      /\ products <> [] /\ length products <= 6
      /\ (subtitle = true ->
          products = take 6 (AIRecommender.fallbackProducts pr))
  end.
Proof.
  cbv zeta. destruct (fetch_state_cases fetch pr st) as [Hload Hcases].
  pose proof (widget_state_merged fetch pr st) as [Hlen _].
  cbv zeta in *. unfold AIRecommenderView.render. rewrite Hload.
  set (st' := snd (AIRecommender.fetchRecommendations fetch pr st)) in *.
  destruct (AIRecommender.recommendedProducts st') as [|x out] eqn:Hout.
  - cbn [length Nat.eqb]. rewrite andb_true_r.
    destruct (AIRecommenderView.error_truthy (AIRecommender.error st')) eqn:Herr;
      [|reflexivity].
    destruct Hcases as [[Hnone _]|Hfall].
    + rewrite Hnone in Herr. discriminate.
    + symmetry in Hfall. apply take_nil_inv in Hfall. rewrite Hfall. split; reflexivity.
  - cbn [length Nat.eqb]. rewrite andb_false_r.
    split; [reflexivity|]. split; [discriminate|]. split; [exact Hlen|].
    intros Herr. destruct Hcases as [[Hnone _]|Hfall]; [|exact Hfall].
    rewrite Hnone in Herr. discriminate.
Qed.

(** ** The flattened record of a bundle *)

(** What [format_step] assigns for a field. *)
Lemma format_step_value (acc : Bundle.object) (f : Bundle.field) :
  Bundle.key f <> "products" -> Bundle.key f <> "__proto__" ->
  Bundle.own (Bundle.format_step acc f) !! Bundle.key f
  = Some (if String.eqb (Bundle.type f) "rich_text_field"
          then Bundle.FText (Bundle.extractPlainText (Bundle.value f))
          else
            match (if String.eqb (Bundle.type f) "file_reference"
                   then Bundle.formatImageReference (Bundle.reference_of f)
                   else None)
            with
            | Some (u, alt) => Bundle.FImage u alt
            | None => Bundle.raw (Bundle.value f)
            end).
Proof.
  intros Hp Hproto. unfold Bundle.format_step.
  destruct (String.eqb_spec (Bundle.key f) "products"); [contradiction|].
  destruct (String.eqb (Bundle.type f) "rich_text_field");
    [apply assign_lookup, Hproto|].
  destruct (if String.eqb (Bundle.type f) "file_reference" then _ else _) as [[u alt]|];
    apply assign_lookup, Hproto.
Qed.

Lemma format_step_products (acc : Bundle.object) (f : Bundle.field) :
  Bundle.key f = "products" -> Bundle.format_step acc f = acc.
Proof. intros Hk. unfold Bundle.format_step. rewrite Hk. reflexivity. Qed.

(** Every other field is one assignment, of [null] exactly when the
    field has no value and is neither rich text nor a file reference
    that resolves. *)
Lemma format_step_assign (acc : Bundle.object) (f : Bundle.field) :
  Bundle.key f <> "products" ->
  exists v, Bundle.format_step acc f = Bundle.assign (Bundle.key f) v acc
            /\ (v = Bundle.FNull <-> Spec.assigns_null f).
Proof.
  intros Hp. unfold Bundle.format_step, Spec.assigns_null.
  destruct (String.eqb_spec (Bundle.key f) "products"); [contradiction|].
  destruct (String.eqb_spec (Bundle.type f) "rich_text_field") as [Hr|Hr].
  { eexists. split; [reflexivity|]. split; [discriminate|]. intros (H & _). contradiction. }
  assert (Hraw : Bundle.raw (Bundle.value f) = Bundle.FNull <-> Bundle.value f = None).
  { destruct (Bundle.value f); split; (discriminate || reflexivity). }
  destruct (String.eqb_spec (Bundle.type f) "file_reference") as [Hf|Hf].
  - destruct (Bundle.formatImageReference _) as [[u alt]|] eqn:Hi.
    + eexists. split; [reflexivity|]. split; [discriminate|].
      intros (_ & H & _). discriminate (H Hf).
    + eexists. split; [reflexivity|]. rewrite Hraw. tauto.
  - eexists. split; [reflexivity|]. rewrite Hraw. tauto.
Qed.

Lemma fold_step_keys (fs : list Bundle.field) (acc : Bundle.object) (k : string) :
  k <> "__proto__" ->
  is_Some (Bundle.own (List.fold_left Bundle.format_step fs acc) !! k)
  <-> is_Some (Bundle.own acc !! k)
      \/ (k <> "products" /\ exists f, f ∈ fs /\ Bundle.key f = k).
Proof.
  intros Hq. revert acc. induction fs as [|f fs IH]; intros acc.
  - cbn [List.fold_left]. split; [auto|]. intros [H|(_ & f & Hf & _)]; [exact H|inversion Hf].
  - cbn [List.fold_left]. rewrite IH. split.
    + intros [H|(H1 & g & Hg & Hk)].
      * destruct (String.eqb_spec (Bundle.key f) k) as [Hfk|Hfk].
        -- destruct (String.eqb_spec k "products") as [Hp|Hp].
           { left. rewrite format_step_products in H by congruence. exact H. }
           right. split; [exact Hp|].
           exists f. split; [apply list_elem_of_here|exact Hfk].
        -- left. rewrite format_step_other in H by exact Hfk. exact H.
      * right. split; [exact H1|].
        exists g. split; [apply list_elem_of_further, Hg|exact Hk].
    + intros [H|(H1 & g & Hg & Hk)].
      * left. destruct (String.eqb_spec (Bundle.key f) k) as [Hfk|Hfk].
        -- destruct (String.eqb_spec k "products") as [Hp|Hp].
           { rewrite format_step_products by congruence. exact H. }
           subst k. rewrite format_step_value by assumption. eexists. reflexivity.
        -- rewrite format_step_other by exact Hfk. exact H.
      * apply elem_of_cons in Hg as [->|Hg].
        -- left. subst k. rewrite format_step_value by assumption. eexists. reflexivity.
        -- right. split; [exact H1|]. exists g. auto.
Qed.

Lemma format_fields_no_products (fs : list Bundle.field) :
  Bundle.formatBundleFields fs !! "products" = None.
Proof.
  unfold Bundle.formatBundleFields, Bundle.reduce.
  destruct (Bundle.own (List.fold_left Bundle.format_step fs Bundle.empty_object)
              !! "products") eqn:E; [|reflexivity].
  assert (Hs : is_Some (Bundle.own (List.fold_left Bundle.format_step fs Bundle.empty_object)
                          !! "products"))
    by (eexists; exact E).
  apply fold_step_keys in Hs as [[x Hx]|(Hp & _)]; [discriminate|congruence|discriminate].
Qed.

(** *** The key [__proto__] *)

(** A step on a field of the key [__proto__]: while the setter is in
    reach it adds no property, and the object loses its prototype when
    the field assigns [null]; afterwards the key is set like any other. *)
Lemma proto_step (acc : Bundle.object) (f : Bundle.field) :
  Bundle.key f = "__proto__" ->
  if Bundle.inherits acc then
    Bundle.own (Bundle.format_step acc f) = Bundle.own acc
    /\ (Bundle.inherits (Bundle.format_step acc f) = false <-> Spec.assigns_null f)
  else
    is_Some (Bundle.own (Bundle.format_step acc f) !! "__proto__")
    /\ Bundle.inherits (Bundle.format_step acc f) = false.
Proof.
  intros Hk.
  destruct (format_step_assign acc f) as (v & -> & Hv); [rewrite Hk; discriminate|].
  unfold Bundle.assign. rewrite Hk.
  change (String.eqb "__proto__" "__proto__") with true. cbn [andb].
  destruct (Bundle.inherits acc) eqn:Hi; cbn [Bundle.own Bundle.inherits].
  - split; [reflexivity|]. rewrite <- Hv. destruct v; split; congruence.
  - split; [|reflexivity]. rewrite lookup_insert_eq. eexists. reflexivity.
Qed.

Lemma other_step (acc : Bundle.object) (f : Bundle.field) :
  Bundle.key f <> "__proto__" ->
  Bundle.inherits (Bundle.format_step acc f) = Bundle.inherits acc.
Proof.
  intros Hk. unfold Bundle.format_step, Bundle.assign.
  destruct (String.eqb_spec (Bundle.key f) "__proto__"); [contradiction|].
  cbn [andb].
  destruct (String.eqb (Bundle.key f) "products"); [reflexivity|].
  destruct (String.eqb (Bundle.type f) "rich_text_field"); [reflexivity|].
  destruct (if String.eqb (Bundle.type f) "file_reference" then _ else _) as [[u alt]|];
    reflexivity.
Qed.

(** An own property stays, and an object without prototype stays so. *)
Lemma step_keeps (acc : Bundle.object) (f : Bundle.field) (k : string) :
  (is_Some (Bundle.own acc !! k) -> is_Some (Bundle.own (Bundle.format_step acc f) !! k))
  /\ (Bundle.inherits acc = false -> Bundle.inherits (Bundle.format_step acc f) = false).
Proof.
  assert (H : forall key v,
             (is_Some (Bundle.own acc !! k)
              -> is_Some (Bundle.own (Bundle.assign key v acc) !! k))
             /\ (Bundle.inherits acc = false
                 -> Bundle.inherits (Bundle.assign key v acc) = false)).
  { intros key v. unfold Bundle.assign.
    destruct (String.eqb key "__proto__" && Bundle.inherits acc) eqn:E;
      cbn [Bundle.own Bundle.inherits].
    - split; [auto|]. intros Hi. rewrite Hi, andb_false_r in E. discriminate.
    - split; [|auto]. intros Hs. destruct (String.eqb_spec key k) as [->|Hne].
      + rewrite lookup_insert_eq. eexists. reflexivity.
      + rewrite lookup_insert_ne by exact Hne. exact Hs. }
  unfold Bundle.format_step.
  destruct (String.eqb (Bundle.key f) "products"); [auto|].
  destruct (String.eqb (Bundle.type f) "rich_text_field"); [apply H|].
  destruct (if String.eqb (Bundle.type f) "file_reference" then _ else _) as [[u alt]|];
    apply H.
Qed.

Lemma fold_keeps (fs : list Bundle.field) (acc : Bundle.object) (k : string) :
  is_Some (Bundle.own acc !! k) ->
  is_Some (Bundle.own (List.fold_left Bundle.format_step fs acc) !! k).
Proof.
  revert acc. induction fs as [|f fs IH]; intros acc H; [exact H|].
  cbn [List.fold_left]. apply IH, step_keeps, H.
Qed.

(** The fields [f] and [g] have the key [__proto__], [f] assigns [null]
    and [g] comes after it. *)
Lemma fold_step_proto (fs : list Bundle.field) (acc : Bundle.object) :
  is_Some (Bundle.own (List.fold_left Bundle.format_step fs acc) !! "__proto__")
  <-> is_Some (Bundle.own acc !! "__proto__")
      \/ (Bundle.inherits acc = false
          /\ exists g, g ∈ fs /\ Bundle.key g = "__proto__")
      \/ (exists pre f mid g post,
             fs = pre ++ f :: mid ++ g :: post
             /\ Bundle.key f = "__proto__" /\ Spec.assigns_null f
             /\ Bundle.key g = "__proto__").
Proof.
  revert acc. induction fs as [|f fs IH]; intros acc.
  - cbn [List.fold_left]. split; [auto|].
    intros [H|[(_ & g & Hg & _)|(pre & f & mid & g & post & H & _)]];
      [exact H|inversion Hg|destruct pre; discriminate].
  - cbn [List.fold_left]. rewrite IH. clear IH.
    destruct (String.eqb_spec (Bundle.key f) "__proto__") as [Hk|Hk].
    + pose proof (proto_step acc f Hk) as Hstep.
      destruct (Bundle.inherits acc) eqn:Hi.
      * destruct Hstep as [Hown Hnull]. rewrite Hown, Hnull. split.
        -- intros [H|[(Hn & g & Hg & Hg')|(pre & f' & mid & g & post & -> & H)]].
           ++ left. exact H.
           ++ right. right. apply list_elem_of_split in Hg as (mid & post & ->).
              exists [], f, mid, g, post. auto.
           ++ right. right. exists (f :: pre), f', mid, g, post. auto.
        -- intros [H|[(Hn & _)|(pre & f' & mid & g & post & Hfs & Hf' & Hn & Hg)]];
             [left; exact H|discriminate|].
           destruct pre as [|p pre]; injection Hfs as -> ->.
           ++ right. left. split; [exact Hn|]. exists g. split; [|exact Hg].
              apply elem_of_app. right. apply list_elem_of_here.
           ++ right. right. exists pre, f', mid, g, post. auto.
      * destruct Hstep as [Hown Hstay]. split.
        -- intros _. right. left. split; [reflexivity|].
           exists f. split; [apply list_elem_of_here|exact Hk].
        -- intros _. left. exact Hown.
    + rewrite (format_step_other _ _ _ Hk), (other_step _ _ Hk). split.
      * intros [H|[(Hn & g & Hg & Hg')|(pre & f' & mid & g & post & -> & H)]].
        -- left. exact H.
        -- right. left. split; [exact Hn|]. exists g. split; [|exact Hg'].
           apply list_elem_of_further, Hg.
        -- right. right. exists (f :: pre), f', mid, g, post. auto.
      * intros [H|[(Hn & g & Hg & Hg')|(pre & f' & mid & g & post & Hfs & Hf' & Hn & Hg)]].
        -- left. exact H.
        -- right. left. split; [exact Hn|]. exists g. split; [|exact Hg'].
           apply elem_of_cons in Hg as [->|Hg]; [contradiction|exact Hg].
        -- destruct pre as [|p pre]; injection Hfs as -> ->; [contradiction|].
           right. right. exists pre, f', mid, g, post. auto.
Qed.

(** X14: the keys of the flattened record.  [formatBundleFields] gives
    the record one property for every key that occurs among the fields,
    except [products], which is always left out, and [__proto__]; it has
    no other property.  An assignment to [__proto__] reaches the setter
    of the prototype and creates no property, until a field of that key
    assigns [null]: the record has the property [__proto__] exactly when
    a field of that key comes after a field of that key that assigns
    [null]. *)
Theorem formatBundleFields_keys (fs : list Bundle.field) (k : string) :
  (k <> "__proto__" ->
   (is_Some (Bundle.formatBundleFields fs !! k)
    <-> k <> "products" /\ exists f, f ∈ fs /\ Bundle.key f = k))
  /\ (is_Some (Bundle.formatBundleFields fs !! "__proto__")
      <-> exists pre f mid g post,
            fs = pre ++ f :: mid ++ g :: post
            /\ Bundle.key f = "__proto__" /\ Spec.assigns_null f
            /\ Bundle.key g = "__proto__")
  /\ Bundle.formatBundleFields fs !! "products" = None.
Proof.
  split; [|split; [|apply format_fields_no_products]].
  - intros Hk. unfold Bundle.formatBundleFields, Bundle.reduce.
    rewrite (fold_step_keys _ _ _ Hk). cbn [Bundle.own Bundle.empty_object].
    rewrite lookup_empty. split; [intros [[x Hx]|H]; [discriminate|exact H]|auto].
  - unfold Bundle.formatBundleFields, Bundle.reduce. rewrite fold_step_proto.
    cbn [Bundle.own Bundle.inherits Bundle.empty_object]. rewrite lookup_empty.
    split; [intros [[x Hx]|[(H & _)|H]]; [discriminate|discriminate|exact H]|auto].
Qed.

(** X15: the value of a property of the flattened record.  The last
    field of a key decides: a field of type [rich_text_field] gives the
    plain text of its value; a field of any type other than
    [rich_text_field] and [file_reference] gives its value as it is,
    [null] included. *)
Theorem formatBundleFields_value (pre post : list Bundle.field) (f : Bundle.field) :
  Bundle.key f <> "products" -> Bundle.key f <> "__proto__" ->
  Forall (fun g => Bundle.key g <> Bundle.key f) post ->
  (Bundle.type f = "rich_text_field" ->
   Bundle.formatBundleFields (pre ++ f :: post) !! Bundle.key f
   = Some (Bundle.FText (Bundle.extractPlainText (Bundle.value f))))
  /\ (Bundle.type f <> "rich_text_field" -> Bundle.type f <> "file_reference" ->
      Bundle.formatBundleFields (pre ++ f :: post) !! Bundle.key f
      = Some (Bundle.raw (Bundle.value f))).
Proof.
  intros Hp Hq Hpost.
  rewrite format_fields_app. cbn [List.fold_left].
  rewrite (fold_step_other _ _ _ Hpost), (format_step_value _ _ Hp Hq).
  split.
  - intros ->. reflexivity.
  - intros Hr Hf.
    destruct (String.eqb_spec (Bundle.type f) "rich_text_field"); [contradiction|].
    destruct (String.eqb_spec (Bundle.type f) "file_reference"); [contradiction|].
    reflexivity.
Qed.

Lemma formatBundleFields_value_witness :
  Bundle.formatBundleFields
    [{| Bundle.key := "description";
        Bundle.value := Some "first";
        Bundle.type := "single_line_text_field";
        Bundle.reference_of := None;
        Bundle.references := None |};
     {| Bundle.key := "description";
        Bundle.value := Some (Str.dq "{'type':'root','children':[{'type':'text','value':'Two  shirts'}]}");
        Bundle.type := "rich_text_field";
        Bundle.reference_of := None;
        Bundle.references := None |}]
  !! "description"
  = Some (Bundle.FText "Two shirts").
Proof.
  refine (proj1 (formatBundleFields_value
            [{| Bundle.key := "description";
                Bundle.value := Some "first";
                Bundle.type := "single_line_text_field";
                Bundle.reference_of := None;
                Bundle.references := None |}] []
            {| Bundle.key := "description";
               Bundle.value := Some (Str.dq "{'type':'root','children':[{'type':'text','value':'Two  shirts'}]}");
               Bundle.type := "rich_text_field";
               Bundle.reference_of := None;
               Bundle.references := None |} _ _ _) eq_refl);
    [discriminate|discriminate|constructor].
Defined.


(** ** The products of a bundle *)

Lemma collect_field_elem (f : Bundle.field) (p : Bundle.ProductRef) :
  p ∈ Bundle.collect_field f
  <-> Bundle.isProductField f = true
      /\ (Bundle.reference_of f = Some (Bundle.RProduct p)
          \/ exists nodes, Bundle.references f = Some nodes
                           /\ Bundle.RProduct p ∈ nodes).
Proof.
  unfold Bundle.collect_field.
  destruct (Bundle.isProductField f); [|split; [intros H; inversion H|intros [H _]; discriminate]].
  rewrite elem_of_app, list_elem_of_omap.
  split.
  - intros [H|(r & Hr & Hp)]; (split; [reflexivity|]).
    + left. destruct (Bundle.reference_of f) as [[q| | |]|]; try (inversion H; fail).
      apply list_elem_of_singleton in H. congruence.
    + right. destruct (Bundle.references f) as [nodes|]; [|inversion Hr].
      exists nodes. split; [reflexivity|].
      destruct r; try discriminate. injection Hp as ->. exact Hr.
  - intros [_ [H|(nodes & Hn & Hp)]].
    + left. rewrite H. apply list_elem_of_here.
    + right. exists (Bundle.RProduct p). rewrite Hn. split; [exact Hp|reflexivity].
Qed.

(** X16: the products of a bundle.  [collectProducts] takes them from
    the fields of type [product_reference] and [list.product_reference]
    only, whatever their key; from such a field it takes the single
    reference and the nodes of the reference list that are products.  It
    keeps the order of the fields and removes no duplicate, and every
    product it returns has its first variant, or none, as
    [firstVariant]. *)
Theorem collectProducts_fields (fs fs' : list Bundle.field) :
  Bundle.collectProducts (fs ++ fs')
  = Bundle.collectProducts fs ++ Bundle.collectProducts fs'
  /\ (forall np,
        np ∈ Bundle.collectProducts fs
        <-> exists f p,
              f ∈ fs /\ Bundle.isProductField f = true
              /\ (Bundle.reference_of f = Some (Bundle.RProduct p)
                  \/ exists nodes, Bundle.references f = Some nodes
                                   /\ Bundle.RProduct p ∈ nodes)
              /\ np = Bundle.normalizeProduct p)
  /\ Forall
       (fun np =>
          Bundle.firstVariant np = List.head (Bundle.variants (Bundle.product np)))
       (Bundle.collectProducts fs)
  /\ (Forall (fun f => Bundle.isProductField f = false) fs ->
      Bundle.collectProducts fs = []).
Proof.
  unfold Bundle.collectProducts. split; [|split; [|split]].
  - rewrite bind_app, fmap_app. reflexivity.
  - intros np. rewrite list_elem_of_fmap. split.
    + intros (p & -> & Hp). apply list_elem_of_bind in Hp as (f & Hp & Hf).
      apply collect_field_elem in Hp as [Ht Href].
      exists f, p. auto.
    + intros (f & p & Hf & Ht & Href & ->). exists p. split; [reflexivity|].
      apply list_elem_of_bind. exists f. split; [|exact Hf].
      apply collect_field_elem. auto.
  - apply Forall_fmap, Forall_forall. intros p _. reflexivity.
  - intros Hall. induction Hall as [|f l Hf _ IH]; [reflexivity|].
    cbn [mbind list_bind fmap list_fmap app] in *.
    unfold Bundle.collect_field at 1. rewrite Hf. exact IH.
Qed.

(** ** The bundle page *)

(** X17: what [loader] returns.  Without a metaobject it throws the 404
    response.  Otherwise the bundle is the flattened record of the
    fields with the id and the handle of the metaobject under it: a
    field with the key [id] or [handle] replaces them, every other key
    reads as in the flattened record, and [products] is never a key of
    the bundle.  The products are those of [collectProducts], and the
    pricing is computed from these products and this bundle. *)
Theorem loader_bundle (meta : Bundle.metaobject) :
  Bundle.loader None = None
  /\ exists data,
       Bundle.loader (Some meta) = Some data
       /\ Bundle.products data = Bundle.collectProducts (Bundle.fields meta)
       /\ Bundle.pricing data = Bundle.price (Bundle.products data) (Bundle.bundle data)
       /\ (forall k, k <> "id" -> k <> "handle" ->
             Bundle.bundle data !! k
             = Bundle.formatBundleFields (Bundle.fields meta) !! k)
       /\ Bundle.bundle data !! "id"
          = Some (default (Bundle.FText (Bundle.meta_id meta))
                    (Bundle.formatBundleFields (Bundle.fields meta) !! "id"))
       /\ Bundle.bundle data !! "handle"
          = Some (default (Bundle.FText (Bundle.meta_handle meta))
                    (Bundle.formatBundleFields (Bundle.fields meta) !! "handle"))
       /\ Bundle.bundle data !! "products" = None.
Proof.
  split; [reflexivity|]. eexists. split; [reflexivity|].
  cbn [Bundle.products Bundle.pricing Bundle.bundle].
  split; [reflexivity|]. split; [reflexivity|].
  assert (Hk : forall k,
             (Bundle.formatBundleFields (Bundle.fields meta)
                ∪ <["id" := Bundle.FText (Bundle.meta_id meta)]>
                    (<["handle" := Bundle.FText (Bundle.meta_handle meta)]> ∅)) !! k
             = match Bundle.formatBundleFields (Bundle.fields meta) !! k with
               | Some v => Some v
               | None =>
                   (<["id" := Bundle.FText (Bundle.meta_id meta)]>
                      (<["handle" := Bundle.FText (Bundle.meta_handle meta)]> ∅)
                    : gmap string Bundle.fieldval) !! k
               end).
  { intros k. rewrite lookup_union.
    destruct (Bundle.formatBundleFields (Bundle.fields meta) !! k) as [v|];
      [|rewrite (left_id None _)]; [|reflexivity].
    destruct (_ !! k); reflexivity. }
  split; [|split; [|split]].
  - intros k Hid Hh. rewrite Hk.
    destruct (Bundle.formatBundleFields (Bundle.fields meta) !! k); [reflexivity|].
    rewrite lookup_insert_ne by congruence. rewrite lookup_insert_ne by congruence.
    apply lookup_empty.
  - rewrite Hk. destruct (Bundle.formatBundleFields (Bundle.fields meta) !! "id");
      [reflexivity|]. rewrite lookup_insert_eq. reflexivity.
  - rewrite Hk. destruct (Bundle.formatBundleFields (Bundle.fields meta) !! "handle");
      [reflexivity|]. rewrite lookup_insert_ne by discriminate.
    rewrite lookup_insert_eq. reflexivity.
  - rewrite Hk.
    rewrite format_fields_no_products.
    rewrite lookup_insert_ne by discriminate. rewrite lookup_insert_ne by discriminate.
    apply lookup_empty.
Qed.

Lemma line_of_some (bundle : gmap string Bundle.fieldval)
    (np : Bundle.NormalizedProduct) (l : BundleDetail.CartLine) :
  BundleDetail.line_of bundle np = Some l
  <-> exists v,
        Bundle.firstVariant np = Some v
        /\ Bundle.variant_id v <> "" /\ Bundle.availableForSale v = true
        /\ l = {| BundleDetail.merchandiseId := Bundle.variant_id v;
                  BundleDetail.quantity := 1;
                  BundleDetail.attributes :=
                    [("bundleId", bundle !! "id");
                     ("bundleHandle", bundle !! "handle")] |}.
Proof.
  unfold BundleDetail.line_of.
  destruct (Bundle.firstVariant np) as [v|]; [|split; [discriminate|intros (v & H & _); discriminate]].
  destruct (Bundle.variant_id v) as [|c i] eqn:Hid; cbn [Str.truthy negb orb].
  - split; [discriminate|]. intros (w & [= <-] & Hne & _). congruence.
  - destruct (Bundle.availableForSale v) eqn:Ha; cbn [negb].
    + split.
      * intros [= <-]. exists v. rewrite Hid. repeat split; try reflexivity; try discriminate.
        exact Ha.
      * intros (w & [= <-] & _ & _ & ->). rewrite Hid. reflexivity.
    + split; [discriminate|]. intros (w & [= <-] & _ & Hav & _). congruence.
Qed.

Lemma omap_length_all {A B} (g : A -> option B) (l : list A) :
  length (omap g l) <= length l
  /\ (length (omap g l) = length l <-> Forall (fun x => is_Some (g x)) l).
Proof.
  induction l as [|x l [IH1 IH2]]; [split; [reflexivity|split; [constructor|reflexivity]]|].
  cbn [omap list_omap length]. destruct (g x) as [y|] eqn:Hg; cbn [length].
  - split; [lia|]. split.
    + intros H. constructor; [eexists; exact Hg|]. apply IH2. lia.
    + intros H. inversion H; subst. f_equal. apply IH2. assumption.
  - split; [lia|]. split; [lia|].
    intros H. inversion H as [|? ? [y Hy] ?]; subst. congruence.
Qed.

(** X18: the cart of the bundle page.  There is one cart line for every
    product whose first variant exists, has a non-empty id and is
    available for sale, in the order of the products; the line is for
    that variant, with quantity 1 and the id and the handle of the
    bundle as attributes.  The notice about unavailable products shows
    exactly when some product has no such line, and the button is
    disabled exactly when no product has one. *)
Theorem bundle_cart (data : Bundle.LoaderData) :
  let line := BundleDetail.line_of (Bundle.bundle data) in
  BundleDetail.lines (BundleDetail.render data) = omap line (Bundle.products data)
  /\ (forall np l, line np = Some l ->
        exists v,
          Bundle.firstVariant np = Some v
          /\ Bundle.variant_id v <> "" /\ Bundle.availableForSale v = true
          /\ BundleDetail.merchandiseId l = Bundle.variant_id v
          /\ BundleDetail.quantity l = 1
          /\ BundleDetail.attributes l
             = [("bundleId", Bundle.bundle data !! "id");
                ("bundleHandle", Bundle.bundle data !! "handle")])
  /\ (forall np v,
        Bundle.firstVariant np = Some v ->
        Bundle.variant_id v <> "" -> Bundle.availableForSale v = true ->
        is_Some (line np))
  /\ length (BundleDetail.lines (BundleDetail.render data))
     <= length (Bundle.products data)
  /\ (BundleDetail.warning (BundleDetail.render data) = true
      <-> exists np, np ∈ Bundle.products data /\ line np = None)
  /\ (BundleDetail.disabled (BundleDetail.render data) = true
      <-> Forall (fun np => line np = None) (Bundle.products data))
  /\ BundleDetail.button (BundleDetail.render data)
     = if BundleDetail.disabled (BundleDetail.render data)
       then "Bundle unavailable" else "Add Bundle to Cart".
Proof.
  intros line.
  assert (Hlines : BundleDetail.lines (BundleDetail.render data)
                   = omap line (Bundle.products data)).
  { cbn [BundleDetail.render BundleDetail.lines]. unfold BundleDetail.cartLines, filter_Boolean.
    subst line. induction (Bundle.products data) as [|np l IH]; [reflexivity|].
    cbn [fmap list_fmap omap list_omap] in *.
    destruct (BundleDetail.line_of (Bundle.bundle data) np); rewrite IH; reflexivity. }
  assert (Hcart : BundleDetail.cartLines data = omap line (Bundle.products data))
    by exact Hlines.
  destruct (omap_length_all line (Bundle.products data)) as [Hle Hall].
  split; [exact Hlines|]. split; [|split; [|split; [|split; [|split]]]].
  - intros np l Hl. apply line_of_some in Hl as (v & Hv & Hid & Ha & ->).
    exists v. repeat split; assumption.
  - intros np v Hv Hid Ha. eexists. apply line_of_some. exists v. eauto.
  - rewrite Hlines. exact Hle.
  - cbn [BundleDetail.render BundleDetail.warning]. unfold BundleDetail.hasUnavailableProducts.
    rewrite Hcart, negb_true_iff, Nat.eqb_neq, Hall. split.
    + intros Hn. apply not_Forall_Exists in Hn; [|intros x; apply _].
      apply Exists_exists in Hn as (np & Hin & Hnone).
      exists np. split; [exact Hin|].
      destruct (line np) as [l|] eqn:Hl; [|reflexivity].
      destruct Hnone. exists l. exact Hl.
    + intros (np & Hin & Hnone) Hf. rewrite Forall_forall in Hf.
      destruct (Hf np Hin) as [l Hl]. congruence.
  - cbn [BundleDetail.render BundleDetail.disabled]. rewrite Hcart, Nat.eqb_eq. split.
    + intros Hlen. apply Forall_forall. intros np Hin.
      destruct (line np) as [l|] eqn:Hl; [|reflexivity].
      assert (Hmem : l ∈ omap line (Bundle.products data))
        by (apply list_elem_of_omap; exists np; auto).
      destruct (omap line (Bundle.products data)); [inversion Hmem|discriminate].
    + intros Hf. clear - Hf. induction Hf as [|np l Hnp _ IH]; [reflexivity|].
      cbn [omap list_omap]. rewrite Hnp. exact IH.
  - cbn [BundleDetail.render BundleDetail.button BundleDetail.disabled].
    destruct (length (BundleDetail.cartLines data)); reflexivity.
Qed.

(** X24: the page of a bundle without products.  When the fields hold
    no product, the items total reads "0" with no currency, the cart is
    empty, the button is disabled and reads "Bundle unavailable", and
    the notice about unavailable products does not show.  A fixed price
    is shown all the same. *)
Theorem bundle_without_products (meta : Bundle.metaobject) :
  Bundle.collectProducts (Bundle.fields meta) = [] ->
  exists data,
    Bundle.loader (Some meta) = Some data
    /\ Bundle.products data = []
    /\ Bundle.subtotal (Bundle.pricing data) = Num.zero
    /\ BundleDetail.items_total (BundleDetail.render data) = "0"
    /\ BundleDetail.lines (BundleDetail.render data) = []
    /\ BundleDetail.disabled (BundleDetail.render data) = true
    /\ BundleDetail.button (BundleDetail.render data) = "Bundle unavailable"
    /\ BundleDetail.warning (BundleDetail.render data) = false
    /\ (Bundle.is_text (Bundle.bundle data !! "bundle_type") "fixed_price" = true ->
        BundleDetail.bundle_total (BundleDetail.render data)
        = Num.toFixed0
            (Num.parseFloat (Bundle.to_text (Bundle.bundle data !! "discount_value")))).
Proof.
  intros Hnone. eexists. split; [reflexivity|].
  cbn [Bundle.products Bundle.pricing Bundle.bundle].
  unfold BundleDetail.render, BundleDetail.cartLines, BundleDetail.hasUnavailableProducts,
    BundleDetail.cartLines, BundleDetail.currency.
  cbn [Bundle.products Bundle.pricing Bundle.bundle BundleDetail.items_total
       BundleDetail.lines BundleDetail.disabled BundleDetail.button BundleDetail.warning
       BundleDetail.bundle_total].
  rewrite !Hnone, price_subtotal.
  split; [reflexivity|]. split; [reflexivity|]. split; [vm_compute; reflexivity|].
  split; [reflexivity|]. split; [reflexivity|]. split; [reflexivity|].
  split; [reflexivity|].
  intros Hfixed. rewrite (price_fixed _ _ Hfixed). cbv zeta.
  cbn [Bundle.bundlePrice]. unfold BundleDetail.with_currency.
  apply append_nil_r.
Qed.

Lemma bundle_without_products_witness :
  exists data,
    Bundle.loader
      (Some {| Bundle.meta_id := "gid://shopify/Metaobject/1";
               Bundle.meta_handle := "summer";
               Bundle.fields := [] |}) = Some data
    /\ BundleDetail.items_total (BundleDetail.render data) = "0"
    /\ BundleDetail.button (BundleDetail.render data) = "Bundle unavailable".
Proof.
  destruct (bundle_without_products
              {| Bundle.meta_id := "gid://shopify/Metaobject/1";
                 Bundle.meta_handle := "summer";
                 Bundle.fields := [] |} eq_refl)
    as (data & H1 & _ & _ & H2 & _ & _ & H3 & _).
  exists data. auto.
Defined.

(** X28: the attributes of the cart lines, from the metaobject.  Every
    line of the cart of a loaded bundle carries two attributes,
    [bundleId] and [bundleHandle].  Their values are the id and the
    handle of the metaobject, unless the bundle has a field with the key
    [id] or [handle]: the flattened value of that field is then what the
    cart records. *)
Theorem cart_attributes (meta : Bundle.metaobject) (data : Bundle.LoaderData) :
  Bundle.loader (Some meta) = Some data ->
  Forall
    (fun l =>
       BundleDetail.quantity l = 1
       /\ BundleDetail.attributes l
          = [("bundleId",
              Some (default (Bundle.FText (Bundle.meta_id meta))
                      (Bundle.formatBundleFields (Bundle.fields meta) !! "id")));
             ("bundleHandle",
              Some (default (Bundle.FText (Bundle.meta_handle meta))
                      (Bundle.formatBundleFields (Bundle.fields meta) !! "handle")))])
    (BundleDetail.lines (BundleDetail.render data)).
Proof.
  intros [= <-]. cbn [BundleDetail.render BundleDetail.lines].
  unfold BundleDetail.cartLines, filter_Boolean. cbn [Bundle.bundle Bundle.products].
  apply Forall_forall. intros l Hl.
  apply list_elem_of_omap in Hl as (o & Ho & ->).
  apply list_elem_of_fmap in Ho as (np & Hline & _). symmetry in Hline.
  apply line_of_some in Hline as (v & _ & _ & _ & ->).
  cbn [BundleDetail.quantity BundleDetail.attributes].
  split; [reflexivity|].
  rewrite !lookup_union.
  destruct (Bundle.formatBundleFields (Bundle.fields meta) !! "id") as [i|];
    destruct (Bundle.formatBundleFields (Bundle.fields meta) !! "handle") as [h|];
    reflexivity.
Qed.

Lemma cart_attributes_witness :
  let variant := {| Bundle.variant_id := "gid://shopify/ProductVariant/7";
                    Bundle.availableForSale := true;
                    Bundle.variant_title := "Default" |} in
  let shirt := {| Bundle.id := "gid://shopify/Product/1";
                  Bundle.handle := "red-shirt";
                  Bundle.title := "Red shirt";
                  Bundle.featuredImage := None;
                  Bundle.variants := [variant];
                  Bundle.priceRange := {| amount := "10.0"; currencyCode := "INR" |} |} in
  let meta := {| Bundle.meta_id := "gid://shopify/Metaobject/1";
                 Bundle.meta_handle := "summer";
                 Bundle.fields :=
                   [{| Bundle.key := "id";
                       Bundle.value := Some "SKU-42";
                       Bundle.type := "single_line_text_field";
                       Bundle.reference_of := None;
                       Bundle.references := None |};
                    {| Bundle.key := "items";
                       Bundle.value := None;
                       Bundle.type := "list.product_reference";
                       Bundle.reference_of := None;
                       Bundle.references := Some [Bundle.RProduct shirt] |}] |} in
  Forall
    (fun l =>
       BundleDetail.quantity l = 1
       /\ BundleDetail.attributes l
          = [("bundleId", Some (Bundle.FText "SKU-42"));
             ("bundleHandle", Some (Bundle.FText "summer"))])
    [{| BundleDetail.merchandiseId := "gid://shopify/ProductVariant/7";
        BundleDetail.quantity := 1;
        BundleDetail.attributes :=
          [("bundleId", Some (Bundle.FText "SKU-42"));
           ("bundleHandle", Some (Bundle.FText "summer"))] |}].
Proof.
  intros variant shirt meta.
  exact (cart_attributes meta _ eq_refl).
Defined.

(** ** The bundle list *)

Lemma find_append {A} (g : A -> bool) (l1 l2 : list A) :
  List.find g (l1 ++ l2)
  = match List.find g l1 with
    | Some x => Some x
    | None => List.find g l2
    end.
Proof.
  induction l1 as [|x l1 IH]; [reflexivity|].
  cbn [app List.find]. destruct (g x); [reflexivity|exact IH].
Qed.

Lemma fromEntries_fold (fs : list BundlesIndex.field) (acc : gmap string Bundle.fieldval)
    (k : string) :
  List.fold_left
    (fun acc f => <[BundlesIndex.key f := Bundle.raw (BundlesIndex.value f)]> acc) fs acc
  !! k
  = match List.find (fun f => String.eqb (BundlesIndex.key f) k) (List.rev fs) with
    | Some f => Some (Bundle.raw (BundlesIndex.value f))
    | None => acc !! k
    end.
Proof.
  revert acc. induction fs as [|f fs IH]; intros acc; [reflexivity|].
  cbn [List.fold_left List.rev]. rewrite IH, find_append.
  destruct (List.find _ (List.rev fs)); [reflexivity|].
  cbn [List.find]. destruct (String.eqb_spec (BundlesIndex.key f) k) as [->|Hk].
  - apply lookup_insert_eq.
  - apply lookup_insert_ne, Hk.
Qed.

(** A property of the object of [Object.fromEntries] is the value of
    the last field of that key. *)
Lemma fromEntries_lookup (fs : list BundlesIndex.field) (k : string) :
  BundlesIndex.fromEntries fs !! k
  = (fun f => Bundle.raw (BundlesIndex.value f))
      <$> List.find (fun f => String.eqb (BundlesIndex.key f) k) (List.rev fs).
Proof.
  unfold BundlesIndex.fromEntries. rewrite fromEntries_fold, lookup_empty.
  destruct (List.find _ _); reflexivity.
Qed.

Lemma fromEntries_last (pre post : list BundlesIndex.field) (f : BundlesIndex.field) :
  Forall (fun g => BundlesIndex.key g <> BundlesIndex.key f) post ->
  BundlesIndex.fromEntries (pre ++ f :: post) !! BundlesIndex.key f
  = Some (Bundle.raw (BundlesIndex.value f)).
Proof.
  intros Hpost. rewrite fromEntries_lookup, rev_app_distr. cbn [List.rev].
  rewrite <- app_assoc, find_append.
  replace (List.find _ (List.rev post)) with (@None BundlesIndex.field).
  - cbn [app List.find]. rewrite String.eqb_refl. reflexivity.
  - symmetry. apply find_nothing, Forall_rev.
    eapply Forall_impl; [exact Hpost|]. intros g Hg.
    apply String.eqb_neq, Hg.
Qed.

(** X19: the formatted bundle of the list page.  Its title is always a
    non-empty string: the value of the last [title] field when that is
    a non-empty string, "Untitled bundle" otherwise.  Its description is
    always a string, the plain text of the last [description] field or
    the empty string.  Every other key reads as the value of the last
    field of that key, [products] and [__proto__] included. *)
Theorem index_formatBundleFields (b : BundlesIndex.bundle) :
  let formatted := BundlesIndex.formatBundleFields b in
  let entries := BundlesIndex.fromEntries (BundlesIndex.fields b) in
  (exists t, formatted !! "title" = Some (Bundle.FText t) /\ t <> ""
             /\ (t = "Untitled bundle" \/ entries !! "title" = Some (Bundle.FText t)))
  /\ (forall t, entries !! "title" = Some (Bundle.FText t) -> t <> "" ->
        formatted !! "title" = Some (Bundle.FText t))
  /\ formatted !! "description"
     = Some (Bundle.FText
               (Bundle.extractPlainText (BundlesIndex.text_of (entries !! "description"))))
  /\ (forall k, k <> "title" -> k <> "description" -> formatted !! k = entries !! k)
  /\ (forall pre post f,
        BundlesIndex.fields b = pre ++ f :: post ->
        Forall (fun g => BundlesIndex.key g <> BundlesIndex.key f) post ->
        entries !! BundlesIndex.key f = Some (Bundle.raw (BundlesIndex.value f))).
Proof.
  cbv zeta. unfold BundlesIndex.formatBundleFields. cbv zeta.
  set (entries := BundlesIndex.fromEntries (BundlesIndex.fields b)).
  split; [|split; [|split; [|split]]].
  - rewrite lookup_insert_ne by discriminate. rewrite lookup_insert_eq.
    unfold BundlesIndex.title_of.
    destruct (entries !! "title") as [[[|c t]| |]|];
      try (exists "Untitled bundle"; split; [reflexivity|split; [discriminate|left; reflexivity]]).
    exists (String c t). split; [reflexivity|]. split; [discriminate|right; reflexivity].
  - intros t Ht Hne. rewrite lookup_insert_ne by discriminate. rewrite lookup_insert_eq, Ht.
    destruct t; [congruence|reflexivity].
  - apply lookup_insert_eq.
  - intros k Ht Hd. rewrite lookup_insert_ne by congruence.
    apply lookup_insert_ne. congruence.
  - intros pre post f Hfs Hpost. subst entries. rewrite Hfs.
    apply fromEntries_last, Hpost.
Qed.

Lemma detail_last (pre post : list Bundle.field) (f : Bundle.field) :
  Bundle.key f <> "products" -> Bundle.key f <> "__proto__" ->
  Forall (fun g => Bundle.key g <> Bundle.key f) post ->
  Bundle.formatBundleFields (pre ++ f :: post) !! Bundle.key f
  = Some (if String.eqb (Bundle.type f) "rich_text_field"
          then Bundle.FText (Bundle.extractPlainText (Bundle.value f))
          else
            match (if String.eqb (Bundle.type f) "file_reference"
                   then Bundle.formatImageReference (Bundle.reference_of f)
                   else None)
            with
            | Some (u, alt) => Bundle.FImage u alt
            | None => Bundle.raw (Bundle.value f)
            end).
Proof.
  intros Hp Hq Hpost. rewrite format_fields_app. cbn [List.fold_left].
  rewrite (fold_step_other _ _ _ Hpost). apply format_step_value; assumption.
Qed.

(** X20: the list page and the bundle page on the same fields.  Let the
    list page see the keys and the values of the fields the bundle page
    sees, and take the last field of some key other than [products] and
    [__proto__].  A [description] of type [rich_text_field] reads the
    same on both pages; so does a field other than the title and the
    description whose type is neither [rich_text_field] nor
    [file_reference], and a title of such a type that is a non-empty
    string.  A missing or empty title reads "Untitled bundle" on the
    list page only. *)
Theorem pages_agree (b : BundlesIndex.bundle) (pre post : list Bundle.field)
    (f : Bundle.field) :
  BundlesIndex.fields b
  = (fun g => {| BundlesIndex.key := Bundle.key g;
                 BundlesIndex.value := Bundle.value g |}) <$> (pre ++ f :: post) ->
  Bundle.key f <> "products" -> Bundle.key f <> "__proto__" ->
  Forall (fun g => Bundle.key g <> Bundle.key f) post ->
  let list_page := BundlesIndex.formatBundleFields b in
  let bundle_page := Bundle.formatBundleFields (pre ++ f :: post) in
  (Bundle.key f = "description" -> Bundle.type f = "rich_text_field" ->
   list_page !! "description" = bundle_page !! "description")
  /\ (Bundle.type f <> "rich_text_field" -> Bundle.type f <> "file_reference" ->
      (Bundle.key f <> "title" -> Bundle.key f <> "description" ->
       list_page !! Bundle.key f = bundle_page !! Bundle.key f)
      /\ (forall t, Bundle.key f = "title" -> Bundle.value f = Some t -> t <> "" ->
            list_page !! "title" = bundle_page !! "title")
      /\ (Bundle.key f = "title" ->
          Bundle.value f = None \/ Bundle.value f = Some "" ->
          list_page !! "title" = Some (Bundle.FText "Untitled bundle")
          /\ bundle_page !! "title" = Some (Bundle.raw (Bundle.value f)))).
Proof.
  intros Hfs Hp Hq Hpost list_page bundle_page.
  assert (Hentry : BundlesIndex.fromEntries (BundlesIndex.fields b) !! Bundle.key f
                   = Some (Bundle.raw (Bundle.value f))).
  { rewrite Hfs, fmap_app, fmap_cons.
    apply (fromEntries_last _ _
             {| BundlesIndex.key := Bundle.key f; BundlesIndex.value := Bundle.value f |}).
    apply Forall_fmap. eapply Forall_impl; [exact Hpost|]. intros g Hg. exact Hg. }
  assert (Hdetail := detail_last pre post f Hp Hq Hpost). fold bundle_page in Hdetail.
  subst list_page. unfold BundlesIndex.formatBundleFields. cbv zeta.
  split.
  - intros Hk Ht. rewrite Hk in *. rewrite Hdetail, Ht, lookup_insert_eq, Hentry.
    cbn [String.eqb]. change (String.eqb "rich_text_field" "rich_text_field") with true.
    cbv iota. do 2 f_equal. destruct (Bundle.value f); reflexivity.
  - intros Hr Hfile.
    destruct (String.eqb_spec (Bundle.type f) "rich_text_field"); [contradiction|].
    destruct (String.eqb_spec (Bundle.type f) "file_reference"); [contradiction|].
    split; [|split].
    + intros Ht Hd. rewrite lookup_insert_ne by congruence.
      rewrite lookup_insert_ne by congruence. rewrite Hentry, Hdetail. reflexivity.
    + intros t Hk Hv Hne. rewrite Hk in *.
      rewrite lookup_insert_ne by discriminate.
      rewrite lookup_insert_eq, Hentry, Hdetail, Hv.
      destruct t; [congruence|reflexivity].
    + intros Hk Hv. rewrite Hk in *.
      rewrite lookup_insert_ne by discriminate.
      rewrite lookup_insert_eq, Hentry, Hdetail.
      split; [|reflexivity]. destruct Hv as [-> | ->]; reflexivity.
Qed.

Lemma pages_agree_witness :
  let description :=
    {| Bundle.key := "description";
       Bundle.value :=
         Some (Str.dq "{'type':'root','children':[{'type':'text','value':'Two  shirts'}]}");
       Bundle.type := "rich_text_field";
       Bundle.reference_of := None;
       Bundle.references := None |} in
  BundlesIndex.formatBundleFields
    {| BundlesIndex.id := "gid://shopify/Metaobject/1";
       BundlesIndex.handle := "summer";
       BundlesIndex.fields :=
         [{| BundlesIndex.key := "description";
             BundlesIndex.value := Bundle.value description |}] |}
  !! "description"
  = Bundle.formatBundleFields [description] !! "description".
Proof.
  intros description.
  refine (proj1 (pages_agree
            {| BundlesIndex.id := "gid://shopify/Metaobject/1";
               BundlesIndex.handle := "summer";
               BundlesIndex.fields :=
                 [{| BundlesIndex.key := "description";
                     BundlesIndex.value := Bundle.value description |}] |}
            [] [] description eq_refl _ _ _) eq_refl eq_refl);
    [discriminate|discriminate|constructor].
Defined.

Lemma fromEntries_missing (fs : list BundlesIndex.field) (k : string) :
  Forall (fun f => BundlesIndex.key f <> k) fs ->
  BundlesIndex.fromEntries fs !! k = None.
Proof.
  intros Hall. rewrite fromEntries_lookup.
  replace (List.find _ (List.rev fs)) with (@None BundlesIndex.field); [reflexivity|].
  symmetry. apply find_nothing, Forall_rev.
  eapply Forall_impl; [exact Hall|]. intros g Hg. apply String.eqb_neq, Hg.
Qed.

(** X21: the card of a bundle on the list page.  The heading and the
    description are never empty: an empty description gives way to
    "Handpicked products curated for you.".  The link leads to the page
    of the bundle's handle.  The discount badge shows exactly when the
    discount value is a non-empty string; the offer line does not wait
    for it: a percentage bundle without a [discount_value] field
    announces "Bundle & save undefined%", and one whose value is [null]
    announces "Bundle & save null%". *)
Theorem index_card (b : BundlesIndex.bundle) :
  let c := BundlesIndex.render_card b in
  let entries := BundlesIndex.fromEntries (BundlesIndex.fields b) in
  BundlesIndex.heading c <> ""
  /\ BundlesIndex.description c <> ""
  /\ BundlesIndex.href c = "/bundles/" +:+ BundlesIndex.handle b
  /\ (is_Some (BundlesIndex.discount_badge c)
      <-> exists d, entries !! "discount_value" = Some (Bundle.FText d) /\ d <> "")
  /\ (entries !! "bundle_type" = Some (Bundle.FText "percentage") ->
      BundlesIndex.badge c = "Smart Saver"
      /\ (Forall (fun f => BundlesIndex.key f <> "discount_value") (BundlesIndex.fields b) ->
          BundlesIndex.offer c = "Bundle & save undefined%"
          /\ BundlesIndex.discount_badge c = None)
      /\ (entries !! "discount_value" = Some Bundle.FNull ->
          BundlesIndex.offer c = "Bundle & save null%"
          /\ BundlesIndex.discount_badge c = None)
      /\ (forall d, entries !! "discount_value" = Some (Bundle.FText d) -> d <> "" ->
            BundlesIndex.offer c = "Bundle & save " +:+ d +:+ "%"
            /\ BundlesIndex.discount_badge c = Some ("Save " +:+ d +:+ "%"))).
Proof.
  cbv zeta. unfold BundlesIndex.render_card. cbv zeta.
  cbn [BundlesIndex.heading BundlesIndex.description BundlesIndex.href
       BundlesIndex.discount_badge BundlesIndex.badge BundlesIndex.offer].
  assert (Hother : forall k, k <> "title" -> k <> "description" ->
            BundlesIndex.formatBundleFields b !! k
            = BundlesIndex.fromEntries (BundlesIndex.fields b) !! k).
  { intros k H1 H2. unfold BundlesIndex.formatBundleFields. cbv zeta.
    rewrite lookup_insert_ne by congruence. apply lookup_insert_ne. congruence. }
  rewrite !(Hother "discount_value") by discriminate.
  rewrite !(Hother "bundle_type") by discriminate.
  set (entries := BundlesIndex.fromEntries (BundlesIndex.fields b)).
  split; [|split; [|split; [|split]]].
  - unfold BundlesIndex.formatBundleFields. cbv zeta. fold entries.
    rewrite lookup_insert_ne by discriminate. rewrite lookup_insert_eq.
    unfold BundlesIndex.title_of, BundlesIndex.shown.
    destruct (entries !! "title") as [[[|x t]| |]|]; cbn [Str.truthy]; discriminate.
  - unfold BundlesIndex.formatBundleFields. cbv zeta. rewrite lookup_insert_eq.
    unfold BundlesIndex.description_of.
    destruct (Bundle.extractPlainText _); cbn [Str.truthy]; discriminate.
  - reflexivity.
  - unfold BundlesIndex.truthy.
    destruct (entries !! "discount_value") as [[[|x d]| |]|]; cbn [Str.truthy].
    all: split; [intros [y Hy]; try discriminate|intros (d' & Hd & Hne); try discriminate].
    + congruence.
    + exists (String x d). split; [reflexivity|discriminate].
    + eexists. reflexivity.
  - intros Htype. rewrite Htype. cbn [Bundle.is_text].
    change (String.eqb "percentage" "percentage") with true. cbv iota.
    split; [reflexivity|]. split; [|split].
    + intros Hnone. subst entries. rewrite (fromEntries_missing _ _ Hnone).
      split; reflexivity.
    + intros ->. split; reflexivity.
    + intros d -> Hne. destruct d; [congruence|]. split; reflexivity.
Qed.

(** ** Text around the array *)

(** X22: text around the array of the model's answer is ignored.  When
    the text before the array holds no opening bracket and the text
    after it no closing bracket, as with a fenced code block or a
    sentence of introduction, the parser returns, or throws, what it
    does on the array alone. *)
Theorem surrounding_text_ignored (before inside after : string) :
  ~ Spec.includes before "[" -> ~ Spec.includes after "]" ->
  Gemini.parse_recommendations (before +:+ ("[" +:+ inside +:+ "]") +:+ after)
  = Gemini.parse_recommendations ("[" +:+ inside +:+ "]").
Proof.
  intros Hb Ha.
  assert (H1 : Gemini.match_array (before +:+ ("[" +:+ inside +:+ "]") +:+ after)
               = Some ("[" +:+ inside +:+ "]")).
  { apply match_array_some. exists before, inside, after. auto. }
  assert (H2 : Gemini.match_array ("[" +:+ inside +:+ "]") = Some ("[" +:+ inside +:+ "]")).
  { apply match_array_some. exists "", inside, "".
    rewrite append_nil_l, append_nil_r.
    split; [reflexivity|]. split; [reflexivity|]. split; apply includes_char_nil. }
  unfold Gemini.parse_recommendations. rewrite H1, H2. reflexivity.
Qed.

Lemma surrounding_text_ignored_witness :
  Gemini.parse_recommendations
    (Str.dq "```json" +:+ ("[" +:+ Str.dq "'red-shirt', 'blue-hat'" +:+ "]") +:+ "```")
  = Gemini.parse_recommendations ("[" +:+ Str.dq "'red-shirt', 'blue-hat'" +:+ "]").
Proof.
  apply surrounding_text_ignored.
  - intros (x & y & H). vm_compute in H.
    repeat (destruct x as [|? x]; [discriminate|injection H as _ H]).
    destruct x; discriminate.
  - intros (x & y & H). vm_compute in H.
    repeat (destruct x as [|? x]; [discriminate|injection H as _ H]).
    destruct x; discriminate.
Defined.

(** ** The answer of the generative API *)

Lemma get_some_not_null (v w : json) (key : string) :
  Json.get v key = Some w -> v <> JNull.
Proof. intros H ->. discriminate. Qed.

(** X23: what [getGeminiRecommendations] reads of a successful answer.
    With a key, it issues one request; of a successful answer whose body
    is JSON it reads the text of the first part of the first candidate
    only, and returns, or throws, what the parser does on that text.
    Further candidates and further parts are never read. *)
Theorem client_reads_first_part (fetch : transport) (key : string)
    (ctx : Gemini.context) (r : response) (data first content part : json)
    (others more : list json) (text : string) :
  key <> "" ->
  let req := PostGenerateContent key (Gemini.build_prompt ctx) in
  fetch req = ret r -> ok r = true -> Json.parse (body r) = Some data ->
  Json.get data "candidates" = Some (JArray (first :: others)) ->
  Json.get first "content" = Some content ->
  Json.get content "parts" = Some (JArray (part :: more)) ->
  Json.get part "text" = Some (JString text) ->
  Gemini.getGeminiRecommendations fetch (Some key) ctx
  = ([req], Gemini.parse_recommendations text).
Proof.
  intros Hk req Hr Hok Hb Hc Hcontent Hparts Htext.
  rewrite (with_api_key _ _ _ Hk). fold req. rewrite Hr. cbn [rbind ret].
  unfold Gemini.from_response, response_json. rewrite Hok, Hb. cbn [negb rbind ret].
  rewrite (response_text_unfold data (get_some_not_null _ _ _ Hc)), Hc.
  cbn [Json.truthy negb]. unfold Gemini.parts_of. cbn [Json.get0 List.head].
  rewrite (get_opt_some first) by exact (get_some_not_null _ _ _ Hcontent).
  rewrite Hcontent.
  rewrite (get_opt_some content) by exact (get_some_not_null _ _ _ Hparts).
  rewrite Hparts. cbn [Json.truthy negb].
  unfold Gemini.text_of. cbn [Json.get0 List.head].
  destruct part; try discriminate. rewrite Htext. cbn [rbind ret].
  rewrite parse_recommendations_trim. reflexivity.
Qed.

Lemma client_reads_first_part_witness :
  Gemini.getGeminiRecommendations
    (Sample.always
       (Sample.ok_with
          (Str.dq "{'candidates':[{'content':{'parts':[{'text':' [1] '},{'text':'[2]'}]}},{'content':{'parts':[{'text':'[3]'}]}}]}")))
    (Some "key") (Fixture.context None None [])
  = ([PostGenerateContent "key" (Gemini.build_prompt (Fixture.context None None []))],
     Gemini.parse_recommendations " [1] ").
Proof.
  refine (client_reads_first_part _ "key" (Fixture.context None None [])
            (Sample.ok_with
               (Str.dq "{'candidates':[{'content':{'parts':[{'text':' [1] '},{'text':'[2]'}]}},{'content':{'parts':[{'text':'[3]'}]}}]}"))
            _ _ _ _ _ _ " [1] " _ eq_refl eq_refl _ _ _ _ _);
    [discriminate|vm_compute; reflexivity|reflexivity|reflexivity|reflexivity
    |reflexivity].
Defined.

(** ** The widget behind the route *)

(** X25: the widget served by the route.  Let the route answer the
    widget's request, built from the widget's properties, and let the
    widget receive a response with the status of that answer whose body
    reads back as the payload [{recommendations}].  Then one request went
    to the generative API.  When [getGeminiRecommendations] threw, the
    widget shows the first six fallback products and its error is always
    "Failed to fetch recommendations": the message of the route is not
    read.  When it returned strings, the widget matches them against
    all available products and fills as for any answer. *)
Theorem widget_through_route (upstream : transport) (key : string)
    (pr : AIRecommender.props) (st : AIRecommender.state) (r : response) :
  AIRecommender.availableProducts pr <> [] -> key <> "" ->
  let sent :=
    {| ApiRoute.currentProductTitle := AIRecommender.currentProductTitle pr;
       ApiRoute.currentProductDescription := AIRecommender.currentProductDescription pr;
       ApiRoute.availableProducts :=
         Some (AIRecommender.summary <$> AIRecommender.availableProducts pr);
       ApiRoute.userQuery := AIRecommender.userQuery pr |} in
  let run :=
    ApiRoute.action upstream (Some key)
      {| ApiRoute.method := "POST"; ApiRoute.body := ret sent |} in
  status r = ApiRoute.status (snd run) ->
  (forall recommendations,
     ApiRoute.payload (snd run) = ApiRoute.Recommendations recommendations ->
     Json.parse (body r)
     = Some (JObject [("recommendations", JArray recommendations)])) ->
  let asked := Gemini.getGeminiRecommendations upstream (Some key) (ApiRoute.context_of sent) in
  let st' := snd (AIRecommender.fetchRecommendations (fun _ => ret r) pr st) in
  fst run = fst asked /\ length (fst run) = 1
  /\ (forall e, snd asked = throw e ->
        st' = {| AIRecommender.recommendedProducts :=
                   take 6 (AIRecommender.fallbackProducts pr);
                 AIRecommender.loading := false;
                 AIRecommender.error :=
                   Some (Error "Failed to fetch recommendations") |})
  /\ (forall ts, snd asked = ret (JString <$> ts) ->
        let M :=
          take 6 (omap (fun t => List.find (AIRecommender.handle_matches t)
                                   (AIRecommender.availableProducts pr)) ts) in
        st' = {| AIRecommender.recommendedProducts :=
                   if (length M <? 4)
                      && (0 <? length (AIRecommender.fallbackProducts pr))
                   then M ++ take (6 - length M)
                               (Spec.unused M (AIRecommender.fallbackProducts pr))
                   else M;
                 AIRecommender.loading := false;
                 AIRecommender.error := None |}).
Proof.
  intros HP Hk sent run Hstatus Hbody asked st'.
  assert (Hrun : run = (fst asked,
                        match snd asked with
                        | inr recommendations =>
                            {| ApiRoute.status := 200;
                               ApiRoute.payload := ApiRoute.Recommendations recommendations |}
                        | inl e => ApiRoute.failed e
                        end)).
  { unfold run.
    rewrite (action_post upstream key
               {| ApiRoute.method := "POST"; ApiRoute.body := ret sent |} eq_refl Hk).
    cbn [ApiRoute.body]. unfold ret. fold asked. destruct asked as [log out]. reflexivity. }
  assert (Hlog : length (fst asked) = 1).
  { unfold asked. rewrite (with_api_key _ _ _ Hk). reflexivity. }
  assert (Hst : st' = match AIRecommender.from_response pr r with
                      | inr recommended =>
                          {| AIRecommender.recommendedProducts := recommended;
                             AIRecommender.loading := false;
                             AIRecommender.error := None |}
                      | inl e =>
                          {| AIRecommender.recommendedProducts :=
                               take 6 (AIRecommender.fallbackProducts pr);
                             AIRecommender.loading := false;
                             AIRecommender.error := Some e |}
                      end).
  { unfold st'. rewrite (widget_fetch _ _ _ HP). cbv zeta. cbn [rbind ret].
    destruct (AIRecommender.from_response pr r); reflexivity. }
  clearbody run asked st'. subst run st'. cbn [fst snd] in *.
  split; [reflexivity|]. split; [exact Hlog|]. split.
  - intros e He. rewrite He in *.
    assert (Hok : ok r = false) by (unfold ok; rewrite Hstatus; reflexivity).
    rewrite (from_response_not_ok _ _ Hok). reflexivity.
  - intros ts Hts. rewrite Hts in *. cbn [ApiRoute.status ApiRoute.payload] in *.
    assert (Hok : ok r = true) by (unfold ok; rewrite Hstatus; reflexivity).
    rewrite (from_response_strings pr r _ ts Hok (Hbody _ eq_refl) eq_refl).
    reflexivity.
Qed.

Lemma widget_through_route_witness :
  let pr := {| AIRecommender.currentProductTitle := Some "Red shirt";
               AIRecommender.currentProductDescription := None;
               AIRecommender.availableProducts :=
                 [Sample.product "red-shirt"; Sample.product "blue-hat"];
               AIRecommender.userQuery := None;
               AIRecommender.fallbackProducts := Sample.six |} in
  let r := Sample.ok_with (Str.dq "{'recommendations':['blue-hat']}") in
  snd (AIRecommender.fetchRecommendations (fun _ => ret r) pr AIRecommender.initial)
  = {| AIRecommender.recommendedProducts :=
         Sample.product "blue-hat"
         :: [Sample.product "f1"; Sample.product "f2"; Sample.product "f3";
             Sample.product "f4"; Sample.product "f5"];
       AIRecommender.loading := false;
       AIRecommender.error := None |}.
Proof.
  intros pr r.
  refine (proj2 (proj2 (proj2
            (widget_through_route
               (Sample.always (Sample.ok_with (Sample.envelope (Str.dq "[\'blue-hat\']"))))
               "key" pr AIRecommender.initial r _ _ _ _)))
            ["blue-hat"] _).
  - discriminate.
  - discriminate.
  - vm_compute. reflexivity.
  - intros recommendations H. vm_compute in H. injection H as <-.
    vm_compute. reflexivity.
  - vm_compute. reflexivity.
Defined.


(** ** The shape of the extracted text *)

(** X27: the shape of the text [extractPlainText] returns, for every
    value.  The result is either the value itself, unchanged (the empty
    string for a missing value), or a text without leading, trailing or
    repeated white space, on which collapsing and trimming again changes
    nothing.  The value comes back unchanged when it is no JSON text and
    when the walk does not end in a string. *)
Theorem extractPlainText_shape (value : option string) :
  let out := Bundle.extractPlainText value in
  (out = Bundle.or_empty value
   \/ (Str.trim (Str.replace_ws " " out) = out
       /\ out = Str.join " " (Str.words out)))
  /\ (forall v node,
        value = Some v -> Json.parse v = Some node ->
        (exists text, Bundle.walk node = ret (JString text)) ->
        Str.trim (Str.replace_ws " " out) = out)
  /\ (forall v, value = Some v -> Json.parse v = None -> out = v)
  /\ (forall v node,
        value = Some v -> Json.parse v = Some node ->
        (forall text, Bundle.walk node <> ret (JString text)) -> out = v).
Proof.
  cbv zeta.
  assert (Hsome : forall v node,
             Json.parse v = Some node ->
             Bundle.extractPlainText (Some v)
             = match Bundle.walk node with
               | inr (JString text) => Str.trim (Str.replace_ws " " text)
               | _ => v
               end) by exact extractPlainText_parsed.
  assert (Hnone : forall v, Json.parse v = None -> Bundle.extractPlainText (Some v) = v)
    by exact extractPlainText_malformed.
  split; [|split; [|split]].
  - destruct value as [v|]; [|left; reflexivity].
    destruct (Json.parse v) as [node|] eqn:Hp; [|left; apply Hnone, Hp].
    rewrite (Hsome v node Hp).
    destruct (Bundle.walk node) as [e|[]]; try (left; reflexivity).
    right. split; [apply normalize_idempotent|].
    rewrite <- normalize_words. symmetry. apply normalize_idempotent.
  - intros v node -> Hp (text & Ht). rewrite (Hsome v node Hp), Ht.
    apply normalize_idempotent.
  - intros v -> Hp. apply Hnone, Hp.
  - intros v node -> Hp Hw. rewrite (Hsome v node Hp).
    destruct (Bundle.walk node) as [e|[]]; try reflexivity. destruct (Hw s eq_refl).
Qed.

(** ** Examples *)

Lemma lib_falls_back_witness :
  Gemini.getRecommendationsWithFallback (Sample.always Fixture.unavailable) None
    (Fixture.context None None [Sample.product "a"])
    (Sample.six ++ [Sample.product "f7"])
  = ([], Sample.six).
Proof.
  apply (proj1 (proj2 (lib_falls_back (Sample.always Fixture.unavailable) None
                         (Fixture.context None None [Sample.product "a"])
                         (Sample.six ++ [Sample.product "f7"])))).
  left. reflexivity.
Defined.

Lemma formatBundleFields_keys_witness :
  is_Some
    (Bundle.formatBundleFields
       [Sample.file_field "__proto__" None None;
        Sample.file_field "__proto__" (Some "gid://shopify/MediaImage/1") None]
     !! "__proto__")
  /\ Bundle.formatBundleFields
       [Sample.file_field "__proto__" (Some "gid://shopify/MediaImage/1") None;
        Sample.file_field "__proto__" None None]
     !! "__proto__" = None.
Proof.
  split; [|vm_compute; reflexivity].
  apply (proj2 (proj1 (proj2
           (formatBundleFields_keys
              [Sample.file_field "__proto__" None None;
               Sample.file_field "__proto__" (Some "gid://shopify/MediaImage/1") None]
              "__proto__")))).
  exists [], (Sample.file_field "__proto__" None None), [],
    (Sample.file_field "__proto__" (Some "gid://shopify/MediaImage/1") None), [].
  split; [reflexivity|]. split; [reflexivity|]. split; [|reflexivity].
  split; [discriminate|]. split; reflexivity.
Defined.

Lemma collectProducts_fields_witness :
  Bundle.collectProducts
    [Sample.file_field "hero" None
       (Some (Bundle.RProduct (Bundle.product (Sample.priced "10"))))]
  = [].
Proof.
  apply (proj2 (proj2 (proj2
           (collectProducts_fields
              [Sample.file_field "hero" None
                 (Some (Bundle.RProduct (Bundle.product (Sample.priced "10"))))] [])))).
  constructor; [reflexivity|constructor].
Defined.

Lemma index_card_witness :
  let b := {| BundlesIndex.id := "gid://shopify/Metaobject/1";
              BundlesIndex.handle := "summer";
              BundlesIndex.fields :=
                [{| BundlesIndex.key := "bundle_type";
                    BundlesIndex.value := Some "percentage" |}] |} in
  BundlesIndex.offer (BundlesIndex.render_card b) = "Bundle & save undefined%"
  /\ BundlesIndex.discount_badge (BundlesIndex.render_card b) = None.
Proof.
  intros b.
  refine (proj1 (proj2 (proj2 (proj2 (proj2 (proj2 (index_card b)))) _)) _).
  - reflexivity.
  - constructor; [discriminate|constructor].
Defined.

